(** * flights-mcp-server: the query, filter/sort and formatting pipeline

    A shallow embedding of [src/flights.py].  The four tools
    ([get_general_flights_info], [get_cheapest_flights], [get_best_flights],
    [get_time_filtered_flights]), the helper [format_flight_info] and the
    two Playwright set-up helpers ([ensure_playwright_browsers],
    [check_playwright_setup]) are translated function by function.  What
    they use of Python itself
    ([str.split], [float], [sorted], [datetime.strptime], slicing, exceptions)
    is modelled first.

    Conventions.
    - A Python [str] is a [string]; each [ascii] stands for one code point
      below 256, so the model covers the Latin-1 strings.
    - A Python [int] is a [Z].
    - A Python [float] is a [PyFloat.t]: NaN, the two infinities, or a finite
      binary64 value x kept as the integer x * 2^1074.
    - What is raised carries the text [str(e)] and is told apart by class
      as far as the handlers of the tools do: [httpx.RequestError],
      [ValueError], any other [Exception], and what is derived from
      [BaseException] only, which the handlers let through.
    - The fast_flights library is used in two steps: [FlightData],
      [Passengers] and [create_filter] build the filter of a request, or
      raise; [get_flights_from_filter], followed by [asdict], asks the
      backend, which answers by a payload or by an exception. *)

From Stdlib Require Import String Ascii List ZArith Lia Bool.
From Stdlib Require Import Permutation Sorted DecimalString.
Import ListNotations.
Local Open Scope string_scope.
Local Open Scope Z_scope.

(* ================================================================== *)
(** ** Python strings *)

Module PyStr.

(** [str.isspace] for one code point below 256: TAB..CR, FS..US, SPACE,
    NEL (0x85) and NBSP (0xA0). *)
Definition isspace (c : ascii) : bool :=
  let n := Z.of_nat (nat_of_ascii c) in
  ((9 <=? n) && (n <=? 13)) || ((28 <=? n) && (n <=? 32))
  || (n =? 133) || (n =? 160).

Definition is_empty (s : string) : bool :=
  match s with EmptyString => true | String _ _ => false end.

(** The scan behind [s.split()]: [cur] is the token being read. *)
Fixpoint split_from (cur s : string) : list string :=
  match s with
  | EmptyString => if is_empty cur then [] else [cur]
  | String c s' =>
      if isspace c
      then (if is_empty cur then split_from EmptyString s'
            else cur :: split_from EmptyString s')
      else split_from (cur ++ String c EmptyString) s'
  end.

(** [s.split()]: the maximal runs of non-whitespace, none of them empty. *)
Definition split (s : string) : list string := split_from EmptyString s.

(** The scan behind [s.split(sep)] for a one-character separator. *)
Fixpoint split_on_from (sep : ascii) (cur s : string) : list string :=
  match s with
  | EmptyString => [cur]
  | String c s' =>
      if Ascii.eqb c sep then cur :: split_on_from sep EmptyString s'
      else split_on_from sep (cur ++ String c EmptyString) s'
  end.

(** [s.split(sep)]: every occurrence of [sep] separates, empty fields are
    kept, and the result is never empty. *)
Definition split_on (sep : ascii) (s : string) : list string :=
  split_on_from sep EmptyString s.

(** [sep.join(l)]. *)
Fixpoint join (sep : string) (l : list string) : string :=
  match l with
  | [] => EmptyString
  | [x] => x
  | x :: l' => x ++ sep ++ join sep l'
  end.

(** [s.rstrip(ch)] for a one-character set. *)
Fixpoint rstrip (ch : ascii) (s : string) : string :=
  match s with
  | EmptyString => EmptyString
  | String c s' =>
      match rstrip ch s' with
      | EmptyString =>
          if Ascii.eqb c ch then EmptyString else String c EmptyString
      | r => String c r
      end
  end.

(** [s.endswith(suf)]. *)
Definition endswith (s suf : string) : bool :=
  (String.length suf <=? String.length s)%nat
  && String.eqb
       (substring (String.length s - String.length suf) (String.length suf) s)
       suf.

(** [s.endswith((a, b, c))]: a tuple of suffixes. *)
Definition endswith_any (s : string) (sufs : list string) : bool :=
  existsb (endswith s) sufs.

(** [needle in hay]: [needle] starts at some position of [hay]. *)
Fixpoint find_in (needle hay : string) : bool :=
  String.prefix needle hay
  || match hay with
     | EmptyString => false
     | String _ hay' => find_in needle hay'
     end.

(** [s[:n]]. *)
Definition take (n : nat) (s : string) : string := substring 0 n s.

(** [s.replace(ch, '')] for a one-character [ch]. *)
Fixpoint remove_char (ch : ascii) (s : string) : string :=
  match s with
  | EmptyString => EmptyString
  | String c s' =>
      if Ascii.eqb c ch then remove_char ch s' else String c (remove_char ch s')
  end.

(** [str(n)] for an [int]. *)
Definition str_of_int (n : Z) : string := NilZero.string_of_int (Z.to_int n).

Definition hex_digit (n : Z) : ascii :=
  ascii_of_nat (Z.to_nat (if n <? 10 then 48 + n else 87 + n)).

(** Is the code point printed as it is by [repr]?  Below 256 the
    non-printable ones are the controls 0..31 and 127..159, NBSP and the
    soft hyphen. *)
Definition isprintable (c : ascii) : bool :=
  let n := Z.of_nat (nat_of_ascii c) in
  negb ((n <? 32) || ((127 <=? n) && (n <=? 160)) || (n =? 173)).

Definition contains (ch : ascii) (s : string) : bool :=
  existsb (Ascii.eqb ch) (list_ascii_of_string s).

Definition backslash : ascii := ascii_of_nat 92.
Definition squote : ascii := ascii_of_nat 39.
Definition dquote : ascii := ascii_of_nat 34.

Definition repr_char (quote c : ascii) : string :=
  let n := Z.of_nat (nat_of_ascii c) in
  let esc (x : ascii) := String backslash (String x EmptyString) in
  if Ascii.eqb c quote || Ascii.eqb c backslash then esc c
  else if n =? 9 then esc "t"%char
  else if n =? 10 then esc "n"%char
  else if n =? 13 then esc "r"%char
  else if isprintable c then String c EmptyString
  else String backslash
         (String "x"%char
            (String (hex_digit (n / 16))
               (String (hex_digit (n mod 16)) EmptyString))).

Fixpoint repr_body (quote : ascii) (s : string) : string :=
  match s with
  | EmptyString => EmptyString
  | String c s' => repr_char quote c ++ repr_body quote s'
  end.

(** [repr(s)]: single quotes, unless [s] has a single quote and no double
    quote. *)
Definition repr (s : string) : string :=
  let quote : ascii :=
    if contains squote s && negb (contains dquote s) then dquote else squote in
  String quote (repr_body quote s ++ String quote EmptyString).

End PyStr.

(* ================================================================== *)
(** ** Exceptions *)

(** What can be raised, in the classes the handlers of the tools tell
    apart, each with the text of [str(e)]: [httpx.RequestError],
    [ValueError], every other class derived from [Exception], and the
    classes that are derived from [BaseException] without being derived
    from [Exception] ([asyncio.CancelledError], [KeyboardInterrupt],
    [SystemExit], [GeneratorExit]), told apart by the name of the class.
    No [except] clause of the tools catches one of the last. *)
Inductive exn : Type :=
| RequestError (detail : string)
| ValueError (detail : string)
| OtherError (detail : string)
| BaseException (class_name detail : string).

(** [isinstance(e, Exception)]. *)
Definition is_exception (e : exn) : bool :=
  match e with
  | BaseException _ _ => false
  | _ => true
  end.

Inductive result (A : Type) : Type :=
| Ok (a : A)
| Raise (e : exn).
Arguments Ok {A} a.
Arguments Raise {A} e.

Definition rbind {A B : Type} (r : result A) (k : A -> result B) : result B :=
  match r with
  | Ok a => k a
  | Raise e => Raise e
  end.

(** [[f(x) for x in l]], stopping at the first exception. *)
Fixpoint rmap {A B : Type} (f : A -> result B) (l : list A) : result (list B) :=
  match l with
  | [] => Ok []
  | x :: l' => rbind (f x) (fun y => rbind (rmap f l') (fun ys => Ok (y :: ys)))
  end.

(** [IndexError] of an out-of-range list subscript. *)
Definition IndexError : exn := OtherError "list index out of range".

(** [l[i]] for a constant index [i >= 0]. *)
Definition subscript {A : Type} (l : list A) (i : nat) : result A :=
  match nth_error l i with
  | Some x => Ok x
  | None => Raise IndexError
  end.

(* ================================================================== *)
(** ** [datetime.strptime(s, '%I:%M %p').time()] *)

Module PyTime.

(** A naive [datetime.time]; seconds and microseconds are always zero
    here. *)
Record time : Type := mkTime { hour : Z; minute : Z }.

(** [a < b] and [a >= b] on [datetime.time]: the order of the pairs
    (hour, minute). *)
Definition ltb (a b : time) : bool :=
  (hour a <? hour b) || ((hour a =? hour b) && (minute a <? minute b)).
Definition geb (a b : time) : bool := negb (ltb a b).

Definition digit (c : ascii) : option Z :=
  let n := Z.of_nat (nat_of_ascii c) in
  if (48 <=? n) && (n <=? 57) then Some (n - 48) else None.

Definition in_range (lo hi : Z) (c : ascii) : option Z :=
  match digit c with
  | Some d => if (lo <=? d) && (d <=? hi) then Some d else None
  | None => None
  end.

(** The format is compiled to the regular expression
      (?P<I>1[0-2]|0[1-9]|[1-9]):(?P<M>[0-5]\d|\d)\s+(?P<p>am|pm)
    matched at the start of the string, ignoring case.  Each piece below
    lists the ways it can match a prefix, in the order the matcher tries
    them, with the rest of the string. *)
Definition alts_I (s : string) : list (Z * string) :=
  match s with
  | String a r =>
      (match r with
       | String b r' =>
           (match in_range 1 1 a, in_range 0 2 b with
            | Some _, Some d => [(10 + d, r')]
            | _, _ => []
            end)
           ++
           (match in_range 0 0 a, in_range 1 9 b with
            | Some _, Some d => [(d, r')]
            | _, _ => []
            end)
       | EmptyString => []
       end)
      ++
      (match in_range 1 9 a with
       | Some d => [(d, r)]
       | None => []
       end)
  | EmptyString => []
  end.

Definition alts_M (s : string) : list (Z * string) :=
  match s with
  | String a r =>
      (match r with
       | String b r' =>
           (match in_range 0 5 a, digit b with
            | Some d1, Some d2 => [(10 * d1 + d2, r')]
            | _, _ => []
            end)
       | EmptyString => []
       end)
      ++
      (match digit a with
       | Some d => [(d, r)]
       | None => []
       end)
  | EmptyString => []
  end.

Definition lit (c : ascii) (s : string) : list string :=
  match s with
  | String a r => if Ascii.eqb a c then [r] else []
  | EmptyString => []
  end.

(** [\s+], greedy: the longest run first. *)
Fixpoint alts_spaces (s : string) : list string :=
  match s with
  | String a r => if PyStr.isspace a then alts_spaces r ++ [r] else []
  | EmptyString => []
  end.

Definition lower (c : ascii) : ascii :=
  let n := nat_of_ascii c in
  if ((65 <=? n) && (n <=? 90))%nat then ascii_of_nat (n + 32) else c.

(** [am|pm]: [false] for am, [true] for pm. *)
Definition alts_p (s : string) : list (bool * string) :=
  match s with
  | String a (String b r) =>
      if Ascii.eqb (lower b) "m"
      then (if Ascii.eqb (lower a) "a" then [(false, r)] else [])
           ++ (if Ascii.eqb (lower a) "p" then [(true, r)] else [])
      else []
  | _ => []
  end.

(** The first match of the whole expression: the groups and what is left
    of the string. *)
Definition regex_match (s : string) : option (Z * Z * bool * string) :=
  hd_error
    (flat_map (fun '(h, r1) =>
     flat_map (fun r2 =>
     flat_map (fun '(m, r3) =>
     flat_map (fun r4 =>
     map (fun '(p, r5) => (h, m, p, r5)) (alts_p r4))
       (alts_spaces r3)) (alts_M r2)) (lit ":" r1)) (alts_I s)).

(** [_strptime] for this format, then [.time()], with the am/pm names of
    the C and English locales.  12 AM is hour 0, 12 PM is hour 12. *)
Definition strptime (s : string) : result time :=
  match regex_match s with
  | None =>
      Raise (ValueError ("time data " ++ PyStr.repr s
                         ++ " does not match format '%I:%M %p'"))
  | Some (h, m, pm, rest) =>
      if PyStr.is_empty rest then
        let h' := if pm then (if h =? 12 then 12 else h + 12)
                  else (if h =? 12 then 0 else h) in
        Ok (mkTime h' m)
      else Raise (ValueError ("unconverted data remains: " ++ rest))
  end.

End PyTime.

(* ================================================================== *)
(** ** [float] *)

Module PyFloat.

(** A binary64 value.  [Fin n] is the finite value n * 2^-1074: every finite
    binary64 is such a multiple, with |n| < 2^2098, and both zeros are
    [Fin 0] (they compare equal). *)
Inductive t : Type :=
| NaN
| NegInf
| Fin (n : Z)
| PosInf.

(** [a < b]: false as soon as one side is NaN. *)
Definition ltb (a b : t) : bool :=
  match a, b with
  | NaN, _ | _, NaN => false
  | _, NegInf => false
  | NegInf, _ => true
  | PosInf, _ => false
  | Fin _, PosInf => true
  | Fin x, Fin y => x <? y
  end.

(** [a == b]. *)
Definition eqb (a b : t) : bool :=
  match a, b with
  | NegInf, NegInf | PosInf, PosInf => true
  | Fin x, Fin y => x =? y
  | _, _ => false
  end.

Definition is_nan (a : t) : bool :=
  match a with NaN => true | _ => false end.

(** [float('inf')]. *)
Definition inf : t := PosInf.

(** The integer nearest to num/den, ties to the even one (den > 0). *)
Definition round_half_even (num den : Z) : Z :=
  let q := num / den in
  match 2 * (num mod den) ?= den with
  | Lt => q
  | Gt => q + 1
  | Eq => if Z.even q then q else q + 1
  end.

(** The binary64 nearest to num/den (num >= 0, den > 0), ties to even, in
    units of 2^-1074; [None] when it overflows.  Below 2^53 units the
    spacing of the format is one unit; a value of 53+k bits is rounded to
    a multiple of 2^k. *)
Definition round64 (num den : Z) : option Z :=
  let scaled := num * 2 ^ 1074 in
  let shift := Z.max 0 (Z.log2 (scaled / den) + 1 - 53) in
  let v := round_half_even scaled (den * 2 ^ shift) * 2 ^ shift in
  if 2 ^ 2098 <=? v then None else Some v.

(** The float of (-1)^neg * mant * 10^exp10, correctly rounded, as the
    string conversion of CPython does; an overflow gives an infinity. *)
Definition of_decimal (neg : bool) (mant exp10 : Z) : t :=
  let r := if 0 <=? exp10 then round64 (mant * 10 ^ exp10) 1
           else round64 mant (10 ^ (- exp10)) in
  match r with
  | Some v => Fin (if neg then - v else v)
  | None => if neg then NegInf else PosInf
  end.

(** What [float] strips at both ends: the ASCII whitespace, and NEL and
    NBSP (turned into spaces before parsing). *)
Definition isspace (c : ascii) : bool :=
  let n := Z.of_nat (nat_of_ascii c) in
  ((9 <=? n) && (n <=? 13)) || (n =? 32) || (n =? 133) || (n =? 160).

Fixpoint lstrip (l : list ascii) : list ascii :=
  match l with
  | c :: l' => if isspace c then lstrip l' else l
  | [] => []
  end.

Definition strip (l : list ascii) : list ascii :=
  rev (lstrip (rev (lstrip l))).

Definition is_digit (c : ascii) : bool :=
  match PyTime.digit c with Some _ => true | None => false end.

(** Underscores: each one must stand between two digits; they are then
    dropped.  [prev] is the character before. *)
Fixpoint drop_underscores (prev : ascii) (l : list ascii)
  : option (list ascii) :=
  match l with
  | [] => if Ascii.eqb prev "_" then None else Some []
  | c :: l' =>
      if Ascii.eqb c "_" then
        if is_digit prev then drop_underscores c l' else None
      else if Ascii.eqb prev "_" && negb (is_digit c) then None
      else option_map (cons c) (drop_underscores c l')
  end.

Fixpoint span_digits (l : list ascii) : list Z * list ascii :=
  match l with
  | c :: l' =>
      match PyTime.digit c with
      | Some d => let '(ds, r) := span_digits l' in (d :: ds, r)
      | None => ([], l)
      end
  | [] => ([], [])
  end.

Definition digits_value (ds : list Z) : Z :=
  fold_left (fun acc d => 10 * acc + d) ds 0.

Definition parse_sign (l : list ascii) : bool * list ascii :=
  match l with
  | c :: r =>
      if Ascii.eqb c "-" then (true, r)
      else if Ascii.eqb c "+" then (false, r)
      else (false, l)
  | [] => (false, [])
  end.

Definition no_digit (ds : list Z) : bool :=
  match ds with [] => true | _ :: _ => false end.

(** digits [. digits] [e [sign] digits], with a digit before or after the
    point, and nothing left over: the mantissa and the decimal exponent. *)
Definition parse_number (l : list ascii) : option (Z * Z) :=
  let '(ip, r1) := span_digits l in
  let '(fp, r2) :=
    match r1 with
    | c :: r => if Ascii.eqb c "." then span_digits r else ([], r1)
    | [] => ([], r1)
    end in
  if no_digit ip && no_digit fp then None
  else
    let mant := digits_value (ip ++ fp) in
    let scale := Z.of_nat (length fp) in
    match r2 with
    | [] => Some (mant, - scale)
    | c :: r3 =>
        if Ascii.eqb (PyTime.lower c) "e" then
          let '(eneg, r4) := parse_sign r3 in
          let '(ep, r5) := span_digits r4 in
          match ep, r5 with
          | _ :: _, [] =>
              let e := digits_value ep in
              Some (mant, (if eneg then - e else e) - scale)
          | _, _ => None
          end
        else None
    end.

Definition lower_string (l : list ascii) : string :=
  string_of_list_ascii (map PyTime.lower l).

(** [float(s)] for a [str]; [None] stands for the [ValueError]. *)
Definition float (s : string) : option t :=
  match drop_underscores zero (strip (list_ascii_of_string s)) with
  | None => None
  | Some l =>
      let '(neg, body) := parse_sign l in
      let w := lower_string body in
      if String.eqb w "inf" || String.eqb w "infinity"
      then Some (if neg then NegInf else PosInf)
      else if String.eqb w "nan" then Some NaN
      else
        match parse_number body with
        | Some (mant, e) => Some (of_decimal neg mant e)
        | None => None
        end
  end.

End PyFloat.

(* ================================================================== *)
(** ** Lists: [sorted], slices *)

Module PyList.

Section Sorted.
Context {A : Type} (key : A -> PyFloat.t).

(** [x] enters a sorted list from the left and moves past the elements
    whose key is strictly smaller than its own. *)
Fixpoint insert (x : A) (l : list A) : list A :=
  match l with
  | [] => [x]
  | y :: l' =>
      if PyFloat.ltb (key y) (key x) then y :: insert x l' else x :: l
  end.

(** [sorted(l, key=key)].  Python's sort is stable and compares the keys
    with [<] only.  It is modelled by insertion from the right.  Where [<]
    orders the keys (none is NaN) a list has one stable sort
    ([stable_sort_is_sorted] below), so that every stable algorithm,
    CPython's among them, returns this list.  With a NaN among the keys the
    outcome follows the comparisons an algorithm happens to make, and
    CPython's can differ from this one; on a list no element of which is
    below its left neighbour, CPython finds one ascending run and returns
    the list as it is, and so does the insertion. *)
Definition sorted (l : list A) : list A := fold_right insert [] l.

End Sorted.

(** [l[0:stop]]: a negative [stop] counts from the end. *)
Definition slice_to {A : Type} (l : list A) (stop : Z) : list A :=
  let n := Z.of_nat (length l) in
  let stop' := if stop <? 0 then Z.max 0 (stop + n) else Z.min stop n in
  firstn (Z.to_nat stop') l.

(** [len(l)]. *)
Definition len {A : Type} (l : list A) : Z := Z.of_nat (length l).

(** [not l]. *)
Definition is_nil {A : Type} (l : list A) : bool :=
  match l with [] => true | _ :: _ => false end.

End PyList.

(* ================================================================== *)
(** ** Data model *)

(** What a flight dict has for the price.  [get_price_value] reads it with
    [flight.get('price')] and so provides for a dict without the key and
    for the value [None]; [format_flight_info] subscripts the dict. *)
Inductive price_entry : Type :=
| NoPriceKey
| PriceNone
| Price (s : string).

(** What a flight dict has for the stops: an [int], or a [str] (fast_flights
    writes ['Unknown'] when it cannot read the number of stops). *)
Inductive stops_entry : Type :=
| StopsInt (n : Z)
| StopsStr (s : string).
Coercion StopsInt : Z >-> stops_entry.

(** One flight of the backend, as the dict [asdict] gives: the keys the
    code reads. *)
Record flight : Type := mkFlight {
  is_best : bool;
  name : string;
  departure : string;
  arrival : string;
  duration : string;
  stops : stops_entry;
  price : price_entry
}.

(** The dict [asdict(result)]: either it has no key [flights] (the tools
    test for that), or it is the dict of a fast_flights [Result], with its
    aggregate price and its flights. *)
Inductive payload : Type :=
| NoFlightsKey
| ResultDict (current_price : string) (flights : list flight).

(** The arguments the four tools share. *)
Record query : Type := mkQuery {
  origin : string;
  destination : string;
  departure_date : string;
  trip_type : string;
  seat : string;
  adults : Z;
  children : Z;
  infants_in_seat : Z;
  infants_on_lap : Z
}.

(** The filter [create_filter] makes of the arguments of a tool, and that
    [get_flights_from_filter] is asked with. *)
Record TFSData : Type := mkFilter { request : query }.

(** fast_flights, as far as the tools use it.  [create_filter] stands for
    the three calls that build the filter of a request ([FlightData],
    [Passengers] and [create_filter], lines 211-221): they ask nothing of
    the backend, and they raise on arguments they do not accept.
    [get_flights_from_filter] is the request to the backend (line 223),
    followed by [asdict]. *)
Record Backend : Type := mkBackend {
  create_filter : query -> result TFSData;
  get_flights_from_filter : TFSData -> result payload
}.

(** What the calls of a tool into fast_flights, taken together, answer to
    a query; [backend q] is written for it. *)
Definition answer (backend : Backend) (q : query) : result payload :=
  rbind (create_filter backend q) (get_flights_from_filter backend).
Coercion answer : Backend >-> Funclass.

(** Does fast_flights accept the arguments, so that the backend is asked? *)
Definition filter_built (backend : Backend) (q : query) : bool :=
  match create_filter backend q with
  | Ok _ => true
  | Raise _ => false
  end.

(* ================================================================== *)
(** ** The monad of the tools: exceptions, and the log of the requests
    to the backend *)

Definition M (A : Type) : Type := list query -> result A * list query.

Definition ret {A : Type} (a : A) : M A := fun log => (Ok a, log).

Definition raise {A : Type} (e : exn) : M A := fun log => (Raise e, log).

Definition bind {A B : Type} (m : M A) (k : A -> M B) : M B :=
  fun log =>
    match m log with
    | (Ok a, log') => k a log'
    | (Raise e, log') => (Raise e, log')
    end.

Definition lift {A : Type} (r : result A) : M A := fun log => (r, log).

(** [try: body  except ...: handler]. *)
Definition try_except {A : Type} (body : M A) (handler : exn -> M A) : M A :=
  fun log =>
    match body log with
    | (Ok a, log') => (Ok a, log')
    | (Raise e, log') => handler e log'
    end.

(** Lines 211-225 of a tool: the filter is built, and then the backend is
    asked with it.  The request to the backend is logged, under the query
    of the call; when the filter cannot be built there is no request. *)
Definition invoke (backend : Backend) (q : query) : M payload :=
  fun log =>
    match create_filter backend q with
    | Ok filter => (get_flights_from_filter backend filter, (log ++ [q])%list)
    | Raise e => (Raise e, log)
    end.

(** A tool call from the start: what it returns or raises, and the
    requests it made to the backend. *)
Definition run {A : Type} (m : M A) : result A * list query := m [].

Declare Scope tool_scope.
Delimit Scope tool_scope with tool.
Notation "x <- m ;; k" := (bind m (fun x => k))
  (at level 61, m at next level, right associativity) : tool_scope.
Notation "'let!' x ':=' r 'in' k" := (rbind r (fun x => k))
  (at level 10, x name, r at level 100, k at level 200).

(* ================================================================== *)
(** ** format_flight_info *)

(** The duration part of [format_flight_info] (lines 106-111). *)
Definition duration_formatted (duration : string) : string :=
  let duration_parts := PyStr.split duration in
  if (length duration_parts =? 4)%nat
  then nth 0 duration_parts EmptyString ++ " hours and "
       ++ nth 2 duration_parts EmptyString ++ " minutes"
  else duration.

Definition month_map : list (string * string) :=
  [("Jan", "January"); ("Feb", "February"); ("Mar", "March");
   ("Apr", "April"); ("May", "May"); ("Jun", "June");
   ("Jul", "July"); ("Aug", "August"); ("Sep", "September");
   ("Oct", "October"); ("Nov", "November"); ("Dec", "December")].

Definition day_map : list (string * string) :=
  [("Mon", "Monday"); ("Tue", "Tuesday"); ("Wed", "Wednesday");
   ("Thu", "Thursday"); ("Fri", "Friday"); ("Sat", "Saturday");
   ("Sun", "Sunday")].

(** [d.get(k, default)]. *)
Fixpoint dict_get (d : list (string * string)) (k default : string) : string :=
  match d with
  | [] => default
  | (k', v) :: d' => if String.eqb k k' then v else dict_get d' k default
  end.

(** The ordinal suffix [expand_date] appends to the day. *)
Definition ordinal_suffix (day : string) : string :=
  if negb (PyStr.endswith_any day ["1"; "2"; "3"])
     || PyStr.endswith_any day ["11"; "12"; "13"]
  then "th"
  else if PyStr.endswith day "1" then "st"
  else if PyStr.endswith day "2" then "nd"
  else if PyStr.endswith day "3" then "rd"
  else "th".

Definition expand_date (date_str : string) : result string :=
  let parts := PyStr.split date_str in
  let! p0 := subscript parts 0 in
  let! p1 := subscript parts 1 in
  let time := p0 ++ " " ++ p1 in
  let! p3 := subscript parts 3 in
  let day_abbr := PyStr.rstrip "," p3 in
  let! month_abbr := subscript parts 4 in
  let! day := subscript parts 5 in
  let full_day := dict_get day_map day_abbr day_abbr in
  let full_month := dict_get month_map month_abbr month_abbr in
  let day_with_suffix := day ++ ordinal_suffix day in
  Ok (time ++ " on " ++ full_day ++ ", " ++ full_month ++ " "
      ++ day_with_suffix).

(** [KeyError] of a dict subscript; its text is the [repr] of the key. *)
Definition KeyError (key : string) : exn := OtherError (PyStr.repr key).

(** [f"{flight_data['price']}"]. *)
Definition str_of_price (p : price_entry) : result string :=
  match p with
  | NoPriceKey => Raise (KeyError "price")
  | PriceNone => Ok "None"
  | Price s => Ok s
  end.

(** [TypeError] of [stops > 0] when [stops] is a [str]. *)
Definition TypeError_str_int : exn :=
  OtherError "'>' not supported between instances of 'str' and 'int'".

(** The stops part of [format_flight_info] (lines 149-150). *)
Definition stops_text (stops : stops_entry) : result string :=
  match stops with
  | StopsInt stops =>
      Ok (if stops >? 0
          then PyStr.str_of_int stops ++ " stop"
               ++ (if negb (stops =? 1) then "s" else EmptyString)
          else "non-stop")
  | StopsStr _ => Raise TypeError_str_int
  end.

Definition format_flight_info (flight_data : flight)
    (origin_airport destination_airport : string) : result string :=
  let duration_formatted := duration_formatted (duration flight_data) in
  let best_flight_qualifier :=
    if is_best flight_data
    then "considered one of the best options by Google Flights"
    else "an available option" in
  let! stops_text := stops_text (stops flight_data) in
  let! dep := expand_date (departure flight_data) in
  let! arr := expand_date (arrival flight_data) in
  let! price := str_of_price (price flight_data) in
  Ok ("This flight departs at " ++ dep ++ " from " ++ origin_airport
      ++ ", local time, "
      ++ "and arrives at " ++ arr ++ " in " ++ destination_airport
      ++ ", local time. "
      ++ "The flight is operated by " ++ name flight_data
      ++ " and has a duration of " ++ duration_formatted ++ " "
      ++ "with " ++ stops_text ++ " in between. "
      ++ "And it's price is " ++ price
      ++ " and is " ++ best_flight_qualifier ++ "!").

(* ================================================================== *)
(** ** The four tools *)

Local Open Scope tool_scope.

(** [s[i] != ch].  The length test before it keeps [i] in range. *)
Definition char_differs (s : string) (i : nat) (ch : ascii) : bool :=
  match String.get i s with
  | Some c => negb (Ascii.eqb c ch)
  | None => true
  end.

Definition strlen (s : string) : Z := Z.of_nat (String.length s).

Definition bad_airports (q : query) : bool :=
  negb (strlen (origin q) =? 3) || negb (strlen (destination q) =? 3).

Definition bad_date (q : query) : bool :=
  negb (strlen (departure_date q) =? 10)
  || char_differs (departure_date q) 4 "-"
  || char_differs (departure_date q) 7 "-".

Definition bad_trip_type (q : query) : bool :=
  negb (String.eqb (trip_type q) "one-way")
  && negb (String.eqb (trip_type q) "round-trip").

Definition bad_seat (q : query) : bool :=
  negb (String.eqb (seat q) "economy")
  && negb (String.eqb (seat q) "premium-economy")
  && negb (String.eqb (seat q) "business")
  && negb (String.eqb (seat q) "first").

Definition bad_state (state : string) : bool :=
  negb (String.eqb state "before") && negb (String.eqb state "after").

Definition msg_airports : string :=
  "Origin and destination must be 3 characters.".
Definition msg_date : string :=
  "Departure date must be in YYYY-MM-DD format.".
Definition msg_trip_type : string :=
  "Trip type must be either 'one-way' or 'round-trip'.".
Definition msg_seat : string :=
  "Seat type must be either 'economy', 'premium-economy', 'business', or 'first'.".
Definition msg_state : string :=
  "State must be either 'before' or 'after'.".
Definition msg_time : string :=
  "Invalid time format. Please use HH:MM AM/PM format (e.g., '7:00 PM').".
Definition msg_no_data : string :=
  "No flight data available for the specified route and dates.".
Definition msg_no_flights : string :=
  "No flights found for the specified route and dates.".
Definition msg_no_best : string :=
  "No best flights found for the specified route and dates.".
Definition msg_unreachable : string :=
  "Unable to connect to the flight search service. Please try again later.".

(** The three [except] clauses that close every tool: [httpx.RequestError],
    [ValueError], [Exception].  What none of them matches goes on to the
    caller. *)
Definition handlers (e : exn) : M (list string) :=
  match e with
  | RequestError _ => ret [msg_unreachable]
  | ValueError d => ret ["Invalid data received: " ++ d]
  | OtherError d =>
      ret ["An unexpected error occurred while searching for flights: " ++ d]
  | BaseException _ _ => raise e
  end.

(** The loop that formats the selected flights. *)
Definition format_all (top_n_flights : list flight)
    (origin_airport destination_airport : string) : result (list string) :=
  rmap (fun flight =>
          format_flight_info flight origin_airport destination_airport)
       top_n_flights.

(** [bad] is the first of [records] that the loop cannot format, and [e]
    is what [format_flight_info] raises on it. *)
Definition first_unformattable (records : list flight) (q : query)
    (bad : flight) (e : exn) : Prop :=
  exists good rest,
    records = (good ++ bad :: rest)%list
    /\ Forall (fun f => exists line,
                 format_flight_info f (origin q) (destination q) = Ok line)
         good
    /\ format_flight_info bad (origin q) (destination q) = Raise e.

(** The key [get_cheapest_flights] sorts by. *)
Definition get_price_value (flight : flight) : PyFloat.t :=
  match price flight with
  | NoPriceKey | PriceNone => PyFloat.inf
  | Price price_str =>
      if PyStr.is_empty price_str || String.eqb price_str "Price unavailable"
      then PyFloat.inf
      else
        let price_str :=
          PyStr.remove_char "," (PyStr.remove_char "$" price_str) in
        match PyFloat.float price_str with
        | Some x => x
        | None => PyFloat.inf
        end
  end.

(** The decimal digits of a list of characters, in order. *)
Definition digit_values (l : list ascii) : list Z :=
  flat_map (fun c => match PyTime.digit c with Some d => [d] | None => [] end)
    l.

Definition all_digits (l : list ascii) : Prop :=
  Forall (fun c => PyFloat.is_digit c = true) l.

(** A price in whole dollars is written with digits, the currency sign and
    thousands separators, as in [$1,234]; its amount is the number that its
    digits write. *)
Definition price_char (c : ascii) : bool :=
  PyFloat.is_digit c || Ascii.eqb c "$" || Ascii.eqb c ",".

Definition price_digits (price_str : string) : list Z :=
  digit_values (list_ascii_of_string price_str).

Definition amount (price_str : string) : Z :=
  PyFloat.digits_value (price_digits price_str).

(** The clock time of a departure in [get_time_filtered_flights]. *)
Definition flight_time (flight : flight) : result PyTime.time :=
  let parts := PyStr.split_on " " (departure flight) in
  let! p0 := subscript parts 0 in
  let! p1 := subscript parts 1 in
  let time_str := p0 ++ " " ++ p1 in
  PyTime.strptime time_str.

(** The selection loop of [get_time_filtered_flights] (lines 546-560). *)
Fixpoint select_flights (state : string) (target_time : PyTime.time)
    (all_flights : list flight) : result (list flight) :=
  match all_flights with
  | [] => Ok []
  | flight :: rest =>
      let! flight_time := flight_time flight in
      let keep :=
        if String.eqb state "before" then PyTime.ltb flight_time target_time
        else if String.eqb state "after"
             then PyTime.geb flight_time target_time
             else false in
      let! valid_flights := select_flights state target_time rest in
      Ok (if keep then flight :: valid_flights else valid_flights)
  end.

(** Every tool is its parameter checks, then one [try] block closed by
    [handlers].  The [try] blocks come first. *)
(** Does the clock time of the departure pass [test]?  (No, when there is
    no clock time to read.) *)
Definition departure_satisfies (test : PyTime.time -> bool) (f : flight)
  : bool :=
  match flight_time f with
  | Ok t => test t
  | Raise _ => false
  end.

Section Tools.
Variable backend : Backend.

Definition general_try (q : query) (n_flights : Z) : M (list string) :=
  result <- invoke backend q ;;
  match result with
  | NoFlightsKey => ret [msg_no_data]
  | ResultDict current_price all_flights =>
      if PyList.is_nil all_flights then ret [msg_no_flights]
      else
        let top_n_flights :=
          PyList.slice_to all_flights
            (Z.min n_flights (PyList.len all_flights)) in
        flight_info <-
          lift (format_all top_n_flights (origin q) (destination q)) ;;
        ret (("The current overall flight prices for this route and time are: "
              ++ current_price ++ ".") :: flight_info)
  end.

Definition get_general_flights_info (q : query) (n_flights : Z)
  : M (list string) :=
  if bad_airports q then ret [msg_airports]
  else if bad_date q then ret [msg_date]
  else if bad_trip_type q then ret [msg_trip_type]
  else if bad_seat q then ret [msg_seat]
  else try_except (general_try q n_flights) handlers.

Definition cheapest_try (q : query) : M (list string) :=
  result <- invoke backend q ;;
  match result with
  | NoFlightsKey => ret [msg_no_data]
  | ResultDict _ all_flights =>
      if PyList.is_nil all_flights then ret [msg_no_flights]
      else
        let price_sorted_flights :=
          PyList.sorted get_price_value all_flights in
        let top_n_flights :=
          PyList.slice_to price_sorted_flights
            (Z.min 30 (PyList.len price_sorted_flights)) in
        flight_info <-
          lift (format_all top_n_flights (origin q) (destination q)) ;;
        ret ("Here are the cheapest flights for this route and time: "
             :: flight_info)
  end.

Definition get_cheapest_flights (q : query) : M (list string) :=
  if bad_airports q then ret [msg_airports]
  else if bad_date q then ret [msg_date]
  else if bad_trip_type q then ret [msg_trip_type]
  else if bad_seat q then ret [msg_seat]
  else try_except (cheapest_try q) handlers.

Definition best_try (q : query) : M (list string) :=
  result <- invoke backend q ;;
  match result with
  | NoFlightsKey => ret [msg_no_data]
  | ResultDict _ all_flights =>
      if PyList.is_nil all_flights then ret [msg_no_flights]
      else
        let best_flights := filter is_best all_flights in
        if PyList.is_nil best_flights then ret [msg_no_best]
        else
          let top_n_flights :=
            PyList.slice_to best_flights
              (Z.min 30 (PyList.len best_flights)) in
          flight_info <-
            lift (format_all top_n_flights (origin q) (destination q)) ;;
          ret ("Here are the best flights for this route and time: "
               :: flight_info)
  end.

Definition get_best_flights (q : query) : M (list string) :=
  if bad_airports q then ret [msg_airports]
  else if bad_date q then ret [msg_date]
  else if bad_trip_type q then ret [msg_trip_type]
  else if bad_seat q then ret [msg_seat]
  else try_except (best_try q) handlers.

Definition time_try (state target_time_str : string) (q : query)
  : M (list string) :=
  match PyTime.strptime target_time_str with
  | Raise (ValueError _) => ret [msg_time]
  | Raise e => raise e
  | Ok target_time =>
      result <- invoke backend q ;;
      match result with
      | NoFlightsKey => ret [msg_no_data]
      | ResultDict _ all_flights =>
          if PyList.is_nil all_flights then ret [msg_no_flights]
          else
            valid_flights <-
              lift (select_flights state target_time all_flights) ;;
            if PyList.is_nil valid_flights
            then ret ["No flights found " ++ state ++ " " ++ target_time_str
                      ++ " for the specified route and dates."]
            else
              let top_n_flights :=
                PyList.slice_to valid_flights
                  (Z.min 30 (PyList.len valid_flights)) in
              flight_info <-
                lift (format_all top_n_flights (origin q) (destination q)) ;;
              let context_str :=
                "Here are the time-filtered flights "
                ++ (if String.eqb state "before" then "before"
                    else "on or after")
                ++ " " ++ target_time_str ++ ": " in
              ret (context_str :: flight_info)
      end
  end.

Definition get_time_filtered_flights (state target_time_str : string)
    (q : query) : M (list string) :=
  if bad_airports q then ret [msg_airports]
  else if bad_date q then ret [msg_date]
  else if bad_trip_type q then ret [msg_trip_type]
  else if bad_seat q then ret [msg_seat]
  else if bad_state state then ret [msg_state]
  else try_except (time_try state target_time_str q) handlers.

End Tools.

(** A call of one of the four tools. *)
Inductive tool : Type :=
| General (n_flights : Z)
| Cheapest
| Best
| TimeFiltered (state target_time_str : string).

Definition call (backend : Backend) (t : tool) (q : query) : M (list string) :=
  match t with
  | General n_flights => get_general_flights_info backend q n_flights
  | Cheapest => get_cheapest_flights backend q
  | Best => get_best_flights backend q
  | TimeFiltered state target_time_str =>
      get_time_filtered_flights backend state target_time_str q
  end.

(** The [try] block of the tool. *)
Definition try_block (backend : Backend) (t : tool) (q : query)
  : M (list string) :=
  match t with
  | General n_flights => general_try backend q n_flights
  | Cheapest => cheapest_try backend q
  | Best => best_try backend q
  | TimeFiltered state target_time_str =>
      time_try backend state target_time_str q
  end.

(** The checks made before the [try] block all pass. *)
Definition params_ok (t : tool) (q : query) : bool :=
  negb (bad_airports q) && negb (bad_date q) && negb (bad_trip_type q)
  && negb (bad_seat q)
  && match t with
     | TimeFiltered state _ => negb (bad_state state)
     | _ => true
     end.

(** The target time of a time-filtered call parses (the check made first
    in its [try] block); nothing to parse for the other tools. *)
Definition target_ok (t : tool) : bool :=
  match t with
  | TimeFiltered _ target_time_str =>
      match PyTime.strptime target_time_str with
      | Ok _ => true
      | Raise _ => false
      end
  | _ => true
  end.

(** The line an exception is turned into by [handlers]; there is none,
    written as the empty string, for what [handlers] does not catch. *)
Definition error_line (e : exn) : string :=
  match e with
  | RequestError _ => msg_unreachable
  | ValueError d => "Invalid data received: " ++ d
  | OtherError d =>
      "An unexpected error occurred while searching for flights: " ++ d
  | BaseException _ _ => EmptyString
  end.

(** What [handlers] makes of an exception: a line when it is an
    [Exception], and the exception again when it is not. *)
Definition handled (e : exn) : result (list string) :=
  if is_exception e then Ok [error_line e] else Raise e.

(** The list a call returns (none when it raises). *)
Definition output (backend : Backend) (t : tool) (q : query) : list string :=
  match fst (run (call backend t q)) with
  | Ok out => out
  | Raise _ => []
  end.

(* ================================================================== *)
(** ** The Playwright set-up helpers *)

Module Playwright.

(** The exception classes the two helpers tell apart, each with the text
    of [str(e)]: [subprocess.TimeoutExpired], [FileNotFoundError],
    [ImportError], and every other [Exception]. *)
Inductive exn : Type :=
| TimeoutExpired (detail : string)
| FileNotFoundError (detail : string)
| ImportError (detail : string)
| OtherError (detail : string).

Definition detail_of (e : exn) : string :=
  match e with
  | TimeoutExpired d | FileNotFoundError d | ImportError d | OtherError d => d
  end.

Inductive outcome (A : Type) : Type :=
| Returned (a : A)
| Raised (e : exn).
Arguments Returned {A} a.
Arguments Raised {A} e.

(** What [subprocess.run(..., capture_output=True, text=True)] returns. *)
Record CompletedProcess : Type := mkCompleted {
  returncode : Z;
  stdout : string;
  stderr : string
}.

(** One call of [subprocess.run]: the command line and the timeout. *)
Record invocation : Type := mkInvocation {
  args : list string;
  timeout : Z
}.

(** The operating system, as far as the helpers see it. *)
Definition Subprocess : Type := invocation -> outcome CompletedProcess.

(** The commands run and the lines printed so far. *)
Record world : Type := mkWorld {
  runs : list invocation;
  printed : list string
}.

Definition P (A : Type) : Type := world -> outcome A * world.

Definition ret {A : Type} (a : A) : P A := fun w => (Returned a, w).

Definition bind {A B : Type} (m : P A) (k : A -> P B) : P B :=
  fun w =>
    match m w with
    | (Returned a, w') => k a w'
    | (Raised e, w') => (Raised e, w')
    end.

Definition lift {A : Type} (r : outcome A) : P A := fun w => (r, w).

Definition try_except {A : Type} (body : P A) (handler : exn -> P A) : P A :=
  fun w =>
    match body w with
    | (Returned a, w') => (Returned a, w')
    | (Raised e, w') => handler e w'
    end.

Definition subprocess_run (os : Subprocess) (i : invocation)
  : P CompletedProcess :=
  fun w => (os i, mkWorld (runs w ++ [i])%list (printed w)).

Definition print (line : string) : P unit :=
  fun w => (Returned tt, mkWorld (runs w) (printed w ++ [line])%list).

Declare Scope proc_scope.
Delimit Scope proc_scope with proc.
Notation "x <- m ;; k" := (bind m (fun x => k))
  (at level 61, m at next level, right associativity) : proc_scope.
Notation "m ;;; k" := (bind m (fun _ => k))
  (at level 61, right associativity) : proc_scope.
Local Open Scope proc_scope.

Definition dry_run (executable : string) : invocation :=
  mkInvocation
    [executable; "-m"; "playwright"; "install"; "--dry-run"; "chromium"] 30.

Definition install (executable : string) : invocation :=
  mkInvocation [executable; "-m"; "playwright"; "install"; "chromium"] 300.

(** [ensure_playwright_browsers]; [executable] is [sys.executable]. *)
Definition ensure_playwright_browsers (executable : string) (os : Subprocess)
  : P bool :=
  try_except
    (result <- subprocess_run os (dry_run executable) ;;
     if (returncode result =? 0)
        && PyStr.find_in "is already installed" (stdout result)
     then ret true
     else
       print "Installing Playwright Chromium browser..." ;;;
       install_result <- subprocess_run os (install executable) ;;
       if returncode install_result =? 0
       then
         print "Playwright Chromium browser installed successfully!" ;;;
         ret true
       else
         print ("Failed to install Playwright browsers: "
                ++ stderr install_result) ;;;
         ret false)
    (fun e =>
       match e with
       | TimeoutExpired _ =>
           print "Timeout occurred while installing Playwright browsers" ;;;
           ret false
       | FileNotFoundError _ =>
           print "Playwright CLI not found. Make sure playwright is installed." ;;;
           ret false
       | _ =>
           print ("Error checking/installing Playwright browsers: "
                  ++ detail_of e) ;;;
           ret false
       end).

(** [check_playwright_setup]; [import_playwright] is what the statement
    [import playwright] does. *)
Definition check_playwright_setup (import_playwright : outcome unit)
    (executable : string) (os : Subprocess) : P bool :=
  try_except
    (lift import_playwright ;;;
     ensure_playwright_browsers executable os)
    (fun e =>
       match e with
       | ImportError _ =>
           print "Playwright is not installed. Please install it with: pip install playwright" ;;;
           ret false
       | _ =>
           print ("Error during Playwright setup check: " ++ detail_of e) ;;;
           ret false
       end).

(** Does the dry run say that the browser is there? *)
Definition already_installed (result : CompletedProcess) : bool :=
  (returncode result =? 0)
  && PyStr.find_in "is already installed" (stdout result).

End Playwright.

(* ================================================================== *)
(** ** The words of the specification *)

Module Spec.

(** The message of the first check that fails, if one does. *)
Fixpoint first_failure (checks : list (bool * string)) : option string :=
  match checks with
  | [] => None
  | (passes, message) :: rest =>
      if passes then first_failure rest else Some message
  end.

Definition has_char (s : string) (i : nat) (ch : ascii) : bool :=
  match String.get i s with
  | Some c => Ascii.eqb c ch
  | None => false
  end.

Definition one_of (s : string) (allowed : list string) : bool :=
  existsb (String.eqb s) allowed.

(** The checks of the Query Validator, in its order, each with the
    rejection message of the tools. *)
Definition checks (q : query) : list (bool * string) :=
  [ (strlen (origin q) =? 3, msg_airports);
    (strlen (destination q) =? 3, msg_airports);
    ((strlen (departure_date q) =? 10)
     && has_char (departure_date q) 4 "-"
     && has_char (departure_date q) 7 "-", msg_date);
    (one_of (trip_type q) ["one-way"; "round-trip"], msg_trip_type);
    (one_of (seat q) ["economy"; "premium-economy"; "business"; "first"],
     msg_seat) ].

Definition parses_as_clock (s : string) : bool :=
  match PyTime.strptime s with Ok _ => true | Raise _ => false end.

(** The two more checks of a time-window query. *)
Definition time_checks (state target_time_str : string)
  : list (bool * string) :=
  [ (one_of state ["before"; "after"], msg_state);
    (parses_as_clock target_time_str, msg_time) ].

Definition checks_of (t : tool) (q : query) : list (bool * string) :=
  match t with
  | TimeFiltered state target_time_str =>
      (checks q ++ time_checks state target_time_str)%list
  | _ => checks q
  end.

(** The ordinal suffix in the words of the specification. *)
Definition ordinal (day : string) : string :=
  if PyStr.endswith day "11" || PyStr.endswith day "12"
     || PyStr.endswith day "13" then "th"
  else if PyStr.endswith day "1" then "st"
  else if PyStr.endswith day "2" then "nd"
  else if PyStr.endswith day "3" then "rd"
  else "th".

(** A token of a whitespace-separated string: not empty, no whitespace. *)
Definition token (s : string) : Prop :=
  s <> EmptyString
  /\ forallb (fun c => negb (PyStr.isspace c)) (list_ascii_of_string s) = true.

(** The ordinal suffix of a day of the month, by its number. *)
Definition ordinal_of_day (d : Z) : string :=
  if (d mod 100 =? 11) || (d mod 100 =? 12) || (d mod 100 =? 13) then "th"
  else if d mod 10 =? 1 then "st"
  else if d mod 10 =? 2 then "nd"
  else if d mod 10 =? 3 then "rd"
  else "th".

(** [sorted] is a stable ascending sort of [input] by [key]: the same
    records, no record before one of smaller key, and the records of each
    key in their order of [input]. *)
Definition stable_sort_of {A : Type} (key : A -> PyFloat.t)
    (input sorted : list A) : Prop :=
  Permutation input sorted
  /\ StronglySorted (fun a b => PyFloat.ltb (key b) (key a) = false) sorted
  /\ forall k,
       filter (fun a => PyFloat.eqb (key a) k) sorted
       = filter (fun a => PyFloat.eqb (key a) k) input.

(** The price key in the words of the specification: the price without
    currency symbol and thousands separators, parsed as a number; a value
    above every valid price when the price is missing, is the placeholder,
    or does not parse. *)
Definition price_key (f : flight) : PyFloat.t :=
  match price f with
  | NoPriceKey | PriceNone => PyFloat.inf
  | Price p =>
      if String.eqb p "Price unavailable" then PyFloat.inf
      else
        match PyFloat.float (PyStr.remove_char "," (PyStr.remove_char "$" p))
        with
        | Some x => x
        | None => PyFloat.inf
        end
  end.

(** [out] is [header] followed by the formatted lines of [records], one
    for each and in their order. *)
Definition header_then_lines (header : string) (records : list flight)
    (q : query) (out : list string) : Prop :=
  exists lines,
    Forall2 (fun f line =>
               format_flight_info f (origin q) (destination q) = Ok line)
      records lines
    /\ out = header :: lines.

End Spec.

(* ================================================================== *)
(** ** Sample data *)

Module Sample.

Definition q_ok : query :=
  mkQuery "JFK" "LAX" "2025-04-05" "one-way" "economy" 1 0 0 0.

Definition q_short_origin : query :=
  mkQuery "JF" "LAX" "2025-04-05" "one-way" "economy" 1 0 0 0.

Definition q_bad_date : query :=
  mkQuery "JFK" "LAX" "2025-1-5" "one-way" "economy" 1 0 0 0.

(** Flights in the display format of the backend. *)
Definition delta : flight :=
  mkFlight true "Delta" "9:40 AM on Sat, Apr 5" "12:55 PM on Sat, Apr 5"
    "6 hr 15 min" 0 (Price "$1,234").

Definition united : flight :=
  mkFlight false "United" "7:00 PM on Sat, Apr 5" "2:15 AM on Sun, Apr 6"
    "7 hr 15 min" 1 (Price "$99").

Definition jetblue : flight :=
  mkFlight false "JetBlue" "12:05 AM on Sat, Apr 5" "8:30 AM on Sat, Apr 5"
    "11 hr 25 min" 2 (Price "Price unavailable").

Definition line_delta : string :=
  "This flight departs at 9:40 AM on Saturday, April 5th from JFK, local time, "
  ++ "and arrives at 12:55 PM on Saturday, April 5th in LAX, local time. "
  ++ "The flight is operated by Delta and has a duration of 6 hours and 15 minutes "
  ++ "with non-stop in between. "
  ++ "And it's price is $1,234 and is considered one of the best options by Google Flights!".

Definition line_united : string :=
  "This flight departs at 7:00 PM on Saturday, April 5th from JFK, local time, "
  ++ "and arrives at 2:15 AM on Sunday, April 6th in LAX, local time. "
  ++ "The flight is operated by United and has a duration of 7 hours and 15 minutes "
  ++ "with 1 stop in between. "
  ++ "And it's price is $99 and is an available option!".

Definition line_jetblue : string :=
  "This flight departs at 12:05 AM on Saturday, April 5th from JFK, local time, "
  ++ "and arrives at 8:30 AM on Saturday, April 5th in LAX, local time. "
  ++ "The flight is operated by JetBlue and has a duration of 11 hours and 25 minutes "
  ++ "with 2 stops in between. "
  ++ "And it's price is Price unavailable and is an available option!".

(** Three flights that differ in their price only. *)
Definition priced (p : string) : flight :=
  mkFlight false "Delta" "9:40 AM on Sat, Apr 5" "12:55 PM on Sat, Apr 5"
    "6 hr 15 min" 0 (Price p).

Definition line_priced (p : string) : string :=
  "This flight departs at 9:40 AM on Saturday, April 5th from JFK, local time, "
  ++ "and arrives at 12:55 PM on Saturday, April 5th in LAX, local time. "
  ++ "The flight is operated by Delta and has a duration of 6 hours and 15 minutes "
  ++ "with non-stop in between. "
  ++ "And it's price is " ++ p ++ " and is an available option!".

(** A backend that answers with the given flights. *)
Definition answers (current_price : string) (flights : list flight)
  : Backend :=
  mkBackend (fun q => Ok (mkFilter q))
    (fun _ => Ok (ResultDict current_price flights)).

(** A backend that fails with the given exception when it is asked. *)
Definition fails (e : exn) : Backend :=
  mkBackend (fun q => Ok (mkFilter q)) (fun _ => Raise e).

(** fast_flights refusing the arguments with the given exception, before
    the backend is asked. *)
Definition refuses (e : exn) : Backend :=
  mkBackend (fun _ => Raise e) (fun _ => Ok NoFlightsKey).

(** A backend whose answer has no key for the flights. *)
Definition no_key : Backend :=
  mkBackend (fun q => Ok (mkFilter q)) (fun _ => Ok NoFlightsKey).

End Sample.

(* ================================================================== *)
(** * Proofs *)

(** ** Running a tool *)

Lemma bind_lift {A B : Type} (r : result A) (k : A -> M B)
    (log : list query) :
  bind (lift r) k log
  = match r with
    | Ok a => k a log
    | Raise e => (Raise e, log)
    end.
Proof. destruct r; reflexivity. Qed.

Lemma answer_ok_filter_built (backend : Backend) (q : query) (p : payload) :
  backend q = Ok p -> filter_built backend q = true.
Proof.
  unfold answer, filter_built.
  destruct (create_filter backend q); [reflexivity | discriminate].
Qed.

Lemma bind_invoke {B : Type} (backend : Backend) (q : query)
    (k : payload -> M B) :
  bind (invoke backend q) k []
  = match backend q with
    | Ok p => k p [q]
    | Raise e => (Raise e, if filter_built backend q then [q] else [])
    end.
Proof.
  unfold bind, invoke, answer, filter_built.
  destruct (create_filter backend q) as [filter | e]; cbn [rbind];
    [ | reflexivity].
  destruct (get_flights_from_filter backend filter); reflexivity.
Qed.

Lemma handlers_handled (e : exn) (log : list query) :
  handlers e log = (handled e, log).
Proof. destruct e; reflexivity. Qed.

Lemma handlers_line (e : exn) (log : list query) :
  is_exception e = true -> handlers e log = (Ok [error_line e], log).
Proof. destruct e; try reflexivity. discriminate. Qed.

Lemma handled_line (e : exn) :
  is_exception e = true -> handled e = Ok [error_line e].
Proof. unfold handled. intros ->. reflexivity. Qed.

Lemma call_params_ok (backend : Backend) (t : tool) (q : query) :
  params_ok t q = true ->
  call backend t q = try_except (try_block backend t q) handlers.
Proof.
  unfold params_ok. intros H.
  repeat (apply andb_prop in H; destruct H as [H ?]).
  destruct t; cbn [call try_block];
    unfold get_general_flights_info, get_cheapest_flights, get_best_flights,
      get_time_filtered_flights;
    repeat match goal with
           | [ E : negb ?b = true |- _ ] =>
               apply negb_true_iff in E; rewrite E
           end; reflexivity.
Qed.

Lemma run_call_try (backend : Backend) (t : tool) (q : query) :
  params_ok t q = true ->
  run (call backend t q)
  = match try_block backend t q [] with
    | (Ok out, log) => (Ok out, log)
    | (Raise e, log) => (handled e, log)
    end.
Proof.
  intros H. rewrite (call_params_ok backend t q H).
  unfold run, try_except.
  destruct (try_block backend t q []) as [[out | e] log];
    [reflexivity | apply handlers_handled].
Qed.

Lemma target_ok_time (state target_time_str : string) :
  target_ok (TimeFiltered state target_time_str) = true ->
  exists target_time, PyTime.strptime target_time_str = Ok target_time.
Proof.
  cbn [target_ok]. destruct (PyTime.strptime target_time_str) as [tt | e];
    [eauto | discriminate].
Qed.

(** The [try] block up to the answer of the backend. *)
Lemma try_block_backend (backend : Backend) (t : tool) (q : query) :
  target_ok t = true ->
  match backend q with
  | Raise e =>
      try_block backend t q []
      = (Raise e, if filter_built backend q then [q] else [])
  | Ok NoFlightsKey => try_block backend t q [] = (Ok [msg_no_data], [q])
  | Ok (ResultDict _ []) =>
      try_block backend t q [] = (Ok [msg_no_flights], [q])
  | Ok (ResultDict _ (_ :: _)) => snd (try_block backend t q []) = [q]
  end.
Proof.
  intros Ht.
  assert (Hfmt : forall (l : list flight) (h : string),
             snd (bind (lift (format_all l (origin q) (destination q)))
                    (fun fi => ret (h :: fi)) [q]) = [q]).
  { intros l h. unfold bind, lift, ret.
    destruct (format_all l (origin q) (destination q)); reflexivity. }
  destruct t as [n | | | state target].
  - cbn [try_block]. unfold general_try. rewrite bind_invoke.
    destruct (backend q) as [[| cp [| f F]] | e]; try reflexivity.
    cbn [PyList.is_nil]. apply Hfmt.
  - cbn [try_block]. unfold cheapest_try. rewrite bind_invoke.
    destruct (backend q) as [[| cp [| f F]] | e]; try reflexivity.
    cbn [PyList.is_nil]. apply Hfmt.
  - cbn [try_block]. unfold best_try. rewrite bind_invoke.
    destruct (backend q) as [[| cp [| f F]] | e]; try reflexivity.
    cbn [PyList.is_nil].
    destruct (PyList.is_nil (filter is_best (f :: F))); [reflexivity | ].
    apply Hfmt.
  - destruct (target_ok_time _ _ Ht) as [tt Htt].
    cbn [try_block]. unfold time_try. rewrite Htt.
    rewrite bind_invoke.
    destruct (backend q) as [[| cp [| f F]] | e]; try reflexivity.
    cbv beta iota delta [PyList.is_nil]. rewrite bind_lift.
    destruct (select_flights state tt (f :: F)) as [[| v0 v] | e];
      [reflexivity | apply Hfmt | reflexivity].
Qed.

(** A valid call asks the backend once, when fast_flights accepts its
    arguments, and not at all when it does not. *)
Lemma valid_call_invokes_once (backend : Backend) (t : tool) (q : query) :
  params_ok t q = true -> target_ok t = true ->
  snd (run (call backend t q)) = if filter_built backend q then [q] else [].
Proof.
  intros Hp Ht. rewrite (run_call_try backend t q Hp).
  pose proof (try_block_backend backend t q Ht) as H.
  destruct (backend q) as [[| cp [| f F]] | e] eqn:Hb;
    try rewrite (answer_ok_filter_built _ _ _ Hb);
    try (rewrite H; reflexivity).
  destruct (try_block backend t q []) as [[out | e] log]; exact H.
Qed.

(** ** Validation *)

Lemma char_differs_has_char (s : string) (i : nat) (ch : ascii) :
  char_differs s i ch = negb (Spec.has_char s i ch).
Proof.
  unfold char_differs, Spec.has_char. destruct (String.get i s); reflexivity.
Qed.

Lemma first_failure_app (a b : list (bool * string)) :
  Spec.first_failure (a ++ b)
  = match Spec.first_failure a with
    | Some m => Some m
    | None => Spec.first_failure b
    end.
Proof.
  induction a as [| [p m] a IH]; [reflexivity | ].
  cbn. destruct p; [exact IH | reflexivity].
Qed.

(** The checks the four tools share, against the validator. *)
Lemma shared_checks (q : query) :
  match Spec.first_failure (Spec.checks q) with
  | Some msg =>
      forall k : M (list string),
        (if bad_airports q then ret [msg_airports]
         else if bad_date q then ret [msg_date]
         else if bad_trip_type q then ret [msg_trip_type]
         else if bad_seat q then ret [msg_seat]
         else k) = ret [msg]
  | None =>
      bad_airports q = false /\ bad_date q = false
      /\ bad_trip_type q = false /\ bad_seat q = false
  end.
Proof.
  unfold Spec.checks, bad_airports, bad_date, bad_trip_type, bad_seat,
    Spec.one_of.
  rewrite !char_differs_has_char. cbn [Spec.first_failure existsb].
  destruct (strlen (origin q) =? 3); cbn [negb orb];
    [ | reflexivity].
  destruct (strlen (destination q) =? 3); cbn [negb orb];
    [ | reflexivity].
  destruct (strlen (departure_date q) =? 10); cbn [negb orb andb];
    [ | reflexivity].
  destruct (Spec.has_char (departure_date q) 4 "-"); cbn [negb orb andb];
    [ | reflexivity].
  destruct (Spec.has_char (departure_date q) 7 "-"); cbn [negb orb andb];
    [ | reflexivity].
  destruct (String.eqb (trip_type q) "one-way"),
    (String.eqb (trip_type q) "round-trip"); cbn [negb orb andb];
    try reflexivity;
    destruct (String.eqb (seat q) "economy"),
      (String.eqb (seat q) "premium-economy"),
      (String.eqb (seat q) "business"),
      (String.eqb (seat q) "first"); cbn [negb orb andb];
    try reflexivity; repeat split.
Qed.

Lemma strptime_raises_ValueError (s : string) (e : exn) :
  PyTime.strptime s = Raise e -> exists d, e = ValueError d.
Proof.
  unfold PyTime.strptime.
  destruct (PyTime.regex_match s) as [[[[h m] pm] rest] | ].
  - destruct (PyStr.is_empty rest); [discriminate | ].
    intros E; inversion E; eauto.
  - intros E; inversion E; eauto.
Qed.

(** The validator lets a call through exactly when the checks of the tool
    pass and the target time parses. *)
Lemma validator_accepts (t : tool) (q : query) :
  Spec.first_failure (Spec.checks_of t q) = None
  <-> params_ok t q = true /\ target_ok t = true.
Proof.
  pose proof (shared_checks q) as Hs. unfold params_ok.
  assert (Hgen : Spec.first_failure (Spec.checks q) = None
                 <-> negb (bad_airports q) && negb (bad_date q)
                     && negb (bad_trip_type q) && negb (bad_seat q) = true).
  { destruct (Spec.first_failure (Spec.checks q)) as [msg | ].
    - split; [discriminate | ]. intros H.
      specialize (Hs (ret [])).
      destruct (bad_airports q), (bad_date q), (bad_trip_type q),
        (bad_seat q); try discriminate H.
      apply (f_equal (fun m => fst (m []))) in Hs. discriminate Hs.
    - destruct Hs as (-> & -> & -> & ->). split; reflexivity. }
  destruct t as [n | | | state target]; cbn [Spec.checks_of target_ok].
  1-3: rewrite andb_true_r; rewrite Hgen; tauto.
  rewrite first_failure_app.
  destruct (Spec.first_failure (Spec.checks q)) as [msg | ].
  - split; [discriminate | ].
    intros [H _]. apply andb_prop in H. destruct H as [H _].
    apply Hgen in H. discriminate.
  - destruct Hgen as [Hgen _]. rewrite (Hgen eq_refl). cbn [andb].
    unfold Spec.time_checks, Spec.parses_as_clock, Spec.one_of, bad_state.
    cbn [Spec.first_failure existsb].
    destruct (String.eqb state "before"), (String.eqb state "after");
      cbn [negb orb andb];
      destruct (PyTime.strptime target); split; intros H;
      try discriminate; try (split; reflexivity); try reflexivity;
      destruct H; discriminate.
Qed.

Lemma rejected_call
    (backend : Backend) (t : tool) (q : query) (msg : string) :
  Spec.first_failure (Spec.checks_of t q) = Some msg ->
  run (call backend t q) = (Ok [msg], []).
Proof.
  intros H. pose proof (shared_checks q) as Hs.
  assert (Hshared : forall m, Spec.first_failure (Spec.checks q) = Some m ->
                              run (call backend t q) = (Ok [m], [])).
  { intros m Hm. rewrite Hm in Hs.
    destruct t; cbn [call];
      unfold get_general_flights_info, get_cheapest_flights,
        get_best_flights, get_time_filtered_flights;
      rewrite Hs; reflexivity. }
  destruct t as [n | | | state target]; cbn [Spec.checks_of] in H;
    try (apply Hshared; exact H).
  rewrite first_failure_app in H.
  destruct (Spec.first_failure (Spec.checks q)) as [m | ] eqn:Hc.
  - inversion H; subst. apply Hshared. reflexivity.
  - destruct Hs as (Ha & Hd & Htt & Hst).
    cbn [call]. unfold get_time_filtered_flights.
    rewrite Ha, Hd, Htt, Hst.
    unfold Spec.time_checks, Spec.one_of, Spec.parses_as_clock in H.
    cbn [Spec.first_failure existsb] in H. unfold bad_state.
    destruct (String.eqb state "before") eqn:Eb;
      destruct (String.eqb state "after") eqn:Ea;
      cbn [negb orb andb] in *;
      try (inversion H; subst; reflexivity);
      unfold run, try_except, time_try;
      destruct (PyTime.strptime target) as [tt | e] eqn:Ep;
      try discriminate H;
      inversion H; subst;
      destruct (strptime_raises_ValueError _ _ Ep) as [d ->];
      reflexivity.
Qed.

(** The backend is asked exactly by the calls that the validator accepts
    and whose arguments fast_flights accepts. *)
Lemma backend_invoked_iff (backend : Backend) (t : tool) (q : query) :
  snd (run (call backend t q)) = [q]
  <-> params_ok t q = true /\ target_ok t = true
      /\ filter_built backend q = true.
Proof.
  split.
  - intros H.
    destruct (Spec.first_failure (Spec.checks_of t q)) as [msg | ] eqn:E.
    + rewrite (rejected_call backend t q msg E) in H. discriminate H.
    + apply validator_accepts in E. destruct E as [Hp Ht].
      rewrite (valid_call_invokes_once backend t q Hp Ht) in H.
      destruct (filter_built backend q); [auto | discriminate H].
  - intros (Hp & Ht & Hf).
    rewrite (valid_call_invokes_once backend t q Hp Ht), Hf. reflexivity.
Qed.

(** C6.  Whatever the backend: when a check of the validator fails
    (origin and destination of 3 characters, shape of the departure date,
    trip type, seat, and for the time-filtered tool state and target time,
    in this order), the call returns the one-element list holding the
    message of the first check that fails, and the backend has not been
    invoked. *)
Theorem validation_first_failed_check
    (backend : Backend) (t : tool) (q : query) (msg : string) :
  Spec.first_failure (Spec.checks_of t q) = Some msg ->
  run (call backend t q) = (Ok [msg], []).
Proof. apply rejected_call. Qed.

Lemma validation_first_failed_check_witness :
  (Spec.first_failure (Spec.checks_of Cheapest Sample.q_short_origin)
   = Some "Origin and destination must be 3 characters."
   /\ run (call (Sample.answers "typical" [Sample.delta]) Cheapest
             Sample.q_short_origin)
      = (Ok ["Origin and destination must be 3 characters."], []))
  /\ (Spec.first_failure
        (Spec.checks_of (TimeFiltered "after" "7:00 PM") Sample.q_bad_date)
      = Some "Departure date must be in YYYY-MM-DD format."
      /\ run (call (Sample.answers "typical" [Sample.delta])
                (TimeFiltered "after" "7:00 PM") Sample.q_bad_date)
         = (Ok ["Departure date must be in YYYY-MM-DD format."], [])).
Proof.
  split; (split; [reflexivity
                 | apply validation_first_failed_check; reflexivity]).
Defined.

(** ** Exceptions and empty results *)

(** Every call that is not let through is answered with one message. *)
Lemma not_valid_rejected (backend : Backend) (t : tool) (q : query) :
  params_ok t q && target_ok t = false ->
  exists msg, run (call backend t q) = (Ok [msg], []).
Proof.
  intros H.
  destruct (Spec.first_failure (Spec.checks_of t q)) as [msg | ] eqn:E.
  - exists msg. apply rejected_call, E.
  - apply validator_accepts in E. destruct E as [E1 E2].
    rewrite E1, E2 in H. discriminate H.
Qed.

(** What the processing of an answer can raise is derived from
    [Exception]. *)
Lemma subscript_raises (A : Type) (l : list A) (i : nat) (e : exn) :
  subscript l i = Raise e -> e = IndexError.
Proof.
  unfold subscript. destruct (nth_error l i); [discriminate | ].
  intros H. inversion H. reflexivity.
Qed.

Lemma expand_date_raises (date_str : string) (e : exn) :
  expand_date date_str = Raise e -> e = IndexError.
Proof.
  unfold expand_date.
  repeat match goal with
         | [ |- context [subscript ?l ?i] ] =>
             let E := fresh "E" in
             destruct (subscript l i) eqn:E; cbn [rbind];
             [ | intros H; inversion H; subst;
                 apply (subscript_raises _ _ _ _ E) ]
         end.
  discriminate.
Qed.

Lemma format_flight_info_raises (f : flight) (o d : string) (e : exn) :
  format_flight_info f o d = Raise e -> exists detail, e = OtherError detail.
Proof.
  unfold format_flight_info.
  destruct (stops_text (stops f)) as [st | e0] eqn:Es; cbn [rbind].
  - destruct (expand_date (departure f)) as [dep | e1] eqn:Ed; cbn [rbind].
    + destruct (expand_date (arrival f)) as [arr | e2] eqn:Ea; cbn [rbind].
      * destruct (price f); cbn; intros H; inversion H; eexists;
          reflexivity.
      * intros H. inversion H; subst.
        rewrite (expand_date_raises _ _ Ea). eexists; reflexivity.
    + intros H. inversion H; subst.
      rewrite (expand_date_raises _ _ Ed). eexists; reflexivity.
  - intros H. inversion H; subst.
    destruct (stops f); inversion Es. eexists; reflexivity.
Qed.

Lemma rmap_raises (A B : Type) (f : A -> result B) (l : list A) (e : exn) :
  rmap f l = Raise e -> exists x, In x l /\ f x = Raise e.
Proof.
  induction l as [| x l IH]; cbn; [discriminate | ].
  destruct (f x) as [y | e0] eqn:Ex; cbn.
  - destruct (rmap f l) as [ys | e1]; cbn; [discriminate | ].
    intros H. inversion H; subst.
    destruct (IH eq_refl) as (x' & Hin & Hx'). eauto.
  - intros H. inversion H; subst. eauto.
Qed.

Lemma format_all_raises (l : list flight) (o d : string) (e : exn) :
  format_all l o d = Raise e -> is_exception e = true.
Proof.
  intros H. apply rmap_raises in H. destruct H as (f & _ & H).
  apply format_flight_info_raises in H. destruct H as [detail ->].
  reflexivity.
Qed.

Lemma flight_time_raises (f : flight) (e : exn) :
  flight_time f = Raise e -> is_exception e = true.
Proof.
  unfold flight_time.
  destruct (subscript _ 0) as [p0 | e0] eqn:E0; cbn [rbind].
  - destruct (subscript _ 1) as [p1 | e1] eqn:E1; cbn [rbind].
    + intros H. apply strptime_raises_ValueError in H.
      destruct H as [d ->]. reflexivity.
    + intros H. inversion H; subst.
      rewrite (subscript_raises _ _ _ _ E1). reflexivity.
  - intros H. inversion H; subst.
    rewrite (subscript_raises _ _ _ _ E0). reflexivity.
Qed.

Lemma select_flights_raises (state : string) (target : PyTime.time)
    (F : list flight) (e : exn) :
  select_flights state target F = Raise e -> is_exception e = true.
Proof.
  induction F as [| f F IH]; cbn [select_flights]; [discriminate | ].
  destruct (flight_time f) as [t | e0] eqn:Et; cbn [rbind].
  - destruct (select_flights state target F) as [v | e1]; cbn [rbind];
      [discriminate | ].
    intros H. inversion H; subst. apply IH. reflexivity.
  - intros H. inversion H; subst. apply (flight_time_raises _ _ Et).
Qed.

(** What leaves a [try] block: a list that is not empty, an [Exception],
    or what the backend raised. *)
Lemma try_block_outcome (backend : Backend) (t : tool) (q : query) :
  target_ok t = true ->
  match fst (try_block backend t q []) with
  | Ok out => out <> []
  | Raise e => is_exception e = true \/ backend q = Raise e
  end.
Proof.
  intros Ht.
  assert (Hfmt : forall (l : list flight) (h : string),
             match fst (bind (lift (format_all l (origin q) (destination q)))
                          (fun fi => ret (h :: fi)) [q]) with
             | Ok out => out <> []
             | Raise e => is_exception e = true \/ backend q = Raise e
             end).
  { intros l h. rewrite bind_lift.
    destruct (format_all l (origin q) (destination q)) as [lines | e] eqn:E;
      cbn [fst ret]; [discriminate | ].
    left. apply (format_all_raises _ _ _ _ E). }
  destruct t as [n | | | state target].
  - cbn [try_block]. unfold general_try. rewrite bind_invoke.
    destruct (backend q) as [[| cp [| f F]] | e];
      try (cbn; discriminate); [ | right; reflexivity].
    cbn [PyList.is_nil]. apply Hfmt.
  - cbn [try_block]. unfold cheapest_try. rewrite bind_invoke.
    destruct (backend q) as [[| cp [| f F]] | e];
      try (cbn; discriminate); [ | right; reflexivity].
    cbn [PyList.is_nil]. apply Hfmt.
  - cbn [try_block]. unfold best_try. rewrite bind_invoke.
    destruct (backend q) as [[| cp [| f F]] | e];
      try (cbn; discriminate); [ | right; reflexivity].
    cbn [PyList.is_nil].
    destruct (PyList.is_nil (filter is_best (f :: F)));
      [cbn; discriminate | ].
    apply Hfmt.
  - destruct (target_ok_time _ _ Ht) as [tt Htt].
    cbn [try_block]. unfold time_try. rewrite Htt.
    rewrite bind_invoke.
    destruct (backend q) as [[| cp [| f F]] | e];
      try (cbn; discriminate); [ | right; reflexivity].
    cbv beta iota delta [PyList.is_nil]. rewrite bind_lift.
    destruct (select_flights state tt (f :: F)) as [[| v0 v] | e] eqn:Es;
      [cbn; discriminate | apply Hfmt | ].
    left. apply (select_flights_raises _ _ _ _ Es).
Qed.

(** A call returns a list that is not empty, or lets through what the
    backend raised and is no [Exception]. *)
Lemma call_outcome (backend : Backend) (t : tool) (q : query) :
  match fst (run (call backend t q)) with
  | Ok out => out <> []
  | Raise e =>
      is_exception e = false /\ params_ok t q = true /\ target_ok t = true
      /\ backend q = Raise e
  end.
Proof.
  destruct (params_ok t q && target_ok t) eqn:E.
  - apply andb_prop in E. destruct E as [Hp Ht].
    rewrite (run_call_try backend t q Hp).
    pose proof (try_block_outcome backend t q Ht) as H.
    destruct (try_block backend t q []) as [[out | e] log]; cbn [fst] in *;
      [exact H | ].
    unfold handled. destruct (is_exception e) eqn:Ee; [discriminate | ].
    destruct H as [H | H]; [discriminate H | auto].
  - destruct (not_valid_rejected backend t q E) as [msg ->].
    cbn. discriminate.
Qed.

(** C7, amended.  A tool call returns a list of strings that is not empty,
    unless the backend raises what is not derived from [Exception]
    ([asyncio.CancelledError], [KeyboardInterrupt], [SystemExit]): no
    handler catches that, and the call raises it in its turn.  Every
    exception derived from [Exception] that is raised in the [try] block,
    by the backend or by the processing after it, is turned into a
    one-element list: the fixed service-unreachable message for
    [httpx.RequestError], the text [Invalid data received: ] and the detail
    for [ValueError], the unexpected-error text and the detail for any
    other. *)
Theorem no_exception_escapes (backend : Backend) (t : tool) (q : query) :
  match fst (run (call backend t q)) with
  | Ok out => out <> []
  | Raise e =>
      is_exception e = false /\ params_ok t q = true /\ target_ok t = true
      /\ backend q = Raise e
  end
  /\ (forall e log,
        params_ok t q = true ->
        try_block backend t q [] = (Raise e, log) ->
        run (call backend t q)
        = (if is_exception e then Ok [error_line e] else Raise e, log))
  /\ (forall e,
        params_ok t q = true -> target_ok t = true ->
        backend q = Raise e ->
        run (call backend t q)
        = (if is_exception e then Ok [error_line e] else Raise e,
           if filter_built backend q then [q] else []))
  /\ (forall d,
        error_line (RequestError d)
        = "Unable to connect to the flight search service. Please try again later."
        /\ error_line (ValueError d) = "Invalid data received: " ++ d
        /\ error_line (OtherError d)
           = "An unexpected error occurred while searching for flights: "
             ++ d)
  /\ (forall class_name d,
        is_exception (RequestError d) = true
        /\ is_exception (ValueError d) = true
        /\ is_exception (OtherError d) = true
        /\ is_exception (BaseException class_name d) = false).
Proof.
  split; [apply call_outcome | ].
  split; [ | split; [ | split] ].
  - intros e log Hp Hb. rewrite (run_call_try backend t q Hp), Hb.
    reflexivity.
  - intros e Hp Ht Hb. rewrite (run_call_try backend t q Hp).
    pose proof (try_block_backend backend t q Ht) as H.
    rewrite Hb in H. rewrite H. reflexivity.
  - intros d. repeat split.
  - intros c d. repeat split.
Qed.

Lemma no_exception_escapes_witness :
  run (call (Sample.fails (ValueError "bad payload")) Best Sample.q_ok)
  = (Ok ["Invalid data received: bad payload"], [Sample.q_ok])
  /\ run (call (Sample.fails (RequestError "timed out"))
            (TimeFiltered "before" "7:00 PM") Sample.q_ok)
     = (Ok ["Unable to connect to the flight search service. Please try again later."],
        [Sample.q_ok])
  /\ run (call (Sample.answers "typical"
                  [mkFlight true "Delta" "9:40 AM Sat, Apr 5"
                     "12:55 PM on Sat, Apr 5" "6 hr 15 min" 0 (Price "$120")])
            (General 5) Sample.q_ok)
     = (Ok ["An unexpected error occurred while searching for flights: list index out of range"],
        [Sample.q_ok])
  /\ run (call (Sample.refuses (OtherError "Too many passengers (> 9)"))
            Cheapest Sample.q_ok)
     = (Ok ["An unexpected error occurred while searching for flights: Too many passengers (> 9)"],
        [])
  /\ run (call (Sample.answers "typical"
                  [mkFlight true "Delta" "9:40 AM on Sat, Apr 5"
                     "12:55 PM on Sat, Apr 5" "6 hr 15 min"
                     (StopsStr "Unknown") (Price "$120")])
            Best Sample.q_ok)
     = (Ok ["An unexpected error occurred while searching for flights: '>' not supported between instances of 'str' and 'int'"],
        [Sample.q_ok]).
Proof.
  split; [ | split; [ | split; [ | split] ] ].
  - apply (proj1 (proj2 (proj2 (no_exception_escapes
             (Sample.fails (ValueError "bad payload")) Best Sample.q_ok)))
             (ValueError "bad payload"));
      reflexivity.
  - apply (proj1 (proj2 (proj2 (no_exception_escapes
             (Sample.fails (RequestError "timed out"))
             (TimeFiltered "before" "7:00 PM") Sample.q_ok)))
             (RequestError "timed out"));
      reflexivity.
  - apply (proj1 (proj2 (no_exception_escapes _ (General 5) Sample.q_ok))
             (OtherError "list index out of range"));
      reflexivity.
  - apply (proj1 (proj2 (proj2 (no_exception_escapes
             (Sample.refuses (OtherError "Too many passengers (> 9)"))
             Cheapest Sample.q_ok)))
             (OtherError "Too many passengers (> 9)"));
      reflexivity.
  - apply (proj1 (proj2 (no_exception_escapes _ Best Sample.q_ok))
             (OtherError
                "'>' not supported between instances of 'str' and 'int'"));
      reflexivity.
Defined.

(** C7 as it is stated fails on what is not derived from [Exception]: a
    call that is cancelled while it waits for the backend raises
    [asyncio.CancelledError], and returns no list. *)
Lemma no_exception_escapes_counterexample :
  (params_ok (General 5) Sample.q_ok = true
   /\ Sample.fails (BaseException "CancelledError" EmptyString) Sample.q_ok
      = Raise (BaseException "CancelledError" EmptyString))
  /\ run (call (Sample.fails (BaseException "CancelledError" EmptyString))
            (General 5) Sample.q_ok)
     = (Raise (BaseException "CancelledError" EmptyString), [Sample.q_ok])
  /\ (forall out,
        fst (run (call (Sample.fails
                          (BaseException "CancelledError" EmptyString))
                    (General 5) Sample.q_ok)) <> Ok out).
Proof.
  split; [split; reflexivity | ]. split; [reflexivity | ].
  intros out. discriminate.
Qed.

Lemma error_line_not_empty_result (e : exn) :
  error_line e <> msg_no_flights /\ error_line e <> msg_no_data.
Proof. destruct e; split; discriminate. Qed.

(** C9.  In each of the four tools, once the parameters are accepted: a
    backend answer with an empty flight list makes the call return exactly
    the no-flights message, and an answer without the flights key the
    no-data message.  In both cases the backend was invoked once and the
    message is none of the error lines of the handlers. *)
Theorem empty_result_messages
    (backend : Backend) (t : tool) (q : query) :
  params_ok t q = true -> target_ok t = true ->
  (forall current_price,
     backend q = Ok (ResultDict current_price []) ->
     run (call backend t q)
     = (Ok ["No flights found for the specified route and dates."], [q]))
  /\ (backend q = Ok NoFlightsKey ->
      run (call backend t q)
      = (Ok ["No flight data available for the specified route and dates."],
         [q]))
  /\ (forall e,
        error_line e <> "No flights found for the specified route and dates."
        /\ error_line e
           <> "No flight data available for the specified route and dates.").
Proof.
  intros Hp Ht.
  pose proof (try_block_backend backend t q Ht) as H.
  rewrite (run_call_try backend t q Hp).
  split; [ | split].
  - intros cp Hb. rewrite Hb in H. rewrite H. reflexivity.
  - intros Hb. rewrite Hb in H. rewrite H. reflexivity.
  - apply error_line_not_empty_result.
Qed.

Lemma empty_result_messages_witness :
  (params_ok (TimeFiltered "after" "7:00 PM") Sample.q_ok = true
   /\ target_ok (TimeFiltered "after" "7:00 PM") = true)
  /\ run (call (Sample.answers "low" []) (TimeFiltered "after" "7:00 PM")
            Sample.q_ok)
     = (Ok ["No flights found for the specified route and dates."],
        [Sample.q_ok])
  /\ run (call Sample.no_key (TimeFiltered "after" "7:00 PM") Sample.q_ok)
     = (Ok ["No flight data available for the specified route and dates."],
        [Sample.q_ok]).
Proof.
  split; [split; reflexivity | ].
  split.
  - apply (proj1 (empty_result_messages (Sample.answers "low" [])
                    (TimeFiltered "after" "7:00 PM") Sample.q_ok
                    eq_refl eq_refl) "low").
    reflexivity.
  - apply (proj1 (proj2 (empty_result_messages Sample.no_key
                           (TimeFiltered "after" "7:00 PM") Sample.q_ok
                           eq_refl eq_refl))).
    reflexivity.
Defined.

(** ** The order of the floats *)

Lemma ltb_irrefl (a : PyFloat.t) : PyFloat.ltb a a = false.
Proof. destruct a; cbn; try reflexivity. apply Z.ltb_irrefl. Qed.

Lemma ltb_asym (a b : PyFloat.t) :
  PyFloat.ltb a b = true -> PyFloat.ltb b a = false.
Proof.
  destruct a, b; cbn; try reflexivity; try discriminate.
  intros H. apply Z.ltb_lt in H. apply Z.ltb_ge. lia.
Qed.

(** Not being below is transitive through a float that is not NaN. *)
Lemma not_below_trans (a b c : PyFloat.t) :
  PyFloat.is_nan b = false ->
  PyFloat.ltb b a = false -> PyFloat.ltb c b = false ->
  PyFloat.ltb c a = false.
Proof.
  destruct a, b, c; cbn; try reflexivity; try discriminate.
  intros _ H1 H2. apply Z.ltb_ge in H1, H2. apply Z.ltb_ge. lia.
Qed.

Lemma eqb_eq (a b : PyFloat.t) : PyFloat.eqb a b = true -> a = b.
Proof.
  destruct a, b; cbn; try reflexivity; try discriminate.
  intros H. apply Z.eqb_eq in H. congruence.
Qed.

Lemma eqb_refl (a : PyFloat.t) :
  PyFloat.is_nan a = false -> PyFloat.eqb a a = true.
Proof. destruct a; cbn; try reflexivity; try discriminate.
       intros _. apply Z.eqb_refl. Qed.

(** Two floats, none of them NaN, none below the other, are equal. *)
Lemma not_below_antisym (a b : PyFloat.t) :
  PyFloat.is_nan a = false -> PyFloat.is_nan b = false ->
  PyFloat.ltb a b = false -> PyFloat.ltb b a = false -> a = b.
Proof.
  destruct a, b; cbn; try reflexivity; try discriminate.
  intros _ _ H1 H2. apply Z.ltb_ge in H1, H2. f_equal. lia.
Qed.

(** Infinity is above every finite float, and no float is above it. *)
Lemma inf_above_finite (n : Z) :
  PyFloat.ltb (PyFloat.Fin n) PyFloat.inf = true.
Proof. reflexivity. Qed.

Lemma nothing_above_inf (a : PyFloat.t) :
  PyFloat.ltb PyFloat.inf a = false.
Proof. destruct a; reflexivity. Qed.

(** ** [sorted] is the stable sort *)

Section SortedProofs.
Context {A : Type} (key : A -> PyFloat.t).

Local Notation "'not_below'" :=
  (fun a b : A => PyFloat.ltb (key b) (key a) = false).

Lemma insert_perm (x : A) (l : list A) :
  Permutation (x :: l) (PyList.insert key x l).
Proof.
  induction l as [| y l IH]; cbn; [apply Permutation_refl | ].
  destruct (PyFloat.ltb (key y) (key x)); [ | apply Permutation_refl].
  eapply perm_trans; [apply perm_swap | apply perm_skip, IH].
Qed.

Lemma sorted_perm (l : list A) : Permutation l (PyList.sorted key l).
Proof.
  induction l as [| x l IH]; cbn; [apply perm_nil | ].
  eapply perm_trans; [apply perm_skip, IH | apply insert_perm].
Qed.

Lemma sorted_length (l : list A) :
  length (PyList.sorted key l) = length l.
Proof. symmetry. apply Permutation_length, sorted_perm. Qed.

Lemma insert_sorted (x : A) (l : list A) :
  Forall (fun a => PyFloat.is_nan (key a) = false) l ->
  StronglySorted not_below l ->
  StronglySorted not_below (PyList.insert key x l).
Proof.
  intros Hn Hs. induction Hs as [| y l Hs IH Hy]; cbn.
  - constructor; constructor.
  - inversion Hn as [| ? ? Hny Hnl]; subst.
    destruct (PyFloat.ltb (key y) (key x)) eqn:E.
    + constructor; [apply IH, Hnl | ].
      apply (Permutation_Forall (insert_perm x l)).
      constructor; [apply ltb_asym, E | exact Hy].
    + constructor; [constructor; assumption | ].
      constructor; [exact E | ].
      apply Forall_forall. intros z Hz.
      rewrite Forall_forall in Hy.
      apply (not_below_trans (key x) (key y) (key z) Hny E (Hy z Hz)).
Qed.

Lemma sorted_sorted (l : list A) :
  Forall (fun a => PyFloat.is_nan (key a) = false) l ->
  StronglySorted not_below (PyList.sorted key l).
Proof.
  induction l as [| x l IH]; cbn; intros Hn; [constructor | ].
  inversion Hn; subst. apply insert_sorted; [ | apply IH; assumption].
  apply (Permutation_Forall (sorted_perm l)). assumption.
Qed.

Lemma insert_filter (k : PyFloat.t) (x : A) (l : list A) :
  filter (fun r => PyFloat.eqb (key r) k) (PyList.insert key x l) = filter (fun r => PyFloat.eqb (key r) k) (x :: l).
Proof.
  induction l as [| y l IH]; [reflexivity | ].
  cbn [PyList.insert].
  destruct (PyFloat.ltb (key y) (key x)) eqn:E; [ | reflexivity].
  cbn [filter] in *. rewrite IH.
  destruct (PyFloat.eqb (key x) k) eqn:Ex; [ | reflexivity].
  destruct (PyFloat.eqb (key y) k) eqn:Ey; [ | reflexivity].
  apply eqb_eq in Ex, Ey. rewrite Ex, Ey, ltb_irrefl in E. discriminate.
Qed.

Lemma sorted_filter (k : PyFloat.t) (l : list A) :
  filter (fun r => PyFloat.eqb (key r) k) (PyList.sorted key l) = filter (fun r => PyFloat.eqb (key r) k) l.
Proof.
  induction l as [| x l IH]; [reflexivity | ].
  cbn [PyList.sorted fold_right]. rewrite insert_filter.
  cbn [filter]. fold (PyList.sorted key l). rewrite IH. reflexivity.
Qed.

(** A list in which no record is below its left neighbour is returned as
    it is, NaN or not. *)
Lemma sorted_no_descent (l : list A) :
  Sorted not_below l -> PyList.sorted key l = l.
Proof.
  induction 1 as [| x l Hl IH Hx]; [reflexivity | ].
  cbn [PyList.sorted fold_right]. fold (PyList.sorted key l). rewrite IH.
  destruct Hx as [| y l Hy]; [reflexivity | ].
  cbn [PyList.insert]. rewrite Hy. reflexivity.
Qed.

(** Without NaN among the keys, [sorted] returns a stable sort. *)
Lemma sorted_stable_sort (l : list A) :
  Forall (fun a => PyFloat.is_nan (key a) = false) l ->
  Spec.stable_sort_of key l (PyList.sorted key l).
Proof.
  intros Hn. split; [apply sorted_perm | ].
  split; [apply sorted_sorted, Hn | intros k; apply sorted_filter].
Qed.

(** Two sorted lists with the same records of each key, in the same
    order, are one list. *)
Lemma stable_sorted_unique (l1 l2 : list A) :
  Forall (fun a => PyFloat.is_nan (key a) = false) l1 ->
  Forall (fun a => PyFloat.is_nan (key a) = false) l2 ->
  StronglySorted not_below l1 -> StronglySorted not_below l2 ->
  (forall k, filter (fun r => PyFloat.eqb (key r) k) l1 = filter (fun r => PyFloat.eqb (key r) k) l2) ->
  l1 = l2.
Proof.
  revert l2. induction l1 as [| a l1 IH]; intros l2 Hn1 Hn2 Hs1 Hs2 Hf.
  - destruct l2 as [| b l2]; [reflexivity | ].
    inversion Hn2 as [| ? ? Hb _]; subst.
    specialize (Hf (key b)). cbn in Hf. rewrite (eqb_refl _ Hb) in Hf.
    discriminate.
  - destruct l2 as [| b l2].
    + inversion Hn1 as [| ? ? Ha _]; subst.
      specialize (Hf (key a)). cbn in Hf. rewrite (eqb_refl _ Ha) in Hf.
      discriminate.
    + inversion Hn1 as [| ? ? Ha Hn1']; subst.
      inversion Hn2 as [| ? ? Hb Hn2']; subst.
      inversion Hs1 as [| ? ? Hs1' Ha1]; subst.
      inversion Hs2 as [| ? ? Hs2' Hb2]; subst.
      assert (Hin : forall (x : A) (l l' : list A),
                 PyFloat.is_nan (key x) = false ->
                 In x l -> filter (fun r => PyFloat.eqb (key r) (key x)) l
                           = filter (fun r => PyFloat.eqb (key r) (key x)) l' -> In x l').
      { intros x l l' Hx Hi He.
        assert (Hi' : In x (filter (fun r => PyFloat.eqb (key r) (key x)) l)).
        { apply filter_In. split; [exact Hi | apply eqb_refl, Hx]. }
        rewrite He in Hi'. apply filter_In in Hi'. tauto. }
      assert (Hab : key a = key b).
      { apply not_below_antisym; try assumption.
        - pose proof (Hin a (a :: l1) (b :: l2) Ha (or_introl eq_refl)
                        (Hf (key a))) as [-> | Hi];
            [apply ltb_irrefl | ].
          rewrite Forall_forall in Hb2. apply (Hb2 a Hi).
        - pose proof (Hin b (b :: l2) (a :: l1) Hb (or_introl eq_refl)
                        (eq_sym (Hf (key b)))) as [-> | Hi];
            [apply ltb_irrefl | ].
          rewrite Forall_forall in Ha1. apply (Ha1 b Hi). }
      pose proof (Hf (key a)) as Hfa. cbn [filter] in Hfa.
      rewrite (eqb_refl _ Ha) in Hfa.
      rewrite Hab, (eqb_refl _ Hb) in Hfa.
      inversion Hfa as [[Heq Htl]]. subst b. f_equal.
      apply IH; try assumption.
      intros k. specialize (Hf k). cbn [filter] in Hf.
      destruct (PyFloat.eqb (key a) k); [injection Hf as Hf | ]; exact Hf.
Qed.

(** So every stable sort of a list without NaN keys is [sorted] of it. *)
Lemma stable_sort_is_sorted (l s : list A) :
  Forall (fun a => PyFloat.is_nan (key a) = false) l ->
  Spec.stable_sort_of key l s -> s = PyList.sorted key l.
Proof.
  intros Hn (Hp & Hs & Hf).
  apply stable_sorted_unique.
  - apply (Permutation_Forall Hp Hn).
  - apply (Permutation_Forall (sorted_perm l) Hn).
  - exact Hs.
  - apply sorted_sorted, Hn.
  - intros k. rewrite Hf, sorted_filter. reflexivity.
Qed.

(** In a sorted list nothing of finite key comes after a record of key
    infinity. *)
Lemma after_inf_all_inf (l1 l2 : list A) (a b : A) :
  Forall (fun a => PyFloat.is_nan (key a) = false) (l1 ++ a :: l2) ->
  StronglySorted not_below (l1 ++ a :: l2) ->
  key a = PyFloat.inf -> In b l2 -> forall n, key b <> PyFloat.Fin n.
Proof.
  intros Hn Hs Ha Hb n Hk.
  induction l1 as [| x l1 IH].
  - cbn in Hs. inversion Hs as [| ? ? _ Hall]; subst.
    rewrite Forall_forall in Hall. specialize (Hall b Hb). cbn in Hall.
    rewrite Ha, Hk in Hall. discriminate.
  - cbn in Hs, Hn. inversion Hs; subst. inversion Hn; subst.
    apply IH; assumption.
Qed.

End SortedProofs.

(** ** Slices and formatted lines *)

Lemma slice_to_min (A : Type) (l : list A) (n : Z) :
  0 <= n ->
  PyList.slice_to l (Z.min n (PyList.len l))
  = firstn (Z.to_nat (Z.min n (PyList.len l))) l.
Proof.
  intros Hn. unfold PyList.slice_to, PyList.len.
  assert (H : (Z.min n (Z.of_nat (length l)) <? 0) = false)
    by (apply Z.ltb_ge; lia).
  rewrite H. f_equal. f_equal. lia.
Qed.

Lemma slice_to_30 (A : Type) (l : list A) :
  PyList.slice_to l (Z.min 30 (PyList.len l))
  = firstn (Nat.min 30 (length l)) l.
Proof.
  rewrite slice_to_min by lia. f_equal. unfold PyList.len. lia.
Qed.

(** A negative [stop] leaves out that many records at the end. *)
Lemma slice_to_negative (A : Type) (l : list A) (n : Z) :
  n < 0 ->
  PyList.slice_to l (Z.min n (PyList.len l))
  = firstn (length l - Z.to_nat (- n)) l.
Proof.
  intros Hn. unfold PyList.slice_to, PyList.len.
  assert (H : (Z.min n (Z.of_nat (length l)) <? 0) = true)
    by (apply Z.ltb_lt; lia).
  rewrite H. f_equal. lia.
Qed.

Lemma rmap_Forall2 (A B : Type) (f : A -> result B)
    (l : list A) (ys : list B) :
  rmap f l = Ok ys <-> Forall2 (fun x y => f x = Ok y) l ys.
Proof.
  revert ys. induction l as [| x l IH]; intros ys; cbn.
  - split.
    + intros E; inversion E; constructor.
    + intros H; inversion H; reflexivity.
  - destruct (f x) as [y | e] eqn:Ex; cbn.
    + destruct (rmap f l) as [ys' | e] eqn:El; cbn.
      * split.
        -- intros E; inversion E; subst. constructor; [exact Ex | ].
           apply IH. reflexivity.
        -- intros H; inversion H as [| ? y' ? ys'' Hy Hl]; subst.
           apply IH in Hl. congruence.
      * split; [discriminate | ].
        intros H; inversion H as [| ? y' ? ys'' Hy Hl]; subst.
        apply IH in Hl. discriminate.
    + split; [discriminate | ].
      intros H; inversion H; congruence.
Qed.

Lemma is_nil_false (A : Type) (l : list A) :
  l <> [] -> PyList.is_nil l = false.
Proof. destruct l; [congruence | reflexivity]. Qed.

(** The end of every [try] block: format the selected flights and put the
    header before them. *)
Lemma run_format (top : list flight) (q : query) (header : string)
    (log : list query) :
  bind (lift (format_all top (origin q) (destination q)))
    (fun flight_info => ret (header :: flight_info)) log
  = match format_all top (origin q) (destination q) with
    | Ok lines => (Ok (header :: lines), log)
    | Raise e => (Raise e, log)
    end.
Proof. apply bind_lift. Qed.

Lemma rmap_first_raise (A B : Type) (f : A -> result B) (l : list A)
    (e : exn) :
  rmap f l = Raise e
  <-> exists good bad rest,
        l = (good ++ bad :: rest)%list
        /\ Forall (fun x => exists y, f x = Ok y) good
        /\ f bad = Raise e.
Proof.
  induction l as [| x l IH]; cbn [rmap].
  - split; [discriminate | ].
    intros (good & bad & rest & H & _). destruct good; discriminate H.
  - destruct (f x) as [y | e0] eqn:Ex; cbn [rbind].
    + destruct (rmap f l) as [ys | e1]; cbn [rbind].
      * split; [discriminate | ].
        intros (good & bad & rest & H & Hg & Hb).
        destruct good as [| g good]; cbn in H; inversion H; subst.
        -- congruence.
        -- inversion Hg; subst.
           assert (Hno : @Ok (list B) ys = Raise e) by (apply IH; eauto 6).
           discriminate Hno.
      * split.
        -- intros H. inversion H; subst.
           destruct (proj1 IH eq_refl) as (good & bad & rest & -> & Hg & Hb).
           exists (x :: good), bad, rest.
           split; [reflexivity | ]. split; [ | exact Hb].
           constructor; [eauto | exact Hg].
        -- intros (good & bad & rest & H & Hg & Hb).
           destruct good as [| g good]; cbn in H; inversion H; subst.
           ++ congruence.
           ++ inversion Hg; subst. apply IH. eauto 6.
    + split.
      * intros H. inversion H; subst.
        exists [], x, l. split; [reflexivity | ].
        split; [constructor | exact Ex].
      * intros (good & bad & rest & H & Hg & Hb).
        destruct good as [| g good]; cbn in H; inversion H; subst.
        -- congruence.
        -- inversion Hg as [| ? ? [y Hy] _]; subst. congruence.
Qed.

(** The two ways the end of a [try] block can go: every selected flight
    is formatted and the lines follow the header, or the first flight that
    cannot be formatted turns the call into one error line. *)
Lemma headed_outcome (top : list flight) (q : query) (header : string)
    (r : result (list string) * list query) :
  r = match format_all top (origin q) (destination q) with
      | Ok lines => (Ok (header :: lines), [q])
      | Raise e => (Ok [error_line e], [q])
      end ->
  (forall lines,
      Forall2 (fun f line =>
                 format_flight_info f (origin q) (destination q) = Ok line)
        top lines ->
      r = (Ok (header :: lines), [q]))
  /\ (forall bad e,
        first_unformattable top q bad e -> r = (Ok [error_line e], [q]))
  /\ ((exists lines,
         Forall2 (fun f line =>
                    format_flight_info f (origin q) (destination q)
                    = Ok line) top lines)
      \/ (exists bad e, first_unformattable top q bad e)).
Proof.
  intros ->. unfold format_all, first_unformattable.
  split; [ | split].
  - intros lines H. apply rmap_Forall2 in H. rewrite H. reflexivity.
  - intros bad e (good & rest & H).
    assert (Hr : rmap (fun flight =>
                         format_flight_info flight (origin q) (destination q))
                   top = Raise e)
      by (apply rmap_first_raise; eauto).
    rewrite Hr. reflexivity.
  - destruct (rmap (fun flight =>
                      format_flight_info flight (origin q) (destination q))
                top) as [lines | e] eqn:E.
    + left. exists lines. apply rmap_Forall2, E.
    + right. apply rmap_first_raise in E.
      destruct E as (good & bad & rest & E). eauto 6.
Qed.

(** ** The general listing *)

Lemma run_general (backend : Backend) (q : query) (n : Z)
    (cp : string) (F : list flight) :
  params_ok (General n) q = true ->
  backend q = Ok (ResultDict cp F) -> F <> [] ->
  run (get_general_flights_info backend q n)
  = match format_all (PyList.slice_to F (Z.min n (PyList.len F)))
            (origin q) (destination q) with
    | Ok lines =>
        (Ok (("The current overall flight prices for this route and time are: "
              ++ cp ++ ".") :: lines), [q])
    | Raise e => (Ok [error_line e], [q])
    end.
Proof.
  intros Hp Hb HF.
  change (get_general_flights_info backend q n)
    with (call backend (General n) q).
  rewrite (run_call_try _ _ _ Hp). cbn [try_block]. unfold general_try.
  rewrite bind_invoke, Hb, (is_nil_false _ _ HF), run_format.
  destruct (format_all _ _ _) as [lines | e] eqn:E; [reflexivity | ].
  rewrite (handled_line e (format_all_raises _ _ _ _ E)). reflexivity.
Qed.

(** C10.  The number of flights asked for is not checked.  With accepted
    parameters and a backend answer whose flight list is not empty, a call
    with [n_flights = 0] returns exactly one string, the header with the
    aggregate price, and no line of a flight; whatever [n_flights] is, the
    call goes to the backend. *)
Theorem zero_flights_header_only
    (backend : Backend) (q : query) (cp : string) (F : list flight) :
  params_ok (General 0) q = true ->
  backend q = Ok (ResultDict cp F) -> F <> [] ->
  run (get_general_flights_info backend q 0)
  = (Ok ["The current overall flight prices for this route and time are: "
         ++ cp ++ "."], [q])
  /\ (forall n, params_ok (General n) q = true
                /\ snd (run (get_general_flights_info backend q n)) = [q]).
Proof.
  intros Hp Hb HF. split.
  - rewrite (run_general backend q 0 cp F Hp Hb HF).
    rewrite slice_to_min by lia.
    rewrite Z.min_l by (unfold PyList.len; lia). reflexivity.
  - intros n. split; [exact Hp | ].
    change (get_general_flights_info backend q n)
      with (call backend (General n) q).
    rewrite (valid_call_invokes_once backend (General n) q Hp eq_refl).
    rewrite (answer_ok_filter_built _ _ _ Hb). reflexivity.
Qed.

Lemma zero_flights_header_only_witness :
  (params_ok (General 0) Sample.q_ok = true
   /\ Sample.answers "typical" [Sample.delta; Sample.united] Sample.q_ok
      = Ok (ResultDict "typical" [Sample.delta; Sample.united])
   /\ [Sample.delta; Sample.united] <> [])
  /\ run (get_general_flights_info
            (Sample.answers "typical" [Sample.delta; Sample.united])
            Sample.q_ok 0)
     = (Ok ["The current overall flight prices for this route and time are: typical."],
        [Sample.q_ok]).
Proof.
  split; [repeat split; discriminate | ].
  apply (proj1 (zero_flights_header_only
                  (Sample.answers "typical" [Sample.delta; Sample.united])
                  Sample.q_ok "typical" [Sample.delta; Sample.united]
                  eq_refl eq_refl ltac:(discriminate))).
Defined.

(** C8, amended.  With accepted parameters, a backend answer whose flight
    list F is not empty and [n_flights >= 0]: when each of the first
    min(n_flights, |F|) records of F can be formatted, the call returns
    the header with the aggregate price of the backend, followed by the
    formatted lines of these records, in the order of the backend; when
    one of them cannot, it returns the one error line of what the first
    such record raises.  One of the two is the case. *)
Theorem general_first_n
    (backend : Backend) (q : query) (n : Z) (cp : string)
    (F : list flight) :
  params_ok (General n) q = true ->
  backend q = Ok (ResultDict cp F) ->
  F <> [] -> 0 <= n ->
  let top := firstn (Z.to_nat (Z.min n (PyList.len F))) F in
  (forall lines,
      Forall2 (fun f line =>
                 format_flight_info f (origin q) (destination q) = Ok line)
        top lines ->
      run (get_general_flights_info backend q n)
      = (Ok (("The current overall flight prices for this route and time are: "
              ++ cp ++ ".") :: lines), [q]))
  /\ (forall bad e,
        first_unformattable top q bad e ->
        run (get_general_flights_info backend q n)
        = (Ok [error_line e], [q]))
  /\ ((exists lines,
         Forall2 (fun f line =>
                    format_flight_info f (origin q) (destination q)
                    = Ok line) top lines)
      \/ (exists bad e, first_unformattable top q bad e)).
Proof.
  intros Hp Hb HF Hn top. apply headed_outcome.
  rewrite (run_general backend q n cp F Hp Hb HF).
  rewrite slice_to_min by exact Hn. reflexivity.
Qed.

Lemma general_first_n_witness :
  (params_ok (General 1) Sample.q_ok = true
   /\ Sample.answers "typical" [Sample.delta; Sample.united] Sample.q_ok
      = Ok (ResultDict "typical" [Sample.delta; Sample.united])
   /\ [Sample.delta; Sample.united] <> []
   /\ 0 <= 1
   /\ Forall2 (fun f line => format_flight_info f "JFK" "LAX" = Ok line)
        (firstn (Z.to_nat (Z.min 1 (PyList.len [Sample.delta; Sample.united])))
           [Sample.delta; Sample.united])
        [Sample.line_delta])
  /\ run (get_general_flights_info
            (Sample.answers "typical" [Sample.delta; Sample.united])
            Sample.q_ok 1)
     = (Ok ["The current overall flight prices for this route and time are: typical.";
            Sample.line_delta], [Sample.q_ok]).
Proof.
  assert (Hl : Forall2
                 (fun f line => format_flight_info f "JFK" "LAX" = Ok line)
                 (firstn
                    (Z.to_nat
                       (Z.min 1 (PyList.len [Sample.delta; Sample.united])))
                    [Sample.delta; Sample.united])
                 [Sample.line_delta])
    by (repeat constructor).
  split.
  - repeat split; try reflexivity; try discriminate. exact Hl.
  - apply (proj1 (general_first_n
                    (Sample.answers "typical" [Sample.delta; Sample.united])
                    Sample.q_ok 1 "typical" [Sample.delta; Sample.united]
                    eq_refl eq_refl ltac:(discriminate) ltac:(discriminate))
             [Sample.line_delta] Hl).
Defined.

(** C8 as it is stated fails on an empty flight list, where no header is
    returned, and on a negative [n_flights], where all the records but the
    last ones are listed. *)
Lemma general_first_n_counterexample :
  (run (get_general_flights_info (Sample.answers "typical" []) Sample.q_ok 5)
   = (Ok ["No flights found for the specified route and dates."],
      [Sample.q_ok])
   /\ ~ Spec.header_then_lines
          "The current overall flight prices for this route and time are: typical."
          (firstn (Z.to_nat (Z.min 5 (PyList.len (@nil flight)))) [])
          Sample.q_ok
          ["No flights found for the specified route and dates."])
  /\ (run (get_general_flights_info
             (Sample.answers "typical" [Sample.delta; Sample.united])
             Sample.q_ok (-1))
      = (Ok ["The current overall flight prices for this route and time are: typical.";
             Sample.line_delta], [Sample.q_ok])
      /\ ~ Spec.header_then_lines
             "The current overall flight prices for this route and time are: typical."
             (firstn
                (Z.to_nat
                   (Z.min (-1) (PyList.len [Sample.delta; Sample.united])))
                [Sample.delta; Sample.united])
             Sample.q_ok
             ["The current overall flight prices for this route and time are: typical.";
              Sample.line_delta]).
Proof.
  split; (split; [reflexivity | ]).
  - intros (lines & _ & H). discriminate H.
  - intros (lines & Hl & H). cbn in Hl. inversion Hl; subst. discriminate H.
Qed.

(** ** The best flights *)

Lemma run_best (backend : Backend) (q : query)
    (cp : string) (F : list flight) :
  params_ok Best q = true ->
  backend q = Ok (ResultDict cp F) -> F <> [] ->
  run (get_best_flights backend q)
  = if PyList.is_nil (filter is_best F)
    then (Ok [msg_no_best], [q])
    else
      match format_all
              (firstn (Nat.min 30 (length (filter is_best F)))
                 (filter is_best F))
              (origin q) (destination q) with
      | Ok lines =>
          (Ok ("Here are the best flights for this route and time: "
               :: lines), [q])
      | Raise e => (Ok [error_line e], [q])
      end.
Proof.
  intros Hp Hb HF.
  change (get_best_flights backend q) with (call backend Best q).
  rewrite (run_call_try _ _ _ Hp). cbn [try_block]. unfold best_try.
  rewrite bind_invoke, Hb, (is_nil_false _ _ HF).
  destruct (PyList.is_nil (filter is_best F)); [reflexivity | ].
  rewrite run_format, slice_to_30.
  destruct (format_all _ _ _) as [lines | e] eqn:E; [reflexivity | ].
  rewrite (handled_line e (format_all_raises _ _ _ _ E)). reflexivity.
Qed.

(** C3, amended.  With accepted parameters and a backend answer whose
    flight list is not empty: the records selected are exactly the records
    of the list whose best flag is true, in their order; when there is
    none the call returns the single no-best-flights message; otherwise,
    when each of the first min(30, number selected) of them can be
    formatted, it returns the header followed by their formatted lines,
    and when one of them cannot, the one error line of what the first
    such record raises. *)
Theorem best_flights_only
    (backend : Backend) (q : query) (cp : string) (F : list flight) :
  params_ok Best q = true ->
  backend q = Ok (ResultDict cp F) ->
  F <> [] ->
  let best := filter is_best F in
  let top := firstn (Nat.min 30 (length best)) best in
  (forall f, In f best <-> In f F /\ is_best f = true)
  /\ (best = [] ->
      run (get_best_flights backend q)
      = (Ok ["No best flights found for the specified route and dates."],
         [q]))
  /\ (best <> [] ->
      (forall lines,
          Forall2 (fun f line =>
                     format_flight_info f (origin q) (destination q)
                     = Ok line) top lines ->
          run (get_best_flights backend q)
          = (Ok ("Here are the best flights for this route and time: "
                 :: lines), [q]))
      /\ (forall bad e,
            first_unformattable top q bad e ->
            run (get_best_flights backend q) = (Ok [error_line e], [q]))
      /\ ((exists lines,
             Forall2 (fun f line =>
                        format_flight_info f (origin q) (destination q)
                        = Ok line) top lines)
          \/ (exists bad e, first_unformattable top q bad e))).
Proof.
  intros Hp Hb HF best top.
  pose proof (run_best backend q cp F Hp Hb HF) as Hrun. fold best in Hrun.
  split; [intros f; apply filter_In | ].
  split.
  - intros Hbest. rewrite Hrun, Hbest. reflexivity.
  - intros Hbest. apply headed_outcome.
    rewrite Hrun, (is_nil_false _ _ Hbest). reflexivity.
Qed.

Lemma best_flights_only_witness :
  (params_ok Best Sample.q_ok = true
   /\ Sample.answers "typical" [Sample.united; Sample.delta; Sample.jetblue]
        Sample.q_ok
      = Ok (ResultDict "typical"
              [Sample.united; Sample.delta; Sample.jetblue])
   /\ [Sample.united; Sample.delta; Sample.jetblue] <> []
   /\ filter is_best [Sample.united; Sample.delta; Sample.jetblue] <> []
   /\ Forall2 (fun f line => format_flight_info f "JFK" "LAX" = Ok line)
        [Sample.delta] [Sample.line_delta])
  /\ run (get_best_flights
            (Sample.answers "typical"
               [Sample.united; Sample.delta; Sample.jetblue]) Sample.q_ok)
     = (Ok ["Here are the best flights for this route and time: ";
            Sample.line_delta], [Sample.q_ok]).
Proof.
  assert (Hl : Forall2
                 (fun f line => format_flight_info f "JFK" "LAX" = Ok line)
                 [Sample.delta] [Sample.line_delta])
    by (repeat constructor).
  split; [repeat split; try discriminate; exact Hl | ].
  apply (proj1 (proj2 (proj2 (best_flights_only
                  (Sample.answers "typical"
                     [Sample.united; Sample.delta; Sample.jetblue])
                  Sample.q_ok "typical"
                  [Sample.united; Sample.delta; Sample.jetblue]
                  eq_refl eq_refl ltac:(discriminate)))
                  ltac:(discriminate))
           [Sample.line_delta] Hl).
Defined.

(** C3 as it is stated fails on the empty flight list: no record has the
    best flag, and the call returns the no-flights message, not the
    no-best-flights one. *)
Lemma best_flights_only_counterexample :
  filter is_best [] = []
  /\ run (get_best_flights (Sample.answers "typical" []) Sample.q_ok)
     = (Ok ["No flights found for the specified route and dates."],
        [Sample.q_ok])
  /\ ["No flights found for the specified route and dates."]
     <> ["No best flights found for the specified route and dates."].
Proof. repeat split. discriminate. Qed.

(** ** The cheapest flights *)

(** The key of the code is the key of the specification. *)
Lemma get_price_value_spec (f : flight) :
  get_price_value f = Spec.price_key f.
Proof.
  unfold get_price_value, Spec.price_key.
  destruct (price f) as [ | | [| c p]]; reflexivity.
Qed.

Lemma run_cheapest (backend : Backend) (q : query)
    (cp : string) (F : list flight) :
  params_ok Cheapest q = true ->
  backend q = Ok (ResultDict cp F) -> F <> [] ->
  run (get_cheapest_flights backend q)
  = match format_all
            (firstn (Nat.min 30 (length F))
               (PyList.sorted get_price_value F))
            (origin q) (destination q) with
    | Ok lines =>
        (Ok ("Here are the cheapest flights for this route and time: "
             :: lines), [q])
    | Raise e => (Ok [error_line e], [q])
    end.
Proof.
  intros Hp Hb HF.
  change (get_cheapest_flights backend q) with (call backend Cheapest q).
  rewrite (run_call_try _ _ _ Hp). cbn [try_block]. unfold cheapest_try.
  rewrite bind_invoke, Hb, (is_nil_false _ _ HF).
  rewrite run_format, slice_to_30, sorted_length.
  destruct (format_all _ _ _) as [lines | e] eqn:E; [reflexivity | ].
  rewrite (handled_line e (format_all_raises _ _ _ _ E)). reflexivity.
Qed.

(** C1, amended.  With accepted parameters and a backend answer whose
    flight list F is not empty and has no price that parses to NaN: let S
    be the stable ascending sort of F by the price key (the same records,
    none before a record of smaller key, records of equal key in their
    order of F; there is one such list).  When each of the first
    min(30, |F|) records of S can be formatted, the call returns its header
    followed by the formatted lines of these records; when one of them
    cannot, it returns the one error line of what the first such record
    raises.  The key is the float of the price without [$] and [,]; a
    missing price, the placeholder and a price that does not parse have the
    key infinity, which is above every finite price, so that these records
    come after all records of finite price. *)
Theorem cheapest_sorted_prefix
    (backend : Backend) (q : query) (cp : string) (F : list flight) :
  params_ok Cheapest q = true ->
  backend q = Ok (ResultDict cp F) ->
  F <> [] ->
  Forall (fun f => PyFloat.is_nan (get_price_value f) = false) F ->
  let S := PyList.sorted get_price_value F in
  let top := firstn (Nat.min 30 (length F)) S in
  ((forall lines,
       Forall2 (fun f line =>
                  format_flight_info f (origin q) (destination q) = Ok line)
         top lines ->
       run (get_cheapest_flights backend q)
       = (Ok ("Here are the cheapest flights for this route and time: "
              :: lines), [q]))
   /\ (forall bad e,
         first_unformattable top q bad e ->
         run (get_cheapest_flights backend q) = (Ok [error_line e], [q]))
   /\ ((exists lines,
          Forall2 (fun f line =>
                     format_flight_info f (origin q) (destination q)
                     = Ok line) top lines)
       \/ (exists bad e, first_unformattable top q bad e)))
  /\ (Spec.stable_sort_of get_price_value F S
      /\ forall S', Spec.stable_sort_of get_price_value F S' -> S' = S)
  /\ ((forall f, get_price_value f = Spec.price_key f)
      /\ (forall n, PyFloat.ltb (PyFloat.Fin n) PyFloat.inf = true)
      /\ (forall x, PyFloat.ltb PyFloat.inf x = false)
      /\ (forall l1 a l2 b n,
            S = (l1 ++ a :: l2)%list ->
            get_price_value a = PyFloat.inf -> In b l2 ->
            get_price_value b <> PyFloat.Fin n)).
Proof.
  intros Hp Hb HF Hn S top.
  pose proof (sorted_stable_sort get_price_value F Hn) as Hst.
  split; [ | split; [split | ] ].
  - apply headed_outcome.
    rewrite (run_cheapest backend q cp F Hp Hb HF). reflexivity.
  - exact Hst.
  - intros S' HS'. apply stable_sort_is_sorted; assumption.
  - split; [apply get_price_value_spec | ].
    split; [apply inf_above_finite | ].
    split; [apply nothing_above_inf | ].
    intros l1 a l2 b n HS Ha Hb'.
    destruct Hst as (Hperm & Hsorted & _). fold S in Hperm, Hsorted.
    rewrite HS in Hperm, Hsorted.
    apply (after_inf_all_inf get_price_value l1 l2 a b); try assumption.
    apply (Permutation_Forall Hperm Hn).
Qed.

Lemma cheapest_sorted_prefix_witness :
  (params_ok Cheapest Sample.q_ok = true
   /\ Sample.answers "typical" [Sample.jetblue; Sample.delta; Sample.united]
        Sample.q_ok
      = Ok (ResultDict "typical"
              [Sample.jetblue; Sample.delta; Sample.united])
   /\ [Sample.jetblue; Sample.delta; Sample.united] <> []
   /\ Forall (fun f => PyFloat.is_nan (get_price_value f) = false)
        [Sample.jetblue; Sample.delta; Sample.united]
   /\ Forall2 (fun f line => format_flight_info f "JFK" "LAX" = Ok line)
        (firstn (Nat.min 30 3)
           (PyList.sorted get_price_value
              [Sample.jetblue; Sample.delta; Sample.united]))
        [Sample.line_united; Sample.line_delta; Sample.line_jetblue])
  /\ run (get_cheapest_flights
            (Sample.answers "typical"
               [Sample.jetblue; Sample.delta; Sample.united]) Sample.q_ok)
     = (Ok ["Here are the cheapest flights for this route and time: ";
            Sample.line_united; Sample.line_delta; Sample.line_jetblue],
        [Sample.q_ok]).
Proof.
  assert (Hn : Forall (fun f => PyFloat.is_nan (get_price_value f) = false)
                 [Sample.jetblue; Sample.delta; Sample.united])
    by (repeat constructor; vm_compute; reflexivity).
  assert (Hl : Forall2
                 (fun f line => format_flight_info f "JFK" "LAX" = Ok line)
                 (firstn (Nat.min 30 3)
                    (PyList.sorted get_price_value
                       [Sample.jetblue; Sample.delta; Sample.united]))
                 [Sample.line_united; Sample.line_delta;
                  Sample.line_jetblue])
    by (vm_compute; repeat constructor).
  split.
  - split; [reflexivity | ]. split; [reflexivity | ].
    split; [discriminate | ]. split; [exact Hn | exact Hl].
  - apply (proj1 (proj1 (cheapest_sorted_prefix
                    (Sample.answers "typical"
                       [Sample.jetblue; Sample.delta; Sample.united])
                    Sample.q_ok "typical"
                    [Sample.jetblue; Sample.delta; Sample.united]
                    eq_refl eq_refl ltac:(discriminate) Hn))
             [Sample.line_united; Sample.line_delta; Sample.line_jetblue]
             Hl).
Defined.

(** C1 as it is stated fails on the empty flight list, where no header is
    returned, and on a list with a price that parses to NaN: of the prices
    [$2], [nan], [$1] none is below its neighbour, the list is returned in
    this order, and the flight at 2 comes before the flight at 1. *)
Lemma cheapest_sorted_prefix_counterexample :
  (run (get_cheapest_flights (Sample.answers "typical" []) Sample.q_ok)
   = (Ok ["No flights found for the specified route and dates."],
      [Sample.q_ok])
   /\ ~ Spec.header_then_lines
          "Here are the cheapest flights for this route and time: "
          (firstn (Nat.min 30 0) (@nil flight)) Sample.q_ok
          ["No flights found for the specified route and dates."])
  /\ (run (get_cheapest_flights
             (Sample.answers "typical"
                [Sample.priced "$2"; Sample.priced "nan";
                 Sample.priced "$1"]) Sample.q_ok)
      = (Ok ["Here are the cheapest flights for this route and time: ";
             Sample.line_priced "$2"; Sample.line_priced "nan";
             Sample.line_priced "$1"], [Sample.q_ok])
      /\ Sorted
           (fun a b =>
              PyFloat.ltb (get_price_value b) (get_price_value a) = false)
           [Sample.priced "$2"; Sample.priced "nan"; Sample.priced "$1"]
      /\ PyFloat.ltb (Spec.price_key (Sample.priced "$1"))
           (Spec.price_key (Sample.priced "$2")) = true
      /\ ~ StronglySorted
             (fun a b =>
                PyFloat.ltb (Spec.price_key b) (Spec.price_key a) = false)
             [Sample.priced "$2"; Sample.priced "nan"; Sample.priced "$1"]).
Proof.
  split; [split; [reflexivity | ] | ].
  - intros (lines & _ & H). discriminate H.
  - split; [vm_compute; reflexivity | ].
    split; [repeat constructor; vm_compute; reflexivity | ].
    split; [vm_compute; reflexivity | ].
    intros H. inversion H as [| ? ? _ Hall]; subst.
    inversion Hall as [| ? ? _ Hall']; subst.
    inversion Hall' as [| ? ? Hlt _]; subst.
    vm_compute in Hlt. discriminate Hlt.
Qed.

(** ** The time window *)

Lemma time_ltb_spec (a b : PyTime.time) :
  PyTime.ltb a b = true
  <-> PyTime.hour a < PyTime.hour b
      \/ (PyTime.hour a = PyTime.hour b
          /\ PyTime.minute a < PyTime.minute b).
Proof.
  unfold PyTime.ltb.
  rewrite orb_true_iff, andb_true_iff, !Z.ltb_lt, Z.eqb_eq. tauto.
Qed.

Lemma time_geb_spec (a b : PyTime.time) :
  PyTime.geb a b = true <-> PyTime.ltb a b = false.
Proof. unfold PyTime.geb. apply negb_true_iff. Qed.


(** The loop keeps the flights that pass the test of the state, provided
    every departure has a clock time. *)
Lemma select_flights_filter (state : string) (target : PyTime.time)
    (F : list flight) :
  Forall (fun f => exists t, flight_time f = Ok t) F ->
  select_flights state target F
  = Ok (filter
          (departure_satisfies
             (fun t =>
                if String.eqb state "before" then PyTime.ltb t target
                else if String.eqb state "after" then PyTime.geb t target
                     else false)) F).
Proof.
  induction 1 as [| f F [t Ht] _ IH]; [reflexivity | ].
  cbn [select_flights filter]. unfold departure_satisfies at 1.
  rewrite Ht, IH. cbn [rbind].
  destruct (String.eqb state "before");
    [destruct (PyTime.ltb t target); reflexivity | ].
  destruct (String.eqb state "after");
    [destruct (PyTime.geb t target); reflexivity | reflexivity].
Qed.

Lemma run_time_filtered (backend : Backend) (q : query)
    (state target_time_str cp : string) (target : PyTime.time)
    (F sel : list flight) :
  params_ok (TimeFiltered state target_time_str) q = true ->
  PyTime.strptime target_time_str = Ok target ->
  backend q = Ok (ResultDict cp F) -> F <> [] ->
  select_flights state target F = Ok sel ->
  run (get_time_filtered_flights backend state target_time_str q)
  = if PyList.is_nil sel
    then (Ok ["No flights found " ++ state ++ " " ++ target_time_str
              ++ " for the specified route and dates."], [q])
    else
      match format_all (firstn (Nat.min 30 (length sel)) sel)
              (origin q) (destination q) with
      | Ok lines =>
          (Ok (("Here are the time-filtered flights "
                ++ (if String.eqb state "before" then "before"
                    else "on or after")
                ++ " " ++ target_time_str ++ ": ") :: lines), [q])
      | Raise e => (Ok [error_line e], [q])
      end.
Proof.
  intros Hp Ht Hb HF Hs.
  change (get_time_filtered_flights backend state target_time_str q)
    with (call backend (TimeFiltered state target_time_str) q).
  rewrite (run_call_try _ _ _ Hp). cbn [try_block]. unfold time_try.
  rewrite Ht, bind_invoke, Hb, (is_nil_false _ _ HF), bind_lift, Hs.
  destruct (PyList.is_nil sel); [reflexivity | ].
  rewrite run_format, slice_to_30.
  destruct (format_all _ _ _) as [lines | e] eqn:E; [reflexivity | ].
  rewrite (handled_line e (format_all_raises _ _ _ _ E)). reflexivity.
Qed.



(** ** Splitting at whitespace *)

Lemma append_assoc (a b c : string) : (a ++ b) ++ c = a ++ (b ++ c).
Proof. induction a as [| x a IH]; cbn; [reflexivity | now rewrite IH]. Qed.

Lemma append_empty_r (a : string) : a ++ EmptyString = a.
Proof. induction a as [| x a IH]; cbn; [reflexivity | now rewrite IH]. Qed.

Lemma is_empty_append (cur tok : string) :
  tok <> EmptyString -> PyStr.is_empty (cur ++ tok) = false.
Proof.
  intros H. destruct cur; [ | reflexivity].
  destruct tok; [congruence | reflexivity].
Qed.

(** Reading a run of non-whitespace extends the current token. *)
Lemma split_from_token (tok cur rest : string) :
  forallb (fun c => negb (PyStr.isspace c)) (list_ascii_of_string tok) = true ->
  PyStr.split_from cur (tok ++ rest) = PyStr.split_from (cur ++ tok) rest.
Proof.
  revert cur. induction tok as [| c tok IH]; intros cur H.
  - cbn. now rewrite append_empty_r.
  - cbn in H. apply andb_prop in H. destruct H as [Hc H].
    apply negb_true_iff in Hc. cbn [append PyStr.split_from].
    rewrite Hc, (IH _ H), append_assoc. reflexivity.
Qed.

Lemma split_join (toks : list string) :
  Forall Spec.token toks ->
  PyStr.split (PyStr.join " " toks) = toks.
Proof.
  unfold PyStr.split.
  induction 1 as [| t toks [Hne Ht] Htoks IH]; [reflexivity | ].
  destruct toks as [| t' toks].
  - cbn [PyStr.join].
    rewrite <- (append_empty_r t) at 1.
    rewrite (split_from_token t EmptyString EmptyString Ht).
    cbn. destruct t; [congruence | reflexivity].
  - change (PyStr.join " " (t :: t' :: toks))
      with (t ++ String " " (PyStr.join " " (t' :: toks))).
    rewrite (split_from_token t EmptyString _ Ht).
    change (EmptyString ++ t) with t.
    cbn [PyStr.split_from].
    change (PyStr.isspace " ") with true. cbv iota.
    destruct t; [congruence | ]. cbn [PyStr.is_empty].
    rewrite IH. reflexivity.
Qed.

(** ** Durations *)

(** C4, amended.  The duration is rewritten exactly when it splits into
    four whitespace-separated tokens, whatever the second and the fourth
    are: the result is the first token, [hours and], the third token,
    [minutes].  Every string with another number of tokens is passed
    through unchanged.  [4 hours 30 minutes] gives [4 hours and 30
    minutes] and [4h30m] is returned as it is. *)
Theorem duration_four_tokens (h u m v : string) :
  Spec.token h -> Spec.token u -> Spec.token m -> Spec.token v ->
  duration_formatted (h ++ " " ++ u ++ " " ++ m ++ " " ++ v)
  = h ++ " hours and " ++ m ++ " minutes"
  /\ (forall s,
        duration_formatted s
        = match PyStr.split s with
          | [h'; _; m'; _] => h' ++ " hours and " ++ m' ++ " minutes"
          | _ => s
          end)
  /\ duration_formatted "4 hours 30 minutes" = "4 hours and 30 minutes"
  /\ duration_formatted "4h30m" = "4h30m".
Proof.
  intros Hh Hu Hm Hv. split; [ | split; [ | split; reflexivity] ].
  - unfold duration_formatted.
    change (h ++ " " ++ u ++ " " ++ m ++ " " ++ v)
      with (PyStr.join " " [h; u; m; v]).
    rewrite split_join
      by (repeat (apply Forall_cons; [assumption | ]); apply Forall_nil).
    reflexivity.
  - intros s. unfold duration_formatted.
    destruct (PyStr.split s) as [| a [| b [| c [| d [| e l]]]]];
      reflexivity.
Qed.

Lemma duration_four_tokens_witness :
  (Spec.token "11" /\ Spec.token "hours" /\ Spec.token "5"
   /\ Spec.token "minutes")
  /\ duration_formatted ("11" ++ " " ++ "hours" ++ " " ++ "5" ++ " "
                         ++ "minutes")
     = "11" ++ " hours and " ++ "5" ++ " minutes".
Proof.
  assert (H : forall s,
             PyStr.is_empty s = false ->
             forallb (fun c => negb (PyStr.isspace c))
               (list_ascii_of_string s) = true -> Spec.token s).
  { intros s H1 H2. split; [ | exact H2].
    destruct s; [discriminate | discriminate]. }
  assert (H1 : Spec.token "11") by (apply H; reflexivity).
  assert (H2 : Spec.token "hours") by (apply H; reflexivity).
  assert (H3 : Spec.token "5") by (apply H; reflexivity).
  assert (H4 : Spec.token "minutes") by (apply H; reflexivity).
  split; [exact (conj H1 (conj H2 (conj H3 H4))) | ].
  apply (proj1 (duration_four_tokens "11" "hours" "5" "minutes"
                  H1 H2 H3 H4)).
Defined.

(** C4 as it is stated fails on a string of four tokens that is not of
    the pattern: the tokens [hr] and [min] are not [hours] and [minutes],
    and the string is rewritten all the same. *)
Lemma duration_four_tokens_counterexample :
  PyStr.split "4 hr 30 min" = ["4"; "hr"; "30"; "min"]
  /\ "hr" <> "hours" /\ "min" <> "minutes"
  /\ duration_formatted "4 hr 30 min" = "4 hours and 30 minutes"
  /\ duration_formatted "4 hr 30 min" <> "4 hr 30 min".
Proof. repeat split; discriminate. Qed.

(** ** Dates *)

Lemma ordinal_suffix_spec (day : string) :
  ordinal_suffix day = Spec.ordinal day.
Proof.
  unfold ordinal_suffix, Spec.ordinal, PyStr.endswith_any. cbn [existsb].
  destruct (PyStr.endswith day "1"), (PyStr.endswith day "2"),
    (PyStr.endswith day "3"), (PyStr.endswith day "11"),
    (PyStr.endswith day "12"), (PyStr.endswith day "13"); reflexivity.
Qed.

(** For the days of a month the suffix is the one of the number. *)
Lemma ordinal_of_calendar_day (d : Z) :
  1 <= d <= 31 -> Spec.ordinal (PyStr.str_of_int d) = Spec.ordinal_of_day d.
Proof.
  intros H.
  assert (Hn : (Z.to_nat d <= 31)%nat) by lia.
  rewrite <- (Z2Nat.id d) by lia.
  revert Hn. generalize (Z.to_nat d) as n. clear H. intros n Hn.
  do 32 (destruct n as [| n]; [vm_compute; reflexivity | ]).
  lia.
Qed.

(** [expand_date] on a string of six tokens. *)
Lemma expand_date_six_tokens (t0 t1 t2 t3 t4 t5 : string) :
  Spec.token t0 -> Spec.token t1 -> Spec.token t2 ->
  Spec.token t3 -> Spec.token t4 -> Spec.token t5 ->
  expand_date (t0 ++ " " ++ t1 ++ " " ++ t2 ++ " " ++ t3 ++ " " ++ t4
               ++ " " ++ t5)
  = Ok (t0 ++ " " ++ t1 ++ " on "
        ++ dict_get day_map (PyStr.rstrip "," t3) (PyStr.rstrip "," t3)
        ++ ", " ++ dict_get month_map t4 t4 ++ " " ++ t5
        ++ ordinal_suffix t5).
Proof.
  intros H0 H1 H2 H3 H4 H5. unfold expand_date.
  change (t0 ++ " " ++ t1 ++ " " ++ t2 ++ " " ++ t3 ++ " " ++ t4 ++ " " ++ t5)
    with (PyStr.join " " [t0; t1; t2; t3; t4; t5]).
  rewrite split_join
    by (repeat (apply Forall_cons; [assumption | ]); apply Forall_nil).
  cbn [subscript nth_error rbind]. rewrite !append_assoc. reflexivity.
Qed.

(** A weekday of the table, followed by a comma, is a token, and the
    table gives its full name once the comma is stripped. *)
Lemma weekday_lookup (wd full_wd : string) :
  In (wd, full_wd) day_map ->
  Spec.token (wd ++ ",")
  /\ dict_get day_map (PyStr.rstrip "," (wd ++ ","))
       (PyStr.rstrip "," (wd ++ ",")) = full_wd.
Proof.
  cbn [day_map In]. intros H.
  repeat destruct H as [H | H]; try contradiction H;
    inversion H; subst; (split; [split; [discriminate | ] | ]);
    vm_compute; reflexivity.
Qed.

Lemma month_lookup (mon full_mon : string) :
  In (mon, full_mon) month_map ->
  Spec.token mon /\ dict_get month_map mon mon = full_mon.
Proof.
  cbn [month_map In]. intros H.
  repeat destruct H as [H | H]; try contradiction H;
    inversion H; subst; (split; [split; [discriminate | ] | ]);
    vm_compute; reflexivity.
Qed.

(** With fewer than six tokens the subscripts run out. *)
Lemma expand_date_short (date_str : string) :
  (length (PyStr.split date_str) < 6)%nat ->
  expand_date date_str = Raise IndexError.
Proof.
  unfold expand_date.
  destruct (PyStr.split date_str)
    as [| a [| b [| c [| d [| e [| f l]]]]]];
    cbn; intros H; try reflexivity; lia.
Qed.

(** C5, amended.  The display strings the code expands have six tokens:
    the time, AM or PM, a third token that is skipped ([on] in the strings
    of the backend), the abbreviated weekday followed by a comma, the
    abbreviated month, the day.  For every such string with a weekday and
    a month of the lookup tables the result is the time, [on], the full
    weekday, a comma, the full month and the day with its ordinal suffix:
    [th] for a day ending in 11, 12 or 13 or not ending in 1, 2 or 3,
    otherwise [st], [nd], [rd].  [9:40 AM on Sat, Apr 5] gives
    [9:40 AM on Saturday, April 5th] and [2:15 PM on Mon, Nov 22] gives
    [2:15 PM on Monday, November 22nd]. *)
Theorem date_expansion
    (hm ampm third day wd full_wd mon full_mon : string) :
  Spec.token hm -> Spec.token ampm -> Spec.token third -> Spec.token day ->
  In (wd, full_wd) day_map -> In (mon, full_mon) month_map ->
  expand_date (hm ++ " " ++ ampm ++ " " ++ third ++ " " ++ wd ++ ", "
               ++ mon ++ " " ++ day)
  = Ok (hm ++ " " ++ ampm ++ " on " ++ full_wd ++ ", " ++ full_mon ++ " "
        ++ day ++ Spec.ordinal day)
  /\ (forall d, 1 <= d <= 31 ->
                Spec.ordinal (PyStr.str_of_int d) = Spec.ordinal_of_day d)
  /\ expand_date "9:40 AM on Sat, Apr 5" = Ok "9:40 AM on Saturday, April 5th"
  /\ expand_date "2:15 PM on Mon, Nov 22"
     = Ok "2:15 PM on Monday, November 22nd".
Proof.
  intros Hhm Hap Hth Hday Hwd Hmon.
  split; [ | split; [apply ordinal_of_calendar_day | split; reflexivity] ].
  rewrite <- ordinal_suffix_spec.
  destruct (weekday_lookup wd full_wd Hwd) as [Hwt Hwl].
  destruct (month_lookup mon full_mon Hmon) as [Hmt Hml].
  replace (wd ++ ", " ++ mon ++ " " ++ day)
    with ((wd ++ ",") ++ " " ++ mon ++ " " ++ day)
    by (rewrite append_assoc; reflexivity).
  rewrite (expand_date_six_tokens hm ampm third (wd ++ ",") mon day
             Hhm Hap Hth Hwt Hmt Hday).
  rewrite Hwl, Hml. reflexivity.
Qed.

Lemma date_expansion_witness :
  (Spec.token "9:40" /\ Spec.token "AM" /\ Spec.token "on" /\ Spec.token "5"
   /\ In ("Sat", "Saturday") day_map /\ In ("Apr", "April") month_map)
  /\ expand_date ("9:40" ++ " " ++ "AM" ++ " " ++ "on" ++ " " ++ "Sat" ++ ", "
                  ++ "Apr" ++ " " ++ "5")
     = Ok ("9:40" ++ " " ++ "AM" ++ " on " ++ "Saturday" ++ ", " ++ "April"
           ++ " " ++ "5" ++ Spec.ordinal "5").
Proof.
  assert (H1 : Spec.token "9:40") by (split; [discriminate | reflexivity]).
  assert (H2 : Spec.token "AM") by (split; [discriminate | reflexivity]).
  assert (H3 : Spec.token "on") by (split; [discriminate | reflexivity]).
  assert (H4 : Spec.token "5") by (split; [discriminate | reflexivity]).
  assert (H5 : In ("Sat", "Saturday") day_map) by (cbn; tauto).
  assert (H6 : In ("Apr", "April") month_map) by (cbn; tauto).
  split; [exact (conj H1 (conj H2 (conj H3 (conj H4 (conj H5 H6))))) | ].
  apply (proj1 (date_expansion "9:40" "AM" "on" "5" "Sat" "Saturday"
                  "Apr" "April" H1 H2 H3 H4 H5 H6)).
Defined.

(** C5 as it is stated fails on its own examples: a string of the shape
    it gives has five tokens, and [expand_date] reads a sixth. *)
Lemma date_expansion_counterexample :
  PyStr.split "9:40 AM Sat, Apr 5" = ["9:40"; "AM"; "Sat,"; "Apr"; "5"]
  /\ expand_date "9:40 AM Sat, Apr 5"
     = Raise (OtherError "list index out of range")
  /\ expand_date "9:40 AM Sat, Apr 5" <> Ok "9:40 AM on Saturday, April 5th"
  /\ expand_date "2:15 PM Mon, Nov 22"
     = Raise (OtherError "list index out of range")
  /\ expand_date "2:15 PM Mon, Nov 22"
     <> Ok "2:15 PM on Monday, November 22nd".
Proof. repeat split; discriminate. Qed.

(* ================================================================== *)
(** * Further properties of the code *)

(** ** Every way a call can end *)

(** A call that goes to the backend and gets no flights to work on. *)
Lemma run_call_no_flights (backend : Backend) (t : tool) (q : query) :
  params_ok t q = true -> target_ok t = true ->
  match backend q with
  | Raise e =>
      run (call backend t q)
      = (handled e, if filter_built backend q then [q] else [])
  | Ok NoFlightsKey => run (call backend t q) = (Ok [msg_no_data], [q])
  | Ok (ResultDict _ []) => run (call backend t q) = (Ok [msg_no_flights], [q])
  | Ok (ResultDict _ (_ :: _)) => True
  end.
Proof.
  intros Hp Ht. pose proof (try_block_backend backend t q Ht) as H.
  rewrite (run_call_try backend t q Hp).
  destruct (backend q) as [[| cp [| f F]] | e]; try rewrite H; auto.
Qed.

Lemma run_time_filtered_raise (backend : Backend) (q : query)
    (state target_time_str cp : string) (target : PyTime.time)
    (F : list flight) (e : exn) :
  params_ok (TimeFiltered state target_time_str) q = true ->
  PyTime.strptime target_time_str = Ok target ->
  backend q = Ok (ResultDict cp F) -> F <> [] ->
  select_flights state target F = Raise e ->
  run (get_time_filtered_flights backend state target_time_str q)
  = (Ok [error_line e], [q]).
Proof.
  intros Hp Ht Hb HF Hs.
  change (get_time_filtered_flights backend state target_time_str q)
    with (call backend (TimeFiltered state target_time_str) q).
  rewrite (run_call_try _ _ _ Hp). cbn [try_block]. unfold time_try.
  rewrite Ht, bind_invoke, Hb, (is_nil_false _ _ HF), bind_lift, Hs.
  rewrite (handled_line e (select_flights_raises _ _ _ _ Hs)). reflexivity.
Qed.

Lemma format_all_length (top : list flight) (o d : string)
    (lines : list string) :
  format_all top o d = Ok lines -> length lines = length top.
Proof.
  intros H. apply rmap_Forall2 in H. symmetry.
  apply (Forall2_length H).
Qed.

Lemma firstn_min_length (A : Type) (n : nat) (l : list A) :
  (length (firstn (Nat.min n (length l)) l) <= n)%nat.
Proof. rewrite length_firstn. lia. Qed.

(** X1.  A tool call asks the backend at most once: once, when the
    parameter checks pass (and, for the time-filtered tool, the target time
    parses) and fast_flights builds the filter of the request from the
    arguments; not at all when a check fails or when [FlightData],
    [Passengers] or [create_filter] raises. *)
Theorem backend_invoked_once_or_never
    (backend : Backend) (t : tool) (q : query) :
  snd (run (call backend t q))
  = if params_ok t q && target_ok t && filter_built backend q
    then [q] else [].
Proof.
  destruct (params_ok t q && target_ok t) eqn:E.
  - apply andb_prop in E. destruct E as [Hp Ht].
    apply valid_call_invokes_once; assumption.
  - destruct (not_valid_rejected backend t q E) as [msg H].
    rewrite H. reflexivity.
Qed.

(** The output of a capped selection. *)
Lemma headed_lines_bound (top : list flight) (q : query) (header : string)
    (n : nat) (r : result (list string) * list query) :
  (length top <= n)%nat ->
  r = match format_all top (origin q) (destination q) with
      | Ok lines => (Ok (header :: lines), [q])
      | Raise e => (Ok [error_line e], [q])
      end ->
  exists out log, r = (Ok out, log) /\ (1 <= length out <= S n)%nat.
Proof.
  intros Hn ->.
  destruct (format_all top (origin q) (destination q)) as [lines | e] eqn:E.
  - eexists _, _. split; [reflexivity | ].
    apply format_all_length in E. cbn [length]. lia.
  - eexists _, _. split; [reflexivity | ]. cbn [length]. lia.
Qed.

Lemma one_line_bound (m : string) (n : nat) (log : list query) :
  exists out log', (Ok [m], log) = (Ok out, log')
                   /\ (1 <= length out <= S n)%nat.
Proof. eexists _, _. split; [reflexivity | cbn [length]; lia]. Qed.

(** X2.  The cheapest, best and time-filtered tools never return more
    than 31 strings (a header and 30 flights), and never an empty list,
    whatever the backend answers; a call returns no list only when the
    backend raises what is no [Exception]. *)
Theorem capped_tools_at_most_31
    (backend : Backend) (q : query) (state target_time_str : string) :
  let bounded (t : tool) :=
    match fst (run (call backend t q)) with
    | Ok out => (1 <= length out <= 31)%nat
    | Raise e => is_exception e = false /\ backend q = Raise e
    end in
  bounded Cheapest /\ bounded Best
  /\ bounded (TimeFiltered state target_time_str).
Proof.
  intros bounded.
  assert (Hgen : forall t,
             (forall cp f F,
                 params_ok t q = true -> target_ok t = true ->
                 backend q = Ok (ResultDict cp (f :: F)) ->
                 exists out log, run (call backend t q) = (Ok out, log)
                                 /\ (1 <= length out <= 31)%nat) ->
             bounded t).
  { intros t H. unfold bounded.
    destruct (params_ok t q && target_ok t) eqn:E.
    - apply andb_prop in E. destruct E as [Hp Ht].
      pose proof (run_call_no_flights backend t q Hp Ht) as Hn.
      destruct (backend q) as [[| cp [| f F]] | e] eqn:Hb;
        try (rewrite Hn; cbn; lia).
      + destruct (H cp f F Hp Ht eq_refl) as (out & log & -> & Hlen).
        exact Hlen.
      + rewrite Hn. unfold handled.
        destruct (is_exception e) eqn:Ee; cbn; [lia | auto].
    - destruct (not_valid_rejected backend t q E) as [msg ->]. cbn. lia. }
  split; [ | split]; apply Hgen; intros cp f F Hp Ht Hb.
  - cbn [call].
    rewrite (run_cheapest backend q cp (f :: F) Hp Hb ltac:(discriminate)).
    eapply headed_lines_bound; [ | reflexivity].
    rewrite length_firstn. lia.
  - cbn [call].
    rewrite (run_best backend q cp (f :: F) Hp Hb ltac:(discriminate)).
    destruct (PyList.is_nil (filter is_best (f :: F)));
      [apply one_line_bound | ].
    eapply headed_lines_bound; [ | reflexivity].
    rewrite length_firstn. lia.
  - cbn [call]. destruct (target_ok_time _ _ Ht) as [target Htt].
    destruct (select_flights state target (f :: F)) as [sel | e] eqn:Hs.
    + rewrite (run_time_filtered backend q state target_time_str cp target
                 (f :: F) sel Hp Htt Hb ltac:(discriminate) Hs).
      destruct (PyList.is_nil sel); [apply one_line_bound | ].
      eapply headed_lines_bound; [ | reflexivity].
      rewrite length_firstn. lia.
    + rewrite (run_time_filtered_raise backend q state target_time_str cp
                 target (f :: F) e Hp Htt Hb ltac:(discriminate) Hs).
      apply one_line_bound.
Qed.

(** X3.  With [n_flights >= 0] the general tool returns at most
    [n_flights + 1] strings, and never an empty list; it returns no list
    only when the backend raises what is no [Exception]. *)
Theorem general_at_most_n_plus_1
    (backend : Backend) (q : query) (n : Z) :
  0 <= n ->
  match fst (run (call backend (General n) q)) with
  | Ok out => (1 <= length out <= Z.to_nat n + 1)%nat
  | Raise e => is_exception e = false /\ backend q = Raise e
  end.
Proof.
  intros Hn.
  destruct (params_ok (General n) q && target_ok (General n)) eqn:E.
  - apply andb_prop in E. destruct E as [Hp Ht].
    pose proof (run_call_no_flights backend (General n) q Hp Ht) as Hnf.
    destruct (backend q) as [[| cp [| f F]] | e] eqn:Hb;
      try (rewrite Hnf; cbn; lia).
    + cbn [call].
      rewrite (run_general backend q n cp (f :: F) Hp Hb ltac:(discriminate)).
      rewrite slice_to_min by exact Hn.
      destruct (format_all _ _ _) as [lines | e] eqn:El; [ | cbn; lia].
      apply format_all_length in El. cbn [fst length]. rewrite El.
      rewrite length_firstn. unfold PyList.len. lia.
    + rewrite Hnf. unfold handled.
      destruct (is_exception e) eqn:Ee; cbn; [lia | auto].
  - destruct (not_valid_rejected backend (General n) q E) as [msg ->].
    cbn. lia.
Qed.

Lemma general_at_most_n_plus_1_witness :
  0 <= 1
  /\ match fst (run (call (Sample.answers "typical"
                             [Sample.delta; Sample.united; Sample.jetblue])
                       (General 1) Sample.q_ok)) with
     | Ok out => (1 <= length out <= Z.to_nat 1 + 1)%nat
     | Raise e =>
         is_exception e = false
         /\ Sample.answers "typical"
              [Sample.delta; Sample.united; Sample.jetblue] Sample.q_ok
            = Raise e
     end.
Proof.
  split; [lia | ].
  apply (general_at_most_n_plus_1 _ Sample.q_ok 1). lia.
Defined.

(** X4.  A negative [n_flights] is not rejected: the general tool then
    lists the flights but the last [- n_flights] of them, and the header
    alone when there are no more flights than that. *)
Theorem general_negative_n_drops_last
    (backend : Backend) (q : query) (n : Z) (cp : string) (F : list flight) :
  n < 0 ->
  params_ok (General n) q = true ->
  backend q = Ok (ResultDict cp F) -> F <> [] ->
  run (get_general_flights_info backend q n)
  = (match format_all (firstn (length F - Z.to_nat (- n)) F)
             (origin q) (destination q) with
     | Ok lines =>
         Ok (("The current overall flight prices for this route and time are: "
              ++ cp ++ ".") :: lines)
     | Raise e => Ok [error_line e]
     end, [q])
  /\ (Z.of_nat (length F) <= - n ->
      run (get_general_flights_info backend q n)
      = (Ok ["The current overall flight prices for this route and time are: "
             ++ cp ++ "."], [q])).
Proof.
  intros Hn Hp Hb HF.
  assert (H : run (get_general_flights_info backend q n)
              = (match format_all (firstn (length F - Z.to_nat (- n)) F)
                         (origin q) (destination q) with
                 | Ok lines =>
                     Ok (("The current overall flight prices for this route and time are: "
                          ++ cp ++ ".") :: lines)
                 | Raise e => Ok [error_line e]
                 end, [q])).
  { rewrite (run_general backend q n cp F Hp Hb HF).
    rewrite slice_to_negative by exact Hn.
    destruct (format_all _ _ _); reflexivity. }
  split; [exact H | ].
  intros Hle. rewrite H.
  replace (length F - Z.to_nat (- n))%nat with 0%nat by lia.
  reflexivity.
Qed.

Lemma general_negative_n_drops_last_witness :
  (-1 < 0
   /\ params_ok (General (-1)) Sample.q_ok = true
   /\ Sample.answers "typical" [Sample.delta; Sample.united] Sample.q_ok
      = Ok (ResultDict "typical" [Sample.delta; Sample.united])
   /\ [Sample.delta; Sample.united] <> [])
  /\ run (get_general_flights_info
            (Sample.answers "typical" [Sample.delta; Sample.united])
            Sample.q_ok (-1))
     = (Ok ["The current overall flight prices for this route and time are: typical.";
            Sample.line_delta], [Sample.q_ok]).
Proof.
  split; [repeat split; try lia; discriminate | ].
  exact (proj1 (general_negative_n_drops_last
                  (Sample.answers "typical" [Sample.delta; Sample.united])
                  Sample.q_ok (-1) "typical" [Sample.delta; Sample.united]
                  ltac:(lia) eq_refl eq_refl ltac:(discriminate))).
Defined.



(** X6.  The best tool formats the first 30 flights with the best flag
    and nothing else: two answers of the backend with the same such
    flights give the same result, so that a malformed flight without the
    flag, or after the 30th flagged one, cannot make the call fail. *)
Theorem best_reads_first_30_best_only
    (backend backend' : Backend) (q : query) (cp cp' : string)
    (F F' : list flight) :
  params_ok Best q = true ->
  backend q = Ok (ResultDict cp F) -> backend' q = Ok (ResultDict cp' F') ->
  F <> [] -> F' <> [] ->
  firstn 30 (filter is_best F) = firstn 30 (filter is_best F') ->
  run (get_best_flights backend q) = run (get_best_flights backend' q).
Proof.
  intros Hp Hb Hb' HF HF' Heq.
  rewrite (run_best backend q cp F Hp Hb HF).
  rewrite (run_best backend' q cp' F' Hp Hb' HF').
  assert (Hfirst : forall l : list flight,
             firstn (Nat.min 30 (length l)) l = firstn 30 l).
  { intros l. destruct (Nat.le_gt_cases 30 (length l)) as [H | H].
    - rewrite Nat.min_l by exact H. reflexivity.
    - rewrite Nat.min_r by lia. rewrite !firstn_all2 by lia. reflexivity. }
  rewrite !Hfirst, Heq.
  assert (Hnil : PyList.is_nil (filter is_best F)
                 = PyList.is_nil (filter is_best F')).
  { destruct (filter is_best F) as [| a l], (filter is_best F') as [| a' l'];
      try reflexivity; discriminate Heq. }
  rewrite Hnil. reflexivity.
Qed.

Lemma best_reads_first_30_best_only_witness :
  (params_ok Best Sample.q_ok = true
   /\ [Sample.delta] <> []
   /\ [mkFlight false "Nobody" "no time" "no time" "?" 0 NoPriceKey;
       Sample.delta] <> []
   /\ firstn 30 (filter is_best [Sample.delta])
      = firstn 30
          (filter is_best
             [mkFlight false "Nobody" "no time" "no time" "?" 0 NoPriceKey;
              Sample.delta]))
  /\ run (get_best_flights (Sample.answers "low" [Sample.delta]) Sample.q_ok)
     = run (get_best_flights
              (Sample.answers "high"
                 [mkFlight false "Nobody" "no time" "no time" "?" 0
                    NoPriceKey; Sample.delta]) Sample.q_ok).
Proof.
  split; [repeat split; discriminate | ].
  apply (best_reads_first_30_best_only _ _ Sample.q_ok "low" "high"
           [Sample.delta]
           [mkFlight false "Nobody" "no time" "no time" "?" 0 NoPriceKey;
            Sample.delta]);
    try reflexivity; discriminate.
Defined.

(** ** More on the time window *)

Lemma split_on_no_sep (sep : ascii) (s cur : string) :
  PyStr.contains sep s = false ->
  PyStr.split_on_from sep cur s = [cur ++ s].
Proof.
  unfold PyStr.contains. revert cur.
  induction s as [| c s IH]; intros cur H; cbn in *.
  - now rewrite append_empty_r.
  - apply orb_false_iff in H. destruct H as [Hc Hs].
    rewrite Ascii.eqb_sym, Hc, (IH _ Hs), append_assoc. reflexivity.
Qed.

Lemma split_on_from_cons (sep : ascii) (s cur : string) :
  exists x l, PyStr.split_on_from sep cur s = x :: l.
Proof.
  revert cur. induction s as [| c s IH]; intros cur; cbn.
  - eexists _, _. reflexivity.
  - destruct (Ascii.eqb c sep); [eexists _, _; reflexivity | apply IH].
Qed.

Lemma split_on_sep (sep : ascii) (s cur : string) :
  PyStr.contains sep s = true ->
  exists a b r, PyStr.split_on_from sep cur s = a :: b :: r.
Proof.
  unfold PyStr.contains. revert cur.
  induction s as [| c s IH]; intros cur H; cbn in *; [discriminate | ].
  rewrite Ascii.eqb_sym in H. destruct (Ascii.eqb c sep).
  - destruct (split_on_from_cons sep s EmptyString) as (x & l & ->).
    eexists _, _, _. reflexivity.
  - apply IH. exact H.
Qed.

(** How reading the clock time of a departure can fail. *)
Lemma flight_time_raise (f : flight) (e : exn) :
  flight_time f = Raise e ->
  (PyStr.contains " " (departure f) = false /\ e = IndexError)
  \/ (PyStr.contains " " (departure f) = true /\ exists d, e = ValueError d).
Proof.
  unfold flight_time, PyStr.split_on.
  destruct (PyStr.contains " " (departure f)) eqn:E.
  - destruct (split_on_sep " " (departure f) EmptyString E)
      as (a & b & r & ->).
    cbn. intros H. right. split; [reflexivity | ].
    apply (strptime_raises_ValueError _ _ H).
  - rewrite (split_on_no_sep " " (departure f) EmptyString E).
    cbn. intros H. inversion H. left. split; reflexivity.
Qed.

Lemma select_flights_raise (state : string) (target : PyTime.time)
    (good rest : list flight) (bad : flight) (e : exn) :
  Forall (fun f => exists t, flight_time f = Ok t) good ->
  flight_time bad = Raise e ->
  select_flights state target (good ++ bad :: rest) = Raise e.
Proof.
  intros Hg Hb. induction Hg as [| f good [t Ht] _ IH]; cbn.
  - rewrite Hb. reflexivity.
  - rewrite Ht. cbn [rbind]. rewrite IH. reflexivity.
Qed.

(** X7.  The time-filtered tool reads the departure of every flight of
    the backend.  The first flight whose departure has no readable clock
    time makes the whole call return one error line and no flight: the
    unexpected-error line of an [IndexError] when the departure has no
    space in it, the invalid-data line of the [ValueError] of [strptime]
    otherwise. *)
Theorem time_filter_fails_on_unreadable_departure
    (backend : Backend) (q : query) (state target_time_str cp : string)
    (target : PyTime.time) (good rest : list flight) (bad : flight)
    (e : exn) :
  params_ok (TimeFiltered state target_time_str) q = true ->
  PyTime.strptime target_time_str = Ok target ->
  backend q = Ok (ResultDict cp (good ++ bad :: rest)%list) ->
  Forall (fun f => exists t, flight_time f = Ok t) good ->
  flight_time bad = Raise e ->
  run (get_time_filtered_flights backend state target_time_str q)
  = (Ok [error_line e], [q])
  /\ ((PyStr.contains " " (departure bad) = false
       /\ error_line e
          = "An unexpected error occurred while searching for flights: list index out of range")
      \/ (PyStr.contains " " (departure bad) = true
          /\ exists d, error_line e = "Invalid data received: " ++ d)).
Proof.
  intros Hp Ht Hb Hg He. split.
  - apply (run_time_filtered_raise backend q state target_time_str cp target
             (good ++ bad :: rest) e Hp Ht Hb).
    + destruct good; discriminate.
    + apply select_flights_raise; assumption.
  - destruct (flight_time_raise bad e He) as [[Hc ->] | [Hc [d ->]]].
    + left. split; [exact Hc | reflexivity].
    + right. split; [exact Hc | ]. exists d. reflexivity.
Qed.

Lemma time_filter_fails_on_unreadable_departure_witness :
  (params_ok (TimeFiltered "after" "7:00 PM") Sample.q_ok = true
   /\ PyTime.strptime "7:00 PM" = Ok (PyTime.mkTime 19 0)
   /\ Forall (fun f => exists t, flight_time f = Ok t) [Sample.united]
   /\ flight_time
        (mkFlight true "Delta" "9:40AM on Sat, Apr 5" "1:00 PM on Sat, Apr 5"
           "3 hr 20 min" 0 (Price "$80"))
      = Raise (ValueError
                 "time data '9:40AM on' does not match format '%I:%M %p'"))
  /\ run (get_time_filtered_flights
            (Sample.answers "typical"
               [Sample.united;
                mkFlight true "Delta" "9:40AM on Sat, Apr 5"
                  "1:00 PM on Sat, Apr 5" "3 hr 20 min" 0 (Price "$80");
                Sample.jetblue])
            "after" "7:00 PM" Sample.q_ok)
     = (Ok ["Invalid data received: time data '9:40AM on' does not match format '%I:%M %p'"],
        [Sample.q_ok]).
Proof.
  assert (Hg : Forall (fun f => exists t, flight_time f = Ok t)
                 [Sample.united])
    by (repeat constructor; eexists; reflexivity).
  split; [repeat split; try reflexivity; exact Hg | ].
  exact (proj1 (time_filter_fails_on_unreadable_departure
                  (Sample.answers "typical"
                     [Sample.united;
                      mkFlight true "Delta" "9:40AM on Sat, Apr 5"
                        "1:00 PM on Sat, Apr 5" "3 hr 20 min" 0
                        (Price "$80");
                      Sample.jetblue])
                  Sample.q_ok "after" "7:00 PM" "typical"
                  (PyTime.mkTime 19 0) [Sample.united] [Sample.jetblue]
                  _ _ eq_refl eq_refl eq_refl Hg eq_refl)).
Defined.

Lemma filter_partition_perm (A : Type) (p : A -> bool) (l : list A) :
  Permutation (filter p l ++ filter (fun x => negb (p x)) l) l.
Proof.
  induction l as [| x l IH]; cbn; [constructor | ].
  destruct (p x); cbn.
  - constructor. exact IH.
  - eapply perm_trans; [apply Permutation_sym, Permutation_middle | ].
    constructor. exact IH.
Qed.

(** X8.  For a target time and a flight list whose departures have a
    clock time, the selection of [before] and the selection of [after]
    split the list: together they are the flights of the list, each once,
    and no flight is in both. *)
Theorem before_and_after_split_the_list
    (target : PyTime.time) (F : list flight) :
  Forall (fun f => exists t, flight_time f = Ok t) F ->
  exists before after,
    select_flights "before" target F = Ok before
    /\ select_flights "after" target F = Ok after
    /\ Permutation (before ++ after) F
    /\ (length before + length after = length F)%nat
    /\ (forall f, In f before -> In f after -> False).
Proof.
  intros Hall.
  exists (filter (departure_satisfies (fun t => PyTime.ltb t target)) F),
    (filter (departure_satisfies (fun t => PyTime.geb t target)) F).
  assert (Hneg : filter (departure_satisfies
                           (fun t => PyTime.geb t target)) F
                 = filter (fun f =>
                             negb (departure_satisfies
                                     (fun t => PyTime.ltb t target) f)) F).
  { apply filter_ext_in. intros f Hf.
    rewrite Forall_forall in Hall. destruct (Hall f Hf) as [t Ht].
    unfold departure_satisfies. rewrite Ht. reflexivity. }
  split; [rewrite (select_flights_filter "before" target F Hall);
          reflexivity | ].
  split; [rewrite (select_flights_filter "after" target F Hall);
          reflexivity | ].
  rewrite Hneg.
  pose proof (filter_partition_perm _
                (departure_satisfies (fun t => PyTime.ltb t target)) F)
    as Hperm.
  split; [exact Hperm | ].
  split.
  - rewrite <- length_app. apply Permutation_length, Hperm.
  - intros f H1 H2. apply filter_In in H1, H2.
    destruct H1 as [_ H1], H2 as [_ H2]. rewrite H1 in H2. discriminate H2.
Qed.

Lemma before_and_after_split_the_list_witness :
  Forall (fun f => exists t, flight_time f = Ok t)
    [Sample.jetblue; Sample.delta; Sample.united]
  /\ exists before after,
       select_flights "before" (PyTime.mkTime 9 40)
         [Sample.jetblue; Sample.delta; Sample.united] = Ok before
       /\ select_flights "after" (PyTime.mkTime 9 40)
            [Sample.jetblue; Sample.delta; Sample.united] = Ok after
       /\ Permutation (before ++ after)
            [Sample.jetblue; Sample.delta; Sample.united]
       /\ (length before + length after = 3)%nat
       /\ (forall f, In f before -> In f after -> False).
Proof.
  assert (H : Forall (fun f => exists t, flight_time f = Ok t)
                [Sample.jetblue; Sample.delta; Sample.united])
    by (repeat constructor; eexists; reflexivity).
  split; [exact H | ].
  exact (before_and_after_split_the_list (PyTime.mkTime 9 40) _ H).
Defined.

Lemma digit_range (c : ascii) (d : Z) :
  PyTime.digit c = Some d -> 0 <= d <= 9.
Proof.
  unfold PyTime.digit.
  destruct ((48 <=? Z.of_nat (nat_of_ascii c))
            && (Z.of_nat (nat_of_ascii c) <=? 57)) eqn:E; [ | discriminate].
  intros H. inversion H. apply andb_prop in E. lia.
Qed.

Lemma in_range_range (lo hi : Z) (c : ascii) (d : Z) :
  PyTime.in_range lo hi c = Some d -> lo <= d <= hi.
Proof.
  unfold PyTime.in_range. destruct (PyTime.digit c) as [d' | ]; [ | discriminate].
  destruct ((lo <=? d') && (d' <=? hi)) eqn:E; [ | discriminate].
  intros H. inversion H; subst. apply andb_prop in E. lia.
Qed.

Lemma alts_I_range (s : string) (h : Z) (r : string) :
  In (h, r) (PyTime.alts_I s) -> 1 <= h <= 12.
Proof.
  unfold PyTime.alts_I. destruct s as [| a s]; [contradiction | ].
  intros H. apply in_app_or in H. destruct H as [H | H].
  - destruct s as [| b s]; [contradiction | ].
    apply in_app_or in H. destruct H as [H | H].
    + destruct (PyTime.in_range 1 1 a); [ | contradiction].
      destruct (PyTime.in_range 0 2 b) as [d | ] eqn:E; [ | contradiction].
      destruct H as [H | []]. apply (f_equal fst) in H. cbn [fst] in H.
      rewrite <- H.
      apply in_range_range in E. lia.
    + destruct (PyTime.in_range 0 0 a); [ | contradiction].
      destruct (PyTime.in_range 1 9 b) as [d | ] eqn:E; [ | contradiction].
      destruct H as [H | []]. apply (f_equal fst) in H. cbn [fst] in H.
      rewrite <- H.
      apply in_range_range in E. lia.
  - destruct (PyTime.in_range 1 9 a) as [d | ] eqn:E; [ | contradiction].
    destruct H as [H | []]. apply (f_equal fst) in H. cbn [fst] in H.
      rewrite <- H.
    apply in_range_range in E. lia.
Qed.

Lemma alts_M_range (s : string) (m : Z) (r : string) :
  In (m, r) (PyTime.alts_M s) -> 0 <= m <= 59.
Proof.
  unfold PyTime.alts_M. destruct s as [| a s]; [contradiction | ].
  intros H. apply in_app_or in H. destruct H as [H | H].
  - destruct s as [| b s]; [contradiction | ].
    destruct (PyTime.in_range 0 5 a) as [d1 | ] eqn:E1; [ | contradiction].
    destruct (PyTime.digit b) as [d2 | ] eqn:E2; [ | contradiction].
    destruct H as [H | []]. apply (f_equal fst) in H. cbn [fst] in H.
      rewrite <- H.
    apply in_range_range in E1. apply digit_range in E2. lia.
  - destruct (PyTime.digit a) as [d | ] eqn:E; [ | contradiction].
    destruct H as [H | []]. apply (f_equal fst) in H. cbn [fst] in H.
      rewrite <- H.
    apply digit_range in E. lia.
Qed.

Lemma hd_error_In (A : Type) (l : list A) (x : A) :
  hd_error l = Some x -> In x l.
Proof. destruct l; cbn; intros H; inversion H. now left. Qed.

Lemma regex_match_range (s : string) (h m : Z) (pm : bool) (rest : string) :
  PyTime.regex_match s = Some (h, m, pm, rest) ->
  1 <= h <= 12 /\ 0 <= m <= 59.
Proof.
  unfold PyTime.regex_match. intros H. apply hd_error_In in H.
  apply in_flat_map in H. destruct H as ([h' r1] & HI & H).
  apply in_flat_map in H. destruct H as (r2 & _ & H).
  apply in_flat_map in H. destruct H as ([m' r3] & HM & H).
  apply in_flat_map in H. destruct H as (r4 & _ & H).
  apply in_map_iff in H. destruct H as ([p r5] & H & _).
  inversion H; subst.
  split; [apply (alts_I_range _ _ _ HI) | apply (alts_M_range _ _ _ HM)].
Qed.

(** A parsed clock time is a time of the day. *)
Lemma strptime_range (s : string) (t : PyTime.time) :
  PyTime.strptime s = Ok t ->
  0 <= PyTime.hour t <= 23 /\ 0 <= PyTime.minute t <= 59.
Proof.
  unfold PyTime.strptime.
  destruct (PyTime.regex_match s) as [[[[h m] pm] rest] | ] eqn:E;
    [ | discriminate].
  destruct (regex_match_range _ _ _ _ _ E) as [Hh Hm].
  destruct (PyStr.is_empty rest); [ | discriminate].
  cbv zeta. intros H.
  assert (Ht : t = PyTime.mkTime
                     (if pm then if h =? 12 then 12 else h + 12
                      else if h =? 12 then 0 else h) m) by congruence.
  rewrite Ht. cbn [PyTime.hour PyTime.minute].
  split; [ | exact Hm].
  destruct pm; destruct (Z.eqb_spec h 12); lia.
Qed.

Lemma flight_time_strptime (f : flight) (t : PyTime.time) :
  flight_time f = Ok t -> exists s, PyTime.strptime s = Ok t.
Proof.
  unfold flight_time.
  destruct (subscript _ 0) as [p0 | ]; [ | discriminate].
  destruct (subscript _ 1) as [p1 | ]; [ | discriminate].
  cbn [rbind]. eauto.
Qed.

(** X9.  The clock times the time-filtered tool compares are times of
    the day (hour 0 to 23, minute 0 to 59), and it compares them as
    minutes since midnight: a flight is kept by [before] exactly when its
    departure is fewer minutes after midnight than the target, and by
    [after] exactly when it is not. *)
Theorem clock_times_compare_as_minutes
    (f : flight) (target_time_str : string) (t target : PyTime.time) :
  flight_time f = Ok t ->
  PyTime.strptime target_time_str = Ok target ->
  (0 <= PyTime.hour t <= 23 /\ 0 <= PyTime.minute t <= 59)
  /\ (0 <= PyTime.hour target <= 23 /\ 0 <= PyTime.minute target <= 59)
  /\ (departure_satisfies (fun t => PyTime.ltb t target) f = true
      <-> 60 * PyTime.hour t + PyTime.minute t
          < 60 * PyTime.hour target + PyTime.minute target)
  /\ (departure_satisfies (fun t => PyTime.geb t target) f = true
      <-> 60 * PyTime.hour t + PyTime.minute t
          >= 60 * PyTime.hour target + PyTime.minute target).
Proof.
  intros Hf Ht.
  destruct (flight_time_strptime f t Hf) as [s Hs].
  pose proof (strptime_range _ _ Hs) as Hr.
  pose proof (strptime_range _ _ Ht) as Hr'.
  split; [exact Hr | ]. split; [exact Hr' | ].
  unfold departure_satisfies. rewrite Hf.
  rewrite time_geb_spec.
  assert (H : PyTime.ltb t target = true
              <-> 60 * PyTime.hour t + PyTime.minute t
                  < 60 * PyTime.hour target + PyTime.minute target).
  { rewrite time_ltb_spec. lia. }
  split; [exact H | ].
  destruct (PyTime.ltb t target); split; intros H'; try discriminate;
    try reflexivity.
  - exfalso. assert (H1 : true = true) by reflexivity.
    apply H in H1. lia.
  - destruct (Z.lt_ge_cases (60 * PyTime.hour t + PyTime.minute t)
                (60 * PyTime.hour target + PyTime.minute target))
      as [Hlt | Hge]; [apply H in Hlt; discriminate | lia].
Qed.

Lemma clock_times_compare_as_minutes_witness :
  (flight_time Sample.jetblue = Ok (PyTime.mkTime 0 5)
   /\ PyTime.strptime "12:30 AM" = Ok (PyTime.mkTime 0 30))
  /\ (departure_satisfies (fun t => PyTime.ltb t (PyTime.mkTime 0 30))
        Sample.jetblue = true
      <-> 60 * 0 + 5 < 60 * 0 + 30).
Proof.
  split; [split; reflexivity | ].
  exact (proj1 (proj2 (proj2 (clock_times_compare_as_minutes
                  Sample.jetblue "12:30 AM" (PyTime.mkTime 0 5)
                  (PyTime.mkTime 0 30) eq_refl eq_refl)))).
Defined.

Lemma split_on_field (sep : ascii) (a cur rest : string) :
  PyStr.contains sep a = false ->
  PyStr.split_on_from sep cur (a ++ String sep rest)
  = (cur ++ a) :: PyStr.split_on_from sep EmptyString rest.
Proof.
  unfold PyStr.contains. revert cur.
  induction a as [| c a IH]; intros cur H; cbn in *.
  - rewrite Ascii.eqb_refl, append_empty_r. reflexivity.
  - apply orb_false_iff in H. destruct H as [Hc Ha].
    rewrite Ascii.eqb_sym, Hc, (IH _ Ha), append_assoc. reflexivity.
Qed.

(** X10.  The time-filtered tool looks at the first two fields of a
    departure, separated by single spaces, and at nothing after them: the
    day of the departure takes no part in the comparison. *)
Theorem flight_time_ignores_the_date
    (f : flight) (clock ampm rest : string) :
  PyStr.contains " " clock = false -> PyStr.contains " " ampm = false ->
  departure f = clock ++ " " ++ ampm ++ " " ++ rest ->
  flight_time f = PyTime.strptime (clock ++ " " ++ ampm).
Proof.
  intros Hc Ha Hd. unfold flight_time, PyStr.split_on. rewrite Hd.
  change (clock ++ " " ++ ampm ++ " " ++ rest)
    with (clock ++ String " " (ampm ++ String " " rest)).
  rewrite (split_on_field " " clock EmptyString _ Hc).
  rewrite (split_on_field " " ampm EmptyString _ Ha).
  reflexivity.
Qed.

Lemma flight_time_ignores_the_date_witness :
  (PyStr.contains " " "7:00" = false /\ PyStr.contains " " "PM" = false
   /\ departure Sample.united = "7:00" ++ " " ++ "PM" ++ " " ++ "on Sat, Apr 5")
  /\ flight_time Sample.united = PyTime.strptime ("7:00" ++ " " ++ "PM").
Proof.
  split; [repeat split | ].
  apply (flight_time_ignores_the_date Sample.united "7:00" "PM"
           "on Sat, Apr 5"); reflexivity.
Defined.

(** ** More on the formatting *)

Lemma expand_date_six (date_str : string) :
  (6 <= length (PyStr.split date_str))%nat ->
  exists out, expand_date date_str = Ok out.
Proof.
  unfold expand_date.
  destruct (PyStr.split date_str)
    as [| a [| b [| c [| d [| e [| f l]]]]]];
    cbn [length]; intros H; try lia.
  cbn. eauto.
Qed.

(** X11.  [expand_date] needs six whitespace-separated tokens: with
    fewer it raises [IndexError] (list index out of range), with six or
    more it returns, and it never raises anything else.  Its result
    depends on the first six tokens only: what follows them, and how much
    whitespace of which kind separates the tokens, makes no difference. *)
Theorem expand_date_needs_six_tokens (date_str : string) :
  (expand_date date_str = Raise IndexError
   <-> (length (PyStr.split date_str) < 6)%nat)
  /\ ((exists out, expand_date date_str = Ok out)
      <-> (6 <= length (PyStr.split date_str))%nat)
  /\ (forall other,
        firstn 6 (PyStr.split other) = firstn 6 (PyStr.split date_str) ->
        expand_date other = expand_date date_str).
Proof.
  split; [ | split].
  - split; [ | apply expand_date_short].
    intros H.
    destruct (Nat.lt_ge_cases (length (PyStr.split date_str)) 6)
      as [Hlt | Hge]; [exact Hlt | ].
    destruct (expand_date_six date_str Hge) as [out Hout].
    rewrite Hout in H. discriminate H.
  - split; [ | apply expand_date_six].
    intros [out Hout].
    destruct (Nat.lt_ge_cases (length (PyStr.split date_str)) 6)
      as [Hlt | Hge]; [ | exact Hge].
    rewrite (expand_date_short date_str Hlt) in Hout. discriminate Hout.
  - intros other. unfold expand_date.
    destruct (PyStr.split date_str)
      as [| a [| b [| c [| d [| e [| f l]]]]]];
      destruct (PyStr.split other)
        as [| a' [| b' [| c' [| d' [| e' [| f' l']]]]]];
      cbn [firstn]; intros H; try discriminate H; try reflexivity.
    injection H as -> -> -> -> -> ->. reflexivity.
Qed.

(** What [expand_date] raises, and when it returns. *)
Lemma expand_date_outcome (date_str : string) :
  (forall e, expand_date date_str = Raise e -> e = IndexError)
  /\ ((exists out, expand_date date_str = Ok out)
      -> (6 <= length (PyStr.split date_str))%nat).
Proof.
  split.
  - unfold expand_date.
    destruct (PyStr.split date_str)
      as [| a [| b [| c [| d [| e' [| f l]]]]]];
      cbn; intros e H; inversion H; reflexivity.
  - intros [out Hout].
    destruct (Nat.lt_ge_cases (length (PyStr.split date_str)) 6)
      as [Hlt | Hge]; [ | exact Hge].
    rewrite (expand_date_short date_str Hlt) in Hout. discriminate Hout.
Qed.

Lemma format_flight_info_cases (f : flight) (o d : string) :
  match stops f with
  | StopsStr _ => format_flight_info f o d = Raise TypeError_str_int
  | StopsInt _ =>
      match expand_date (departure f), expand_date (arrival f), price f with
      | Raise e, _, _ => format_flight_info f o d = Raise e
      | Ok _, Raise e, _ => format_flight_info f o d = Raise e
      | Ok _, Ok _, NoPriceKey =>
          format_flight_info f o d = Raise (KeyError "price")
      | Ok _, Ok _, _ => exists line, format_flight_info f o d = Ok line
      end
  end.
Proof.
  unfold format_flight_info.
  destruct (stops f); cbn [stops_text rbind]; [ | reflexivity].
  destruct (expand_date (departure f)) as [dep | e]; [ | reflexivity].
  destruct (expand_date (arrival f)) as [arr | e]; [ | reflexivity].
  destruct (price f); cbn; eauto.
Qed.

(** X12.  [format_flight_info] returns a line exactly when the stops are
    an [int], the departure and the arrival have six tokens each and the
    flight dict has a price key.  It raises the [TypeError] of [stops > 0]
    exactly when the stops are a [str] (as ['Unknown']), and [IndexError]
    exactly when the stops are an [int] and the departure or the arrival
    has fewer than six tokens; what is left is the [KeyError] of the
    price.  It never raises a [ValueError]: in a tool, a flight that cannot
    be formatted gives the unexpected-error line, not the invalid-data
    line. *)
Theorem format_flight_info_failures (f : flight) (o d : string) :
  ((exists line, format_flight_info f o d = Ok line)
   <-> (exists n, stops f = StopsInt n)
       /\ (6 <= length (PyStr.split (departure f)))%nat
       /\ (6 <= length (PyStr.split (arrival f)))%nat
       /\ price f <> NoPriceKey)
  /\ (format_flight_info f o d
      = Raise (OtherError
                 "'>' not supported between instances of 'str' and 'int'")
      <-> exists s, stops f = StopsStr s)
  /\ (format_flight_info f o d = Raise IndexError
      <-> (exists n, stops f = StopsInt n)
          /\ ((length (PyStr.split (departure f)) < 6)%nat
              \/ (length (PyStr.split (arrival f)) < 6)%nat))
  /\ (format_flight_info f o d = Raise (KeyError "price")
      <-> (exists n, stops f = StopsInt n)
          /\ (6 <= length (PyStr.split (departure f)))%nat
          /\ (6 <= length (PyStr.split (arrival f)))%nat
          /\ price f = NoPriceKey)
  /\ (forall e,
        format_flight_info f o d = Raise e ->
        exists detail,
          error_line e
          = "An unexpected error occurred while searching for flights: "
            ++ detail).
Proof.
  pose proof (format_flight_info_cases f o d) as H.
  pose proof (expand_date_outcome (departure f)) as [Hd1 Hd2].
  pose proof (expand_date_outcome (arrival f)) as [Ha1 Ha2].
  assert (Hlast : forall e,
             format_flight_info f o d = Raise e ->
             exists detail,
               error_line e
               = "An unexpected error occurred while searching for flights: "
                 ++ detail).
  { intros e He. apply format_flight_info_raises in He.
    destruct He as [detail ->]. eexists. reflexivity. }
  assert (Hshort : forall s,
             expand_date s = Raise IndexError ->
             (length (PyStr.split s) < 6)%nat).
  { intros s Hs.
    destruct (Nat.lt_ge_cases (length (PyStr.split s)) 6)
      as [Hlt | Hge]; [exact Hlt | ].
    destruct (expand_date_six _ Hge) as [x Hx]. congruence. }
  split; [ | split; [ | split; [ | split; [ | exact Hlast] ] ] ].
  - (* a line *)
    destruct (stops f) as [n | s].
    + destruct (expand_date (departure f)) as [dep | e1] eqn:E1.
      * assert (Hdep : (6 <= length (PyStr.split (departure f)))%nat)
          by (apply Hd2; eauto).
        destruct (expand_date (arrival f)) as [arr | e2] eqn:E2.
        -- assert (Harr : (6 <= length (PyStr.split (arrival f)))%nat)
             by (apply Ha2; eauto).
           destruct (price f) eqn:Ep.
           ++ rewrite H. split; [intros [line Hl]; discriminate Hl | ].
              intros (_ & _ & _ & Hn). congruence.
           ++ split; [intros _ | intros _; exact H].
              split; [eauto | ]. split; [exact Hdep | ].
              split; [exact Harr | discriminate].
           ++ split; [intros _ | intros _; exact H].
              split; [eauto | ]. split; [exact Hdep | ].
              split; [exact Harr | discriminate].
        -- rewrite (Ha1 e2 eq_refl) in *. apply Hshort in E2.
           rewrite H. split; [intros [line Hl]; discriminate Hl | ].
           intros (_ & _ & Hx & _). lia.
      * rewrite (Hd1 e1 eq_refl) in *. apply Hshort in E1.
        rewrite H. split; [intros [line Hl]; discriminate Hl | ].
        intros (_ & Hx & _). lia.
    + rewrite H. split; [intros [line Hl]; discriminate Hl | ].
      intros ([n Hn] & _). discriminate Hn.
  - (* TypeError *)
    change (OtherError
              "'>' not supported between instances of 'str' and 'int'")
      with TypeError_str_int.
    destruct (stops f) as [n | s].
    + split; [ | intros [s Hs]; discriminate Hs].
      intros Hx. exfalso.
      destruct (expand_date (departure f)) as [dep | e1] eqn:E1.
      * destruct (expand_date (arrival f)) as [arr | e2] eqn:E2.
        -- destruct (price f).
           ++ rewrite H in Hx. vm_compute in Hx. discriminate Hx.
           ++ destruct H as [line H]. rewrite H in Hx. discriminate Hx.
           ++ destruct H as [line H]. rewrite H in Hx. discriminate Hx.
        -- rewrite (Ha1 e2 eq_refl) in *. rewrite H in Hx.
           discriminate Hx.
      * rewrite (Hd1 e1 eq_refl) in *. rewrite H in Hx. discriminate Hx.
    + split; [intros _; eauto | intros _; exact H].
  - (* IndexError *)
    destruct (stops f) as [n | s].
    + destruct (expand_date (departure f)) as [dep | e1] eqn:E1.
      * assert (Hdep : (6 <= length (PyStr.split (departure f)))%nat)
          by (apply Hd2; eauto).
        destruct (expand_date (arrival f)) as [arr | e2] eqn:E2.
        -- assert (Harr : (6 <= length (PyStr.split (arrival f)))%nat)
             by (apply Ha2; eauto).
           split; [ | intros [_ Hx]; lia].
           intros Hx. exfalso. destruct (price f).
           ++ rewrite H in Hx. vm_compute in Hx. discriminate Hx.
           ++ destruct H as [line H]. rewrite H in Hx. discriminate Hx.
           ++ destruct H as [line H]. rewrite H in Hx. discriminate Hx.
        -- rewrite (Ha1 e2 eq_refl) in *. apply Hshort in E2.
           split; [intros _ | intros _; exact H].
           split; [eauto | right; exact E2].
      * rewrite (Hd1 e1 eq_refl) in *. apply Hshort in E1.
        split; [intros _ | intros _; exact H].
        split; [eauto | left; exact E1].
    + rewrite H. split; [intros Hx; discriminate Hx | ].
      intros [[n Hn] _]. discriminate Hn.
  - (* KeyError *)
    destruct (stops f) as [n | s].
    + destruct (expand_date (departure f)) as [dep | e1] eqn:E1.
      * assert (Hdep : (6 <= length (PyStr.split (departure f)))%nat)
          by (apply Hd2; eauto).
        destruct (expand_date (arrival f)) as [arr | e2] eqn:E2.
        -- assert (Harr : (6 <= length (PyStr.split (arrival f)))%nat)
             by (apply Ha2; eauto).
           destruct (price f).
           ++ split; [intros _ | intros _; exact H].
              split; [eauto | ]. split; [exact Hdep | ].
              split; [exact Harr | reflexivity].
           ++ destruct H as [line H]. rewrite H.
              split; [intros Hx; discriminate Hx | ].
              intros (_ & _ & _ & Hx). discriminate Hx.
           ++ destruct H as [line H]. rewrite H.
              split; [intros Hx; discriminate Hx | ].
              intros (_ & _ & _ & Hx). discriminate Hx.
        -- rewrite (Ha1 e2 eq_refl) in *. apply Hshort in E2.
           rewrite H. split; [ | intros (_ & _ & Hx & _); lia].
           intros Hx. vm_compute in Hx. discriminate Hx.
      * rewrite (Hd1 e1 eq_refl) in *. apply Hshort in E1.
        rewrite H. split; [ | intros (_ & Hx & _); lia].
        intros Hx. vm_compute in Hx. discriminate Hx.
    + rewrite H. split; [ | intros [[n Hn] _]; discriminate Hn].
      intros Hx. vm_compute in Hx. discriminate Hx.
Qed.

Lemma no_space_append (a b : string) :
  forallb (fun c => negb (PyStr.isspace c)) (list_ascii_of_string (a ++ b))
  = forallb (fun c => negb (PyStr.isspace c)) (list_ascii_of_string a)
    && forallb (fun c => negb (PyStr.isspace c)) (list_ascii_of_string b).
Proof.
  induction a as [| x a IH]; cbn; [reflexivity | ].
  rewrite IH, andb_assoc. reflexivity.
Qed.

(** What [split] returns are tokens. *)
Lemma split_from_tokens (s cur : string) :
  forallb (fun c => negb (PyStr.isspace c)) (list_ascii_of_string cur) = true ->
  Forall Spec.token (PyStr.split_from cur s).
Proof.
  revert cur. induction s as [| c s IH]; intros cur Hcur; cbn.
  - destruct cur as [| x cur]; cbn; constructor; [ | constructor].
    split; [discriminate | exact Hcur].
  - destruct (PyStr.isspace c) eqn:Ec.
    + destruct cur as [| x cur]; cbn.
      * apply IH. reflexivity.
      * constructor; [split; [discriminate | exact Hcur] | ].
        apply IH. reflexivity.
    + apply IH. rewrite no_space_append, Hcur. cbn. rewrite Ec. reflexivity.
Qed.

Lemma split_tokens (s : string) : Forall Spec.token (PyStr.split s).
Proof. apply split_from_tokens. reflexivity. Qed.

(** X13.  Expanding a duration twice is expanding it once: a duration of
    four tokens becomes one of five tokens, which is left alone, and
    every other duration is left alone at once.  So the result never has
    exactly four tokens. *)
Theorem duration_formatted_idempotent (duration : string) :
  duration_formatted (duration_formatted duration)
  = duration_formatted duration
  /\ length (PyStr.split (duration_formatted duration)) <> 4%nat.
Proof.
  pose proof (split_tokens duration) as Ht.
  unfold duration_formatted at 2 3.
  destruct (PyStr.split duration) as [| h [| u [| m [| v [| w l]]]]] eqn:E;
    cbn [length Nat.eqb nth].
  1-4, 6: assert (Hsame : duration_formatted duration = duration)
            by (unfold duration_formatted; rewrite E; reflexivity);
          (split; [exact Hsame | rewrite Hsame, E; cbn [length]; lia]).
  inversion Ht as [| ? ? Hh Ht1]; subst.
  inversion Ht1 as [| ? ? Hu Ht2]; subst.
  inversion Ht2 as [| ? ? Hm _]; subst.
  assert (Hw : forall w', PyStr.is_empty w' = false ->
                          forallb (fun c => negb (PyStr.isspace c))
                            (list_ascii_of_string w') = true ->
                          Spec.token w').
  { intros w' H1 H2. split; [ | exact H2]. destruct w'; discriminate. }
  assert (Hsplit : PyStr.split (h ++ " hours and " ++ m ++ " minutes")
                   = [h; "hours"; "and"; m; "minutes"]).
  { change (h ++ " hours and " ++ m ++ " minutes")
      with (PyStr.join " " [h; "hours"; "and"; m; "minutes"]).
    apply split_join.
    repeat (apply Forall_cons;
            [first [assumption | apply Hw; reflexivity] | ]).
    apply Forall_nil. }
  assert (Hval : duration_formatted duration
                 = h ++ " hours and " ++ m ++ " minutes")
    by (unfold duration_formatted; rewrite E; reflexivity).
  split.
  - unfold duration_formatted. rewrite Hsplit. reflexivity.
  - rewrite Hval, Hsplit. cbn [length]. lia.
Qed.

Lemma In_firstn (A : Type) (n : nat) (l : list A) (x : A) :
  In x (firstn n l) -> In x l.
Proof.
  intros H. rewrite <- (firstn_skipn n l). apply in_or_app. now left.
Qed.

Lemma format_best_line (f : flight) (o d line : string) :
  is_best f = true ->
  format_flight_info f o d = Ok line ->
  exists before,
    line = before
           ++ " and is considered one of the best options by Google Flights!".
Proof.
  unfold format_flight_info. intros Hb.
  destruct (stops_text (stops f)) as [st | e]; [ | discriminate].
  destruct (expand_date (departure f)) as [dep | e]; [ | discriminate].
  destruct (expand_date (arrival f)) as [arr | e]; [ | discriminate].
  destruct (str_of_price (price f)) as [p | e]; [ | discriminate].
  cbn [rbind]. rewrite Hb. intros H.
  assert (Hl : line
               = ("This flight departs at " ++ dep ++ " from " ++ o
                  ++ ", local time, " ++ "and arrives at " ++ arr ++ " in " ++ d
                  ++ ", local time. " ++ "The flight is operated by "
                  ++ name f ++ " and has a duration of "
                  ++ duration_formatted (duration f) ++ " " ++ "with "
                  ++ st ++ " in between. "
                  ++ "And it's price is " ++ p)
                 ++ " and is considered one of the best options by Google Flights!").
  { injection H as <-. rewrite !append_assoc. reflexivity. }
  eexists. exact Hl.
Qed.

(** X14.  Every flight line the best tool returns says that the flight
    is considered one of the best options: no line of a flight without
    the best flag is ever in its result. *)
Theorem best_tool_lines_are_best (backend : Backend) (q : query) :
  forall line,
    In line (tl (output backend Best q)) ->
    exists before,
      line = before
             ++ " and is considered one of the best options by Google Flights!".
Proof.
  intros line. unfold output.
  destruct (params_ok Best q && target_ok Best) eqn:E.
  - apply andb_prop in E. destruct E as [Hp Ht].
    pose proof (run_call_no_flights backend Best q Hp Ht) as Hn.
    destruct (backend q) as [[| cp [| f F]] | e] eqn:Hb;
      try (rewrite Hn; cbn; contradiction);
      [ | rewrite Hn; unfold handled; destruct (is_exception e); cbn;
          contradiction].
    cbn [call].
    rewrite (run_best backend q cp (f :: F) Hp Hb ltac:(discriminate)).
    destruct (PyList.is_nil (filter is_best (f :: F)));
      [cbn; contradiction | ].
    destruct (format_all _ _ _) as [lines | e] eqn:El;
      [ | cbn; contradiction].
    cbn [fst tl]. intros Hin.
    apply rmap_Forall2 in El.
    assert (Hall : Forall (fun x => is_best x = true)
                     (firstn
                        (Nat.min 30 (length (filter is_best (f :: F))))
                        (filter is_best (f :: F)))).
    { apply Forall_forall. intros x Hx. apply In_firstn in Hx.
      apply filter_In in Hx. tauto. }
    induction El as [| x y top lines Hxy _ IH]; [contradiction | ].
    inversion Hall; subst. destruct Hin as [<- | Hin].
    + apply (format_best_line x (origin q) (destination q)); assumption.
    + apply IH; assumption.
  - destruct (not_valid_rejected backend Best q E) as [msg ->].
    cbn. contradiction.
Qed.

Lemma best_tool_lines_are_best_witness :
  In Sample.line_delta
    (tl (output (Sample.answers "typical" [Sample.united; Sample.delta])
           Best Sample.q_ok))
  /\ exists before,
       Sample.line_delta
       = before
         ++ " and is considered one of the best options by Google Flights!".
Proof.
  assert (Hin : In Sample.line_delta
                  (tl (output
                         (Sample.answers "typical"
                            [Sample.united; Sample.delta])
                         Best Sample.q_ok)))
    by (vm_compute; left; reflexivity).
  split; [exact Hin | ].
  exact (best_tool_lines_are_best
           (Sample.answers "typical" [Sample.united; Sample.delta])
           Sample.q_ok Sample.line_delta Hin).
Defined.

(** ** More on the cheapest flights *)

Lemma filter_perm (A : Type) (p : A -> bool) (l l' : list A) :
  Permutation l l' -> Permutation (filter p l) (filter p l').
Proof.
  induction 1 as [| x l l' _ IH | x y l | l l' l'' _ IH1 _ IH2]; cbn.
  - constructor.
  - destruct (p x); [constructor | ]; exact IH.
  - destruct (p x), (p y); try apply Permutation_refl. apply perm_swap.
  - eapply perm_trans; eassumption.
Qed.

Lemma filter_key_at_most_one (A : Type) (key : A -> PyFloat.t)
    (k : PyFloat.t) (l : list A) :
  NoDup (map key l) ->
  filter (fun r => PyFloat.eqb (key r) k) l = []
  \/ exists x, filter (fun r => PyFloat.eqb (key r) k) l = [x].
Proof.
  induction l as [| x l IH]; cbn; intros Hnd; [now left | ].
  inversion Hnd as [| ? ? Hx Hl]; subst.
  destruct (PyFloat.eqb (key x) k) eqn:E; [ | apply IH, Hl].
  right. exists x. f_equal.
  destruct (filter (fun r => PyFloat.eqb (key r) k) l) as [| y l'] eqn:Ef;
    [reflexivity | ].
  exfalso. apply Hx.
  assert (Hy : In y (filter (fun r => PyFloat.eqb (key r) k) l))
    by (rewrite Ef; now left).
  apply filter_In in Hy. destruct Hy as [Hy Hk].
  apply eqb_eq in E, Hk. rewrite E, <- Hk. apply in_map, Hy.
Qed.

(** With keys that are all different, the order of the input does not
    matter to [sorted]. *)
Lemma sorted_of_permutation (A : Type) (key : A -> PyFloat.t)
    (l l' : list A) :
  Permutation l l' ->
  Forall (fun a => PyFloat.is_nan (key a) = false) l ->
  NoDup (map key l) ->
  PyList.sorted key l = PyList.sorted key l'.
Proof.
  intros Hp Hn Hnd.
  assert (Hn' : Forall (fun a => PyFloat.is_nan (key a) = false) l')
    by (apply (Permutation_Forall Hp Hn)).
  apply (stable_sorted_unique key).
  - apply (Permutation_Forall (sorted_perm key l) Hn).
  - apply (Permutation_Forall (sorted_perm key l') Hn').
  - apply sorted_sorted, Hn.
  - apply sorted_sorted, Hn'.
  - intros k. rewrite !sorted_filter.
    pose proof (filter_perm _ (fun r => PyFloat.eqb (key r) k) l l' Hp)
      as Hf.
    destruct (filter_key_at_most_one _ key k l Hnd) as [E | [x E]];
      rewrite E in *.
    + symmetry. apply Permutation_nil, Hf.
    + symmetry. apply Permutation_length_1_inv, Hf.
Qed.

(** X15.  When no price parses to NaN, the first flight the cheapest
    tool lists is a cheapest one: a flight of the backend such that no
    flight of the backend has a smaller price key. *)
Theorem cheapest_first_flight_is_cheapest
    (backend : Backend) (q : query) (cp : string) (F : list flight) :
  params_ok Cheapest q = true ->
  backend q = Ok (ResultDict cp F) ->
  F <> [] ->
  Forall (fun f => PyFloat.is_nan (get_price_value f) = false) F ->
  exists m,
    In m F
    /\ (forall f, In f F ->
                  PyFloat.ltb (get_price_value f) (get_price_value m) = false)
    /\ (forall header line lines,
          fst (run (get_cheapest_flights backend q))
          = Ok (header :: line :: lines) ->
          format_flight_info m (origin q) (destination q) = Ok line).
Proof.
  intros Hp Hb HF Hn.
  pose proof (sorted_perm get_price_value F) as Hperm.
  pose proof (sorted_sorted get_price_value F Hn) as Hs.
  pose proof (run_cheapest backend q cp F Hp Hb HF) as Hrun.
  destruct (PyList.sorted get_price_value F) as [| m rest] eqn:E.
  - apply Permutation_sym, Permutation_nil in Hperm. contradiction.
  - exists m. split; [ | split].
    + apply (Permutation_in _ (Permutation_sym Hperm)). now left.
    + intros f Hf. apply (Permutation_in _ Hperm) in Hf.
      inversion Hs as [| ? ? _ Hall]; subst.
      destruct Hf as [<- | Hf]; [apply ltb_irrefl | ].
      rewrite Forall_forall in Hall. apply (Hall f Hf).
    + intros header line lines. rewrite Hrun.
      destruct F as [| f0 F0]; [contradiction | ].
      replace (Nat.min 30 (length (f0 :: F0)))
        with (S (Nat.min 29 (length F0))) by (cbn [length]; lia).
      cbn [firstn].
      destruct (format_all _ _ _) as [ls | e] eqn:Ef; cbn [fst];
        intros H; [ | discriminate H].
      apply rmap_Forall2 in Ef.
      inversion Ef as [| ? l0 ? ? Hm _]; subst.
      inversion H; subst. exact Hm.
Qed.

Lemma cheapest_first_flight_is_cheapest_witness :
  (params_ok Cheapest Sample.q_ok = true
   /\ [Sample.jetblue; Sample.delta; Sample.united] <> []
   /\ Forall (fun f => PyFloat.is_nan (get_price_value f) = false)
        [Sample.jetblue; Sample.delta; Sample.united])
  /\ exists m,
       In m [Sample.jetblue; Sample.delta; Sample.united]
       /\ (forall f, In f [Sample.jetblue; Sample.delta; Sample.united] ->
                     PyFloat.ltb (get_price_value f) (get_price_value m)
                     = false)
       /\ (forall header line lines,
             fst (run (get_cheapest_flights
                         (Sample.answers "typical"
                            [Sample.jetblue; Sample.delta; Sample.united])
                         Sample.q_ok))
             = Ok (header :: line :: lines) ->
             format_flight_info m "JFK" "LAX" = Ok line).
Proof.
  assert (Hn : Forall (fun f => PyFloat.is_nan (get_price_value f) = false)
                 [Sample.jetblue; Sample.delta; Sample.united])
    by (repeat constructor; vm_compute; reflexivity).
  split; [split; [reflexivity | split; [discriminate | exact Hn]] | ].
  exact (cheapest_first_flight_is_cheapest
           (Sample.answers "typical"
              [Sample.jetblue; Sample.delta; Sample.united])
           Sample.q_ok "typical"
           [Sample.jetblue; Sample.delta; Sample.united]
           eq_refl eq_refl ltac:(discriminate) Hn).
Defined.

(** X16.  When the price keys of the flights are all different and none
    is NaN, the result of the cheapest tool does not depend on the order
    in which the backend lists the flights. *)
Theorem cheapest_order_independent
    (backend backend' : Backend) (q : query) (cp cp' : string)
    (F F' : list flight) :
  params_ok Cheapest q = true ->
  backend q = Ok (ResultDict cp F) -> backend' q = Ok (ResultDict cp' F') ->
  F <> [] ->
  Permutation F F' ->
  Forall (fun f => PyFloat.is_nan (get_price_value f) = false) F ->
  NoDup (map get_price_value F) ->
  run (get_cheapest_flights backend q) = run (get_cheapest_flights backend' q).
Proof.
  intros Hp Hb Hb' HF Hperm Hn Hnd.
  assert (HF' : F' <> []).
  { intros ->. apply Permutation_sym, Permutation_nil in Hperm.
    contradiction. }
  rewrite (run_cheapest backend q cp F Hp Hb HF).
  rewrite (run_cheapest backend' q cp' F' Hp Hb' HF').
  rewrite (sorted_of_permutation _ get_price_value F F' Hperm Hn Hnd).
  rewrite (Permutation_length Hperm). reflexivity.
Qed.

Lemma cheapest_order_independent_witness :
  (params_ok Cheapest Sample.q_ok = true
   /\ [Sample.jetblue; Sample.delta; Sample.united] <> []
   /\ Permutation [Sample.jetblue; Sample.delta; Sample.united]
        [Sample.united; Sample.jetblue; Sample.delta]
   /\ Forall (fun f => PyFloat.is_nan (get_price_value f) = false)
        [Sample.jetblue; Sample.delta; Sample.united]
   /\ NoDup (map get_price_value
               [Sample.jetblue; Sample.delta; Sample.united]))
  /\ run (get_cheapest_flights
            (Sample.answers "typical"
               [Sample.jetblue; Sample.delta; Sample.united]) Sample.q_ok)
     = run (get_cheapest_flights
              (Sample.answers "low"
                 [Sample.united; Sample.jetblue; Sample.delta]) Sample.q_ok).
Proof.
  assert (Hn : Forall (fun f => PyFloat.is_nan (get_price_value f) = false)
                 [Sample.jetblue; Sample.delta; Sample.united])
    by (repeat constructor; vm_compute; reflexivity).
  assert (Hperm : Permutation [Sample.jetblue; Sample.delta; Sample.united]
                    [Sample.united; Sample.jetblue; Sample.delta]).
  { apply Permutation_sym.
    apply (Permutation_cons_app [Sample.jetblue; Sample.delta] []).
    apply Permutation_refl. }
  assert (Hnd : NoDup (map get_price_value
                         [Sample.jetblue; Sample.delta; Sample.united])).
  { repeat constructor; vm_compute; intuition discriminate. }
  split.
  - split; [reflexivity | ]. split; [discriminate | ].
    split; [exact Hperm | ]. split; [exact Hn | exact Hnd].
  - exact (cheapest_order_independent
             (Sample.answers "typical"
                [Sample.jetblue; Sample.delta; Sample.united])
             (Sample.answers "low"
                [Sample.united; Sample.jetblue; Sample.delta])
             Sample.q_ok "typical" "low" _ _
             eq_refl eq_refl eq_refl ltac:(discriminate) Hperm Hn Hnd).
Defined.

(** ** Prices in whole dollars *)

(** What the parser of [float] sees of a decimal digit. *)
Lemma digit_char (c : ascii) :
  PyFloat.is_digit c = true ->
  PyFloat.isspace c = false
  /\ Ascii.eqb c "_" = false /\ Ascii.eqb c "-" = false
  /\ Ascii.eqb c "+" = false /\ Ascii.eqb c "$" = false
  /\ Ascii.eqb c "," = false /\ Ascii.eqb c "." = false
  /\ Ascii.eqb (PyTime.lower c) "i" = false
  /\ Ascii.eqb (PyTime.lower c) "n" = false
  /\ Ascii.eqb (PyTime.lower c) "e" = false.
Proof.
  destruct c as [[] [] [] [] [] [] [] []]; vm_compute; intros H;
    try discriminate H; repeat split.
Qed.

(** An integer below 2^53 is a binary64 value: nothing is rounded. *)
Lemma round64_exact (m : Z) :
  0 <= m < 2 ^ 53 -> PyFloat.round64 m 1 = Some (m * 2 ^ 1074).
Proof.
  intros Hm. cbv beta zeta delta [PyFloat.round64].
  rewrite Z.div_1_r, Z.mul_1_l.
  set (shift := Z.max 0 (Z.log2 (m * 2 ^ 1074) + 1 - 53)).
  assert (Hs : 0 <= shift <= 1074).
  { unfold shift. destruct (Z.eq_dec m 0) as [-> | Hne].
    - rewrite Z.mul_0_l. cbn [Z.log2]. lia.
    - rewrite Z.log2_mul_pow2 by lia.
      assert (Z.log2 m < 53) by (apply Z.log2_lt_pow2; lia).
      pose proof (Z.log2_nonneg m). lia. }
  clearbody shift.
  assert (Hlt : m * 2 ^ 1074 < 2 ^ 2098).
  { apply Z.lt_le_trans with (2 ^ 53 * 2 ^ 1074).
    - apply Z.mul_lt_mono_pos_r; [apply Z.pow_pos_nonneg; lia | lia].
    - rewrite <- Z.pow_add_r by lia. apply Z.pow_le_mono_r; lia. }
  assert (E : m * 2 ^ 1074 = m * 2 ^ (1074 - shift) * 2 ^ shift).
  { rewrite <- Z.mul_assoc, <- Z.pow_add_r by lia. do 2 f_equal. lia. }
  assert (Hpos : 0 < 2 ^ shift) by (apply Z.pow_pos_nonneg; lia).
  revert Hlt. generalize (2 ^ 2098). rewrite E.
  generalize dependent (2 ^ shift). intros d _ Hd.
  generalize (m * 2 ^ (1074 - shift)). intros a bound Hlt.
  unfold PyFloat.round_half_even.
  rewrite Z.div_mul, Z.mod_mul by lia.
  destruct (Z.compare_spec (2 * 0) d); try lia.
  destruct (Z.leb_spec bound (a * d)); [lia | reflexivity].
Qed.

Lemma fold_digits_nonneg (ds : list Z) (acc : Z) :
  Forall (fun d => 0 <= d) ds -> 0 <= acc ->
  0 <= fold_left (fun acc d => 10 * acc + d) ds acc.
Proof.
  revert acc. induction ds as [| d ds IH]; intros acc Hds Hacc; [exact Hacc | ].
  inversion Hds; subst. cbn [fold_left]. apply IH; [assumption | lia].
Qed.

Lemma digit_values_nonneg (l : list ascii) :
  Forall (fun d => 0 <= d) (digit_values l).
Proof.
  induction l as [| c l IH]; [constructor | ].
  unfold digit_values. cbn [flat_map].
  destruct (PyTime.digit c) as [d | ] eqn:E; [ | exact IH].
  constructor; [ | exact IH]. apply (digit_range c d E).
Qed.

Lemma lstrip_digits (l : list ascii) :
  all_digits l -> PyFloat.lstrip l = l.
Proof.
  intros H. destruct H as [| c l Hc _]; [reflexivity | ].
  cbn [PyFloat.lstrip]. destruct (digit_char c Hc) as [-> _]. reflexivity.
Qed.

Lemma strip_digits (l : list ascii) :
  all_digits l -> PyFloat.strip l = l.
Proof.
  intros H. unfold PyFloat.strip.
  rewrite (lstrip_digits l H), lstrip_digits, rev_involutive; [reflexivity | ].
  apply Forall_rev, H.
Qed.

Lemma drop_underscores_digits (prev : ascii) (l : list ascii) :
  Ascii.eqb prev "_" = false -> all_digits l ->
  PyFloat.drop_underscores prev l = Some l.
Proof.
  intros Hprev H. revert prev Hprev.
  induction H as [| c l Hc _ IH]; intros prev Hprev; cbn [PyFloat.drop_underscores].
  - rewrite Hprev. reflexivity.
  - destruct (digit_char c Hc) as (_ & Hu & _).
    rewrite Hu, Hprev. cbn [andb]. rewrite (IH c Hu). reflexivity.
Qed.

Lemma span_digits_digits (l : list ascii) :
  all_digits l -> PyFloat.span_digits l = (digit_values l, []).
Proof.
  induction 1 as [| c l Hc _ IH]; [reflexivity | ].
  unfold digit_values. cbn [PyFloat.span_digits flat_map].
  unfold PyFloat.is_digit in Hc.
  destruct (PyTime.digit c) as [d | ]; [ | discriminate].
  rewrite IH. reflexivity.
Qed.

Lemma float_of_digits (l : list ascii) :
  all_digits l -> l <> [] ->
  PyFloat.digits_value (digit_values l) < 2 ^ 53 ->
  PyFloat.float (string_of_list_ascii l)
  = Some (PyFloat.Fin (PyFloat.digits_value (digit_values l) * 2 ^ 1074)).
Proof.
  intros H Hne Hlt. unfold PyFloat.float.
  rewrite list_ascii_of_string_of_list_ascii, (strip_digits l H).
  rewrite (drop_underscores_digits zero l eq_refl H).
  destruct l as [| c l]; [contradiction | ].
  pose proof (Forall_inv H) as Hc. cbn beta in Hc.
  destruct (digit_char c Hc) as (_ & _ & Hm & Hp & _ & _ & _ & Hi & Hn & _).
  unfold PyFloat.parse_sign. rewrite Hm, Hp.
  unfold PyFloat.lower_string. cbn [map string_of_list_ascii].
  cbn [String.eqb]. rewrite Hi, Hn. cbn [orb].
  unfold PyFloat.parse_number. rewrite (span_digits_digits _ H).
  assert (Hd : PyFloat.no_digit (digit_values (c :: l)) = false).
  { unfold digit_values. cbn [flat_map]. unfold PyFloat.is_digit in Hc.
    destruct (PyTime.digit c); [reflexivity | discriminate]. }
  rewrite Hd. cbn [andb]. rewrite app_nil_r.
  change (- Z.of_nat (length (@nil Z))) with 0.
  unfold PyFloat.of_decimal. change (0 <=? 0) with true. cbv iota.
  rewrite Z.pow_0_r, Z.mul_1_r, round64_exact; [reflexivity | ].
  split; [ | exact Hlt].
  apply fold_digits_nonneg; [apply digit_values_nonneg | lia].
Qed.

Lemma price_char_cases (c : ascii) :
  price_char c = true ->
  Ascii.eqb c "P" = false
  /\ (PyFloat.is_digit c = false ->
      Ascii.eqb c "$" = true
      \/ (Ascii.eqb c "$" = false /\ Ascii.eqb c "," = true)).
Proof.
  destruct c as [[] [] [] [] [] [] [] []]; vm_compute; intros H;
    try discriminate H; (split; [reflexivity | ]); intros H';
    try discriminate H'; auto.
Qed.

Lemma remove_price_chars (s : string) :
  Forall (fun c => price_char c = true) (list_ascii_of_string s) ->
  PyStr.remove_char "," (PyStr.remove_char "$" s)
  = string_of_list_ascii (filter PyFloat.is_digit (list_ascii_of_string s)).
Proof.
  induction s as [| c s IH]; intros H; [reflexivity | ].
  cbn [list_ascii_of_string] in H. inversion H as [| ? ? Hc Hs]; subst.
  cbn [list_ascii_of_string filter PyStr.remove_char].
  destruct (PyFloat.is_digit c) eqn:Ed.
  - destruct (digit_char c Ed) as (_ & _ & _ & _ & Hd & Hk & _).
    rewrite Hd. cbn [PyStr.remove_char]. rewrite Hk.
    cbn [string_of_list_ascii]. f_equal. apply IH, Hs.
  - destruct (price_char_cases c Hc) as [_ Hcases].
    destruct (Hcases Ed) as [Hd | [Hd Hk]]; rewrite Hd.
    + apply IH, Hs.
    + cbn [PyStr.remove_char]. rewrite Hk. apply IH, Hs.
Qed.

Lemma filter_all_digits (l : list ascii) :
  all_digits (filter PyFloat.is_digit l).
Proof.
  induction l as [| c l IH]; [constructor | ]. cbn [filter].
  destruct (PyFloat.is_digit c) eqn:E; [constructor; assumption | exact IH].
Qed.

Lemma digit_values_filter (l : list ascii) :
  digit_values (filter PyFloat.is_digit l) = digit_values l.
Proof.
  unfold digit_values.
  induction l as [| c l IH]; [reflexivity | ]. cbn [filter flat_map].
  unfold PyFloat.is_digit at 1.
  destruct (PyTime.digit c) as [d | ] eqn:E; [ | exact IH].
  cbn [flat_map]. rewrite E, IH. reflexivity.
Qed.

Lemma price_key_of_amount (f : flight) (s : string) :
  price f = Price s ->
  Forall (fun c => price_char c = true) (list_ascii_of_string s) ->
  price_digits s <> [] ->
  amount s < 2 ^ 53 ->
  get_price_value f = PyFloat.Fin (amount s * 2 ^ 1074).
Proof.
  intros Hp Hc Hd Hlt. unfold get_price_value. rewrite Hp.
  assert (Hguard : PyStr.is_empty s || String.eqb s "Price unavailable"
                   = false).
  { destruct s as [| c s]; [exfalso; apply Hd; reflexivity | ].
    cbn [list_ascii_of_string] in Hc.
    destruct (price_char_cases c (Forall_inv Hc)) as [HP _].
    cbn [PyStr.is_empty orb String.eqb]. rewrite HP. reflexivity. }
  rewrite Hguard, (remove_price_chars s Hc).
  unfold amount, price_digits in *.
  rewrite <- digit_values_filter in Hd, Hlt |- *.
  rewrite (float_of_digits _ (filter_all_digits _)); [reflexivity | | exact Hlt].
  intros E. rewrite E in Hd. apply Hd. reflexivity.
Qed.

(** X17.  Prices in whole dollars are compared as numbers, not as text:
    for two flights whose price strings are written with digits, [$] and
    [,] only, with at least one digit and an amount below 2^53, the price
    keys of the cheapest tool are in the order of the amounts, and they
    are equal exactly when the amounts are. *)
Theorem whole_dollar_prices_compare_as_numbers (f g : flight) (s t : string) :
  price f = Price s -> price g = Price t ->
  Forall (fun c => price_char c = true) (list_ascii_of_string s) ->
  Forall (fun c => price_char c = true) (list_ascii_of_string t) ->
  price_digits s <> [] -> price_digits t <> [] ->
  amount s < 2 ^ 53 -> amount t < 2 ^ 53 ->
  PyFloat.ltb (get_price_value f) (get_price_value g) = (amount s <? amount t)
  /\ PyFloat.eqb (get_price_value f) (get_price_value g)
     = (amount s =? amount t).
Proof.
  intros Hf Hg Hs Ht Hds Hdt Hls Hlt.
  rewrite (price_key_of_amount f s Hf Hs Hds Hls).
  rewrite (price_key_of_amount g t Hg Ht Hdt Hlt).
  cbn [PyFloat.ltb PyFloat.eqb].
  assert (Hp : 0 < 2 ^ 1074) by (apply Z.pow_pos_nonneg; lia).
  revert Hp. generalize (2 ^ 1074). intros P HP. split.
  - destruct (Z.ltb_spec (amount s) (amount t)) as [H | H].
    + apply Z.ltb_lt. apply Z.mul_lt_mono_pos_r; assumption.
    + apply Z.ltb_ge. apply Z.mul_le_mono_nonneg_r; lia.
  - destruct (Z.eqb_spec (amount s) (amount t)) as [H | H].
    + rewrite H. apply Z.eqb_refl.
    + apply Z.eqb_neq. intros E. apply H.
      apply (Z.mul_reg_r _ _ P); [lia | exact E].
Qed.

Lemma whole_dollar_prices_compare_as_numbers_witness :
  (Forall (fun c => price_char c = true) (list_ascii_of_string "$99")
   /\ Forall (fun c => price_char c = true) (list_ascii_of_string "$1,234")
   /\ price_digits "$99" <> [] /\ price_digits "$1,234" <> []
   /\ amount "$99" < 2 ^ 53 /\ amount "$1,234" < 2 ^ 53)
  /\ PyFloat.ltb (get_price_value Sample.united)
        (get_price_value Sample.delta) = (amount "$99" <? amount "$1,234")
  /\ PyFloat.eqb (get_price_value Sample.united)
        (get_price_value Sample.delta) = (amount "$99" =? amount "$1,234").
Proof.
  assert (Hs : Forall (fun c => price_char c = true)
                 (list_ascii_of_string "$99"))
    by (repeat constructor).
  assert (Ht : Forall (fun c => price_char c = true)
                 (list_ascii_of_string "$1,234"))
    by (repeat constructor).
  assert (Hds : price_digits "$99" <> []) by (vm_compute; discriminate).
  assert (Hdt : price_digits "$1,234" <> []) by (vm_compute; discriminate).
  assert (Hls : amount "$99" < 2 ^ 53) by (vm_compute; reflexivity).
  assert (Hlt : amount "$1,234" < 2 ^ 53) by (vm_compute; reflexivity).
  split; [repeat (split; [assumption | ]); assumption | ].
  exact (whole_dollar_prices_compare_as_numbers Sample.united Sample.delta
           "$99" "$1,234" eq_refl eq_refl Hs Ht Hds Hdt Hls Hlt).
Defined.

(** ** The Playwright set-up helpers *)

(** [needle in hay] holds exactly when [needle] is a substring. *)
Lemma prefix_append (a b : string) :
  String.prefix a b = true <-> exists post, b = a ++ post.
Proof.
  revert b. induction a as [| c a IH]; intros b.
  - split; [intros _; exists b; reflexivity | ].
    intros _. destruct b; reflexivity.
  - destruct b as [| c' b]; cbn [String.prefix].
    + split; [discriminate | intros [post E]; discriminate E].
    + destruct (ascii_dec c c') as [<- | Hne].
      * rewrite IH. split; intros [post E]; exists post.
        -- cbn. rewrite <- E. reflexivity.
        -- cbn in E. inversion E. reflexivity.
      * split; [discriminate | ].
        intros [post E]. cbn in E. congruence.
Qed.

Lemma find_in_substring (needle hay : string) :
  PyStr.find_in needle hay = true
  <-> exists pre post, hay = pre ++ needle ++ post.
Proof.
  induction hay as [| c hay IH]; cbn [PyStr.find_in].
  - rewrite orb_false_r, prefix_append. split.
    + intros [post E]. exists EmptyString, post. exact E.
    + intros [pre [post E]]. destruct pre as [| c pre]; [ | discriminate E].
      exists post. exact E.
  - rewrite orb_true_iff, prefix_append, IH. split.
    + intros [[post E] | [pre [post E]]].
      * exists EmptyString, post. exact E.
      * exists (String c pre), post. cbn. rewrite E. reflexivity.
    + intros [pre [post E]]. destruct pre as [| c' pre].
      * left. exists post. exact E.
      * right. exists pre, post. cbn in E. inversion E. reflexivity.
Qed.

(** The run of [ensure_playwright_browsers], case by case. *)
Lemma ensure_cases (executable : string) (os : Playwright.Subprocess)
    (w : Playwright.world) :
  let dry := Playwright.dry_run executable in
  let inst := Playwright.install executable in
  let say (rs : list Playwright.invocation) (ls : list string) :=
    Playwright.mkWorld (Playwright.runs w ++ rs)%list
                       (Playwright.printed w ++ ls)%list in
  Playwright.ensure_playwright_browsers executable os w
  = match os dry with
    | Playwright.Returned result =>
        if Playwright.already_installed result
        then (Playwright.Returned true, say [dry] [])
        else
          match os inst with
          | Playwright.Returned install_result =>
              if Playwright.returncode install_result =? 0
              then (Playwright.Returned true,
                    say [dry; inst]
                      ["Installing Playwright Chromium browser...";
                       "Playwright Chromium browser installed successfully!"])
              else (Playwright.Returned false,
                    say [dry; inst]
                      ["Installing Playwright Chromium browser...";
                       "Failed to install Playwright browsers: "
                       ++ Playwright.stderr install_result])
          | Playwright.Raised e =>
              (Playwright.Returned false,
               say [dry; inst]
                 ["Installing Playwright Chromium browser...";
                  match e with
                  | Playwright.TimeoutExpired _ =>
                      "Timeout occurred while installing Playwright browsers"
                  | Playwright.FileNotFoundError _ =>
                      "Playwright CLI not found. Make sure playwright is installed."
                  | _ => "Error checking/installing Playwright browsers: "
                         ++ Playwright.detail_of e
                  end])
          end
    | Playwright.Raised e =>
        (Playwright.Returned false,
         say [dry]
           [match e with
            | Playwright.TimeoutExpired _ =>
                "Timeout occurred while installing Playwright browsers"
            | Playwright.FileNotFoundError _ =>
                "Playwright CLI not found. Make sure playwright is installed."
            | _ => "Error checking/installing Playwright browsers: "
                   ++ Playwright.detail_of e
            end])
    end.
Proof.
  cbv zeta.
  unfold Playwright.ensure_playwright_browsers, Playwright.try_except,
    Playwright.bind, Playwright.subprocess_run, Playwright.print,
    Playwright.ret, Playwright.already_installed.
  destruct (os (Playwright.dry_run executable)) as [result | e].
  - destruct ((Playwright.returncode result =? 0)
              && PyStr.find_in "is already installed"
                   (Playwright.stdout result)).
    + cbn. rewrite app_nil_r. reflexivity.
    + cbn. destruct (os (Playwright.install executable)) as [r' | e].
      * destruct (Playwright.returncode r' =? 0); cbn;
          rewrite <- !app_assoc; reflexivity.
      * destruct e; cbn; rewrite <- !app_assoc; reflexivity.
  - destruct e; cbn; reflexivity.
Qed.

Lemma already_installed_iff (result : Playwright.CompletedProcess) :
  Playwright.already_installed result = true
  <-> Playwright.returncode result = 0
      /\ exists pre post,
           Playwright.stdout result = pre ++ "is already installed" ++ post.
Proof.
  unfold Playwright.already_installed.
  rewrite andb_true_iff, Z.eqb_eq, find_in_substring. reflexivity.
Qed.

Lemma ensure_returns (executable : string) (os : Playwright.Subprocess)
    (w : Playwright.world) :
  exists b, fst (Playwright.ensure_playwright_browsers executable os w)
            = Playwright.Returned b.
Proof.
  rewrite ensure_cases.
  destruct (os (Playwright.dry_run executable)) as [result | e];
    [ | eexists; reflexivity].
  destruct (Playwright.already_installed result); [eexists; reflexivity | ].
  destruct (os (Playwright.install executable)) as [r' | e];
    [ | eexists; reflexivity].
  destruct (Playwright.returncode r' =? 0); eexists; reflexivity.
Qed.

Lemma check_cases (import_playwright : Playwright.outcome unit)
    (executable : string) (os : Playwright.Subprocess)
    (w : Playwright.world) :
  Playwright.check_playwright_setup import_playwright executable os w
  = match import_playwright with
    | Playwright.Returned _ =>
        Playwright.ensure_playwright_browsers executable os w
    | Playwright.Raised e =>
        (Playwright.Returned false,
         Playwright.mkWorld (Playwright.runs w)
           (Playwright.printed w
            ++ [match e with
                | Playwright.ImportError _ =>
                    "Playwright is not installed. Please install it with: pip install playwright"
                | _ => ("Error during Playwright setup check: "
                        ++ Playwright.detail_of e)%string
                end])%list)
    end.
Proof.
  unfold Playwright.check_playwright_setup, Playwright.try_except,
    Playwright.bind, Playwright.lift.
  destruct import_playwright as [u | e].
  - destruct (ensure_returns executable os w) as [b Hb].
    destruct (Playwright.ensure_playwright_browsers executable os w)
      as [[b' | e] w']; [reflexivity | discriminate Hb].
  - destruct e; reflexivity.
Qed.

(** X18.  Neither set-up helper ever raises: whatever the two commands
    and the import of playwright do, [ensure_playwright_browsers] and
    [check_playwright_setup] return a boolean. *)
Theorem playwright_helpers_never_raise
    (import_playwright : Playwright.outcome unit) (executable : string)
    (os : Playwright.Subprocess) (w : Playwright.world) :
  (exists b, fst (Playwright.ensure_playwright_browsers executable os w)
             = Playwright.Returned b)
  /\ (exists b, fst (Playwright.check_playwright_setup import_playwright
                       executable os w)
                = Playwright.Returned b).
Proof.
  split; [apply ensure_returns | ].
  rewrite check_cases. destruct import_playwright as [u | e].
  - apply ensure_returns.
  - exists false. reflexivity.
Qed.

(** X19.  [ensure_playwright_browsers] starts one or two commands: first
    the dry run, with a timeout of 30 seconds, and then the installation,
    with a timeout of 300 seconds, exactly when the dry run returned and
    did not say that the browser is there. *)
Theorem ensure_browsers_commands
    (executable : string) (os : Playwright.Subprocess)
    (w : Playwright.world) :
  Playwright.runs
    (snd (Playwright.ensure_playwright_browsers executable os w))
  = (Playwright.runs w
     ++ Playwright.mkInvocation
          [executable; "-m"; "playwright"; "install"; "--dry-run"; "chromium"]
          30
        :: match os (Playwright.dry_run executable) with
           | Playwright.Returned result =>
               if Playwright.already_installed result then []
               else [Playwright.mkInvocation
                       [executable; "-m"; "playwright"; "install"; "chromium"]
                       300]
           | Playwright.Raised _ => []
           end)%list.
Proof.
  rewrite ensure_cases.
  destruct (os (Playwright.dry_run executable)) as [result | e];
    [ | reflexivity].
  destruct (Playwright.already_installed result); [reflexivity | ].
  destruct (os (Playwright.install executable)) as [r' | e];
    [ | reflexivity].
  destruct (Playwright.returncode r' =? 0); reflexivity.
Qed.

(** X20.  [ensure_playwright_browsers] returns [True] exactly when the
    dry run returned and either it returned code 0 with the words
    [is already installed] somewhere in its output, or the installation
    returned with code 0. *)
Theorem ensure_browsers_true_iff
    (executable : string) (os : Playwright.Subprocess)
    (w : Playwright.world) :
  fst (Playwright.ensure_playwright_browsers executable os w)
  = Playwright.Returned true
  <-> exists result,
        os (Playwright.dry_run executable) = Playwright.Returned result
        /\ ((Playwright.returncode result = 0
             /\ exists pre post,
                  Playwright.stdout result
                  = pre ++ "is already installed" ++ post)
            \/ exists install_result,
                 os (Playwright.install executable)
                 = Playwright.Returned install_result
                 /\ Playwright.returncode install_result = 0).
Proof.
  rewrite ensure_cases.
  destruct (os (Playwright.dry_run executable)) as [result | e].
  - destruct (Playwright.already_installed result) eqn:Ea.
    + split; [intros _ | reflexivity].
      exists result. split; [reflexivity | left].
      apply already_installed_iff, Ea.
    + assert (Hno : ~ (Playwright.returncode result = 0
                       /\ exists pre post,
                            Playwright.stdout result
                            = pre ++ "is already installed" ++ post)).
      { intros H. apply already_installed_iff in H. congruence. }
      destruct (os (Playwright.install executable)) as [r' | e].
      * destruct (Z.eqb_spec (Playwright.returncode r') 0) as [E | E].
        -- split; [intros _ | reflexivity].
           exists result. split; [reflexivity | right].
           exists r'. split; [reflexivity | exact E].
        -- split; [discriminate | ].
           intros [r [Hr [H | [r'' [Hr' H]]]]].
           ++ inversion Hr; subst. contradiction.
           ++ inversion Hr'; subst. contradiction.
      * split; [discriminate | ].
        intros [r [Hr [H | [r'' [Hr' H]]]]].
        -- inversion Hr; subst. contradiction.
        -- discriminate Hr'.
  - split; [discriminate | ]. intros [r [Hr _]]. discriminate Hr.
Qed.




(** X23.  When playwright can be imported, [check_playwright_setup] does
    what [ensure_playwright_browsers] does: same result, same commands,
    same printed lines; its own handlers are never reached. *)
Theorem check_setup_with_playwright
    (executable : string) (os : Playwright.Subprocess)
    (w : Playwright.world) :
  Playwright.check_playwright_setup (Playwright.Returned tt) executable os w
  = Playwright.ensure_playwright_browsers executable os w.
Proof.
  rewrite check_cases. reflexivity.
Qed.
